(** * Chunking, vector index and retrieval of the document service

    A shallow embedding of [backend/app/services/document_loader.py]
    ([DocumentLoader.chunk_text]) and [backend/app/services/indexer.py]
    ([DocumentIndexer], [VectorSearchEngine]).

    Conventions.
    - Python [int] is [Z]; [len] of a list or string is a [nat] injected
      with [Z.of_nat].
    - Python [str] is [string]; a character is a code point below 256.
    - A Python [dict] is an association list in insertion order without
      duplicate keys ([PyDict.set] overwrites in place, or appends).
    - An exception is the [Raise] outcome; a method of the indexer takes
      the object state and returns its outcome with the new state.
    - Scores ([float]) are rationals; rounding of floats is not modelled. *)

From Stdlib Require Import String Ascii ZArith QArith Lia Bool Arith List.
From Stdlib Require Import Permutation.
Import ListNotations.

Local Open Scope string_scope.
Local Open Scope list_scope.
Local Open Scope Z_scope.

(** ** Python strings *)

Module PyStr.

(** [str.isspace] on a code point below 256. *)
Definition is_space (a : ascii) : bool :=
  let n := nat_of_ascii a in
  (((9 <=? n) && (n <=? 13)) || ((28 <=? n) && (n <=? 32))
   || (n =? 133) || (n =? 160))%nat.

Definition len (s : string) : Z := Z.of_nat (String.length s).

(** [s.lstrip()] *)
Fixpoint lstrip (s : string) : string :=
  match s with
  | EmptyString => EmptyString
  | String a r => if is_space a then lstrip r else s
  end.

(** [s.rstrip()] *)
Fixpoint rstrip (s : string) : string :=
  match s with
  | EmptyString => EmptyString
  | String a r =>
      match rstrip r with
      | EmptyString => if is_space a then EmptyString else String a EmptyString
      | r' => String a r'
      end
  end.

(** [s.strip()] *)
Definition strip (s : string) : string := rstrip (lstrip s).

(** [s.split(c)] for a one-character separator. *)
Fixpoint split (c : ascii) (s : string) : list string :=
  match s with
  | EmptyString => [EmptyString]
  | String a r =>
      if Ascii.eqb a c then EmptyString :: split c r
      else match split c r with
           | p :: ps => String a p :: ps
           | [] => [String a EmptyString]
           end
  end.

(** [sep.join(l)] *)
Definition join (sep : string) (l : list string) : string := String.concat sep l.

(** truth value of a string: [not s] is [is_empty s] *)
Definition is_empty (s : string) : bool :=
  match s with EmptyString => true | _ => false end.

End PyStr.

(** ** Settings ([core/config.py]) *)

Module settings.
Definition MAX_CHUNK_SIZE : Z := 512.
Definition CHUNK_OVERLAP : Z := 50.
End settings.

(** ** [DocumentLoader.chunk_text] *)

(** [x or default] for an optional integer argument: [None] and [0] are
    falsy. *)
Definition int_or (x : option Z) (default : Z) : Z :=
  match x with
  | None => default
  | Some v => if v =? 0 then default else v
  end.

(** [l[-n:]] for [n > 0]: the last [n] elements, the whole list when it
    has fewer. *)
Definition last_n {A : Type} (n : Z) (l : list A) : list A :=
  skipn (length l - Z.to_nat n) l.

(** [sum(len(s) for s in l)] *)
Definition sum_len (l : list string) : Z :=
  fold_right (fun s acc => PyStr.len s + acc) 0 l.

(** ['. '.join(current_chunk) + '.'] *)
Definition close_chunk (current_chunk : list string) : string :=
  (PyStr.join ". " current_chunk ++ ".")%string.

(** The three loop variables of [chunk_text]. *)
Record chunker : Type := mkChunker {
  chunks : list string;
  current_chunk : list string;
  current_length : Z
}.

(** One iteration of [for sentence in sentences]. *)
Definition chunk_step (chunk_size overlap : Z) (st : chunker) (sentence : string)
  : chunker :=
  let sentence := PyStr.strip sentence in
  if PyStr.is_empty sentence then st
  else
    let sentence_length := PyStr.len sentence in
    if (current_length st + sentence_length >? chunk_size)
       && negb (Nat.eqb (length (current_chunk st)) 0)
    then
      let chunks' := chunks st ++ [close_chunk (current_chunk st)] in
      if (overlap >? 0) && (1 <? length (current_chunk st))%nat
      then
        let overlap_sentences := last_n overlap (current_chunk st) in
        let cur := overlap_sentences ++ [sentence] in
        mkChunker chunks' cur (sum_len cur)
      else mkChunker chunks' [sentence] sentence_length
    else
      mkChunker (chunks st) (current_chunk st ++ [sentence])
                (current_length st + sentence_length).

(** The tail of [chunk_text]: the last chunk is added when not empty. *)
Definition chunk_finish (st : chunker) : list string :=
  match current_chunk st with
  | [] => chunks st
  | _ => chunks st ++ [close_chunk (current_chunk st)]
  end.

Definition chunk_text (text : string) (chunk_size overlap : option Z)
  : list string :=
  let chunk_size := int_or chunk_size settings.MAX_CHUNK_SIZE in
  let overlap := int_or overlap settings.CHUNK_OVERLAP in
  let sentences := PyStr.split "." text in
  chunk_finish
    (fold_left (chunk_step chunk_size overlap) sentences (mkChunker [] [] 0)).

(** The non-empty sentences of a text, as the loop of [chunk_text] sees
    them: split on the period, stripped, empty ones dropped. *)
Definition sentences_of (text : string) : list string :=
  filter (fun s => negb (PyStr.is_empty s))
         (map PyStr.strip (PyStr.split "." text)).

(** ** Exceptions and outcomes *)

Inductive exn : Type :=
| EncodeError        (* the embedding model raised *)
| FaissError         (* an assertion or a C++ exception of faiss *)
| AttributeError     (* a method called on [None] *)
| TypeError          (* [IndexFlatIP(None)] *)
| OSError            (* a write to a file failed *)
| ZeroDivisionError.

Inductive outcome (A : Type) : Type :=
| Ok (a : A)
| Raise (e : exn).
Arguments Ok {A} a.
Arguments Raise {A} e.

Definition bind {A B : Type} (c : outcome A) (k : A -> outcome B) : outcome B :=
  match c with
  | Ok a => k a
  | Raise e => Raise e
  end.

Notation "x <- c ;; k" := (bind c (fun x => k))
  (at level 100, c at next level, right associativity).

(** ** Python lists: stable sort, slices, ranges *)

Module PyList.
Section Sort.
Context {A : Type}.
(** [before x y]: [x] may stand before an element [y] that follows it
    in the input ([key x <= key y], or [>=] with [reverse=True]). *)
Variable before : A -> A -> bool.

Fixpoint insert (x : A) (l : list A) : list A :=
  match l with
  | [] => [x]
  | y :: r => if before x y then x :: l else y :: insert x r
  end.

(** [list.sort(key=...)]: the sort of Python is stable, and a stable
    sort has one result, the one of this insertion sort. *)
Fixpoint sort (l : list A) : list A :=
  match l with
  | [] => []
  | x :: r => insert x (sort r)
  end.
End Sort.

(** [l[:n]], also for a negative [n]. *)
Definition slice_to {A : Type} (n : Z) (l : list A) : list A :=
  if n <? 0 then firstn (Z.to_nat (Z.of_nat (length l) + n)) l
  else firstn (Z.to_nat n) l.

(** [list(enumerate(l))] *)
Definition enumerate {A : Type} (l : list A) : list (Z * A) :=
  combine (map Z.of_nat (seq 0 (length l))) l.

(** [list(range(0, n, step))] for [n >= 0]; [step = 0] raises in Python
    and is excluded by the caller. *)
Definition range_step (n step : Z) : list Z :=
  if step <=? 0 then []
  else map (fun i => Z.of_nat i * step) (seq 0 (Z.to_nat ((n + step - 1) / step))).

(** [l[i]] for [0 <= i < len(l)] *)
Definition item {A : Type} (l : list A) (i : Z) : option A :=
  if i <? 0 then None else nth_error l (Z.to_nat i).
End PyList.

(** ** Python dicts, in insertion order *)

Module PyDict.
Section Dict.
Context {K V : Type}.
Variable eqb : K -> K -> bool.

Definition dict : Type := list (K * V).

(** [m.get(k)]; [None] when the key is absent *)
Fixpoint get (m : dict) (k : K) : option V :=
  match m with
  | [] => None
  | (k', v) :: r => if eqb k' k then Some v else get r k
  end.

(** [m[k] = v]: an existing key keeps its place, a new one goes last *)
Fixpoint set (m : dict) (k : K) (v : V) : dict :=
  match m with
  | [] => [(k, v)]
  | (k', v') :: r => if eqb k' k then (k', v) :: r else (k', v') :: set r k v
  end.

Definition items (m : dict) : list (K * V) := m.
Definition values (m : dict) : list V := map snd m.
Definition keys (m : dict) : list K := map fst m.
End Dict.
Arguments dict : clear implicits.
End PyDict.

(** ** The metadata record of one vector

    The dict literal built by [add_document_to_index], the only place that
    makes one. *)
Module Meta.
Record t : Type := mk {
  document_id : Z;
  chunk_index : Z;
  text : string;
  document_title : string;
  chunk_length : Z
}.

(** [meta == chunk_meta] on dicts: equality of all entries *)
Definition eqb (a b : t) : bool :=
  (document_id a =? document_id b) && (chunk_index a =? chunk_index b)
  && String.eqb (text a) (text b)
  && String.eqb (document_title a) (document_title b)
  && (chunk_length a =? chunk_length b).
End Meta.

(** ** The faiss index ([IndexFlatIP]) and the embedding model *)

(** A two-dimensional array of [float32]: [shape1] is [shape[1]]. *)
Record ndarray (vec : Type) : Type := mkArray {
  shape1 : Z;
  rows : list vec
}.
Arguments mkArray {vec}.
Arguments shape1 {vec}.
Arguments rows {vec}.

(** An [IndexFlatIP]: its dimension [d] and the stored vectors, the
    vector of id [i] at position [i]. *)
Record faiss_index (vec : Type) : Type := mkIndex {
  d : Z;
  xb : list vec
}.
Arguments mkIndex {vec}.
Arguments d {vec}.
Arguments xb {vec}.

(** The collaborators outside the repository: the embedding model, the
    nearest-neighbour search of faiss, and the arbitrary order in which a
    Python set lists its members (in [_explain_relevance]). *)
Class Backend : Type := {
  vec : Type;
  (** [model.encode(texts, ...).astype('float32')] *)
  model_encode : list string -> outcome (ndarray vec);
  (** [zip(scores[0], indices[0])] of [index.search(query, k)]; a label
      is [-1] where faiss has no result *)
  faiss_search : faiss_index vec -> ndarray vec -> Z -> outcome (list (Q * Z));
  (** the label computed by [_explain_relevance] *)
  explain_relevance : string -> string -> string
}.

Section Faiss.
Context {B : Backend}.

(** [faiss.IndexFlatIP(dimension)]; [dimension] may be [None] *)
Definition IndexFlatIP (dimension : option Z) : outcome (faiss_index vec) :=
  match dimension with
  | Some n => Ok (mkIndex n [])
  | None => Raise TypeError
  end.

Definition ntotal (ix : faiss_index vec) : Z := Z.of_nat (length (xb ix)).

(** [index.add(x)]: faiss asserts that the dimensions agree *)
Definition faiss_add (ix : faiss_index vec) (x : ndarray vec)
  : outcome (faiss_index vec) :=
  if shape1 x =? d ix then Ok (mkIndex (d ix) (xb ix ++ rows x))
  else Raise FaissError.

(** [index.reconstruct(key)]: raises outside [0, ntotal) *)
Definition reconstruct (ix : faiss_index vec) (key : Z) : outcome vec :=
  match PyList.item (xb ix) key with
  | Some v => Ok v
  | None => Raise FaissError
  end.

(** [np.vstack(vectors)] of vectors reconstructed from [ix] *)
Definition vstack (ix : faiss_index vec) (vectors : list vec) : ndarray vec :=
  mkArray (d ix) vectors.
End Faiss.

(** ** [DocumentIndexer] *)

(** Which write of [_save_index] fails, if any. *)
Inductive save_fault : Type :=
| NoFault
| IndexWriteFails      (* [faiss.write_index] raises *)
| MetadataWriteFails.  (* [open] or [pickle.dump] raises *)

(** One result dict of [search_similar_chunks]; [document_id] and
    [chunk_index] are [None] when the vector has no metadata. *)
Module Hit.
Record t : Type := mk {
  vector_id : Z;
  score : Q;
  document_id : option Z;
  chunk_index : option Z;
  text : string;
  document_title : string;
  chunk_length : Z
}.
End Hit.

(** The dict returned by [get_index_stats]. *)
Module Stats.
Record t : Type := mk {
  total_vectors : Z;
  dimension : Z;
  documents_count : Z;
  index_size_mb : Q
}.
End Stats.

(** [round(x, 2)], half to even, on a rational. *)
Definition round2 (x : Q) : Q :=
  let n := 200 * Qnum x + Zpos (Qden x) in
  let m := 2 * Zpos (Qden x) in
  let r := n / m in
  let r := if (n mod m =? 0) && Z.odd r then r - 1 else r in
  Qmake r 100.

Section Indexer.
Context {B : Backend}.

(** The attributes of the object that the methods change. *)
Record DocumentIndexer : Type := mkIndexer {
  index : option (faiss_index vec);
  metadata : PyDict.dict Z Meta.t;
  dimension : option Z
}.

(** [DocumentIndexer()] when no index file exists. *)
Definition new_indexer : DocumentIndexer := mkIndexer None [] None.

Definition _save_index (io : save_fault) (self : DocumentIndexer) : outcome unit :=
  match index self with
  | Some _ =>
      match io with
      | NoFault => Ok tt
      | _ => Raise OSError
      end
  | None => Ok tt
  end.

Definition _create_embeddings (texts : list string) : outcome (ndarray vec) :=
  model_encode texts.

(** The body of [for i, chunk in enumerate(text_chunks)]. *)
Definition put_chunk (document_id : Z) (document_title : string)
    (start_vector_id : Z) (acc : list Z * PyDict.dict Z Meta.t)
    (ic : Z * string) : list Z * PyDict.dict Z Meta.t :=
  let '(vector_ids, md) := acc in
  let '(i, chunk) := ic in
  let vector_id := start_vector_id + i in
  (vector_ids ++ [vector_id],
   PyDict.set Z.eqb md vector_id
     (Meta.mk document_id i chunk document_title (PyStr.len chunk))).

(** [if self.index is None:] the dimension is set and the index made;
    the result is [(self.index, self.dimension)] after it. *)
Definition index_or_new (self : DocumentIndexer) (embeddings : ndarray vec)
  : faiss_index vec * option Z :=
  match index self with
  | None => (mkIndex (shape1 embeddings) [], Some (shape1 embeddings))
  | Some ix => (ix, dimension self)
  end.

Definition add_document_to_index (io : save_fault) (document_id : Z)
    (document_text document_title : string) (self : DocumentIndexer)
  : outcome (list Z) * DocumentIndexer :=
  let text_chunks := chunk_text document_text None None in
  match text_chunks with
  | [] => (Ok [], self)
  | _ =>
    match _create_embeddings text_chunks with
    | Raise e => (Raise e, self)
    | Ok embeddings =>
      let '(ix, dim) := index_or_new self embeddings in
      let start_vector_id := ntotal ix in
      match faiss_add ix embeddings with
      | Raise e => (Raise e, mkIndexer (Some ix) (metadata self) dim)
      | Ok ix' =>
        let '(vector_ids, md) :=
          fold_left (put_chunk document_id document_title start_vector_id)
                    (PyList.enumerate text_chunks) ([], metadata self) in
        let self' := mkIndexer (Some ix') md dim in
        match _save_index io self' with
        | Raise e => (Raise e, self')
        | Ok _ => (Ok vector_ids, self')
        end
      end
    end
  end.

(** [vector_metadata.get("document_id") not in document_ids], where
    [vector_metadata] is [{}] for a vector without metadata. *)
Definition not_in_filter (vector_metadata : option Meta.t) (document_ids : list Z)
  : bool :=
  match vector_metadata with
  | Some m => negb (existsb (Z.eqb (Meta.document_id m)) document_ids)
  | None => true
  end.

(** truth value of [document_ids]: neither [None] nor empty *)
Definition filter_given (document_ids : option (list Z)) : option (list Z) :=
  match document_ids with
  | Some (_ :: _) => document_ids
  | _ => None
  end.

Definition make_hit (idx : Z) (score : Q) (vector_metadata : option Meta.t) : Hit.t :=
  match vector_metadata with
  | Some m =>
      Hit.mk idx score (Some (Meta.document_id m)) (Some (Meta.chunk_index m))
             (Meta.text m) (Meta.document_title m) (Meta.chunk_length m)
  | None => Hit.mk idx score None None "" "" 0
  end.

(** The loop over [zip(scores[0], indices[0])], with its [continue]s and
    its [break]. *)
Fixpoint search_loop (md : PyDict.dict Z Meta.t) (document_ids : option (list Z))
    (top_k : Z) (candidates : list (Q * Z)) (results : list Hit.t) : list Hit.t :=
  match candidates with
  | [] => results
  | (score, idx) :: rest =>
      if idx =? -1 then search_loop md document_ids top_k rest results
      else
        let vector_metadata := PyDict.get Z.eqb md idx in
        let skip :=
          match filter_given document_ids with
          | Some ids => not_in_filter vector_metadata ids
          | None => false
          end in
        if skip then search_loop md document_ids top_k rest results
        else
          let results' := results ++ [make_hit idx score vector_metadata] in
          if Z.of_nat (length results') >=? top_k then results'
          else search_loop md document_ids top_k rest results'
  end.

(** [results.sort(key=lambda x: x["score"], reverse=True)] *)
Definition sort_by_score (results : list Hit.t) : list Hit.t :=
  PyList.sort (fun x y => Qle_bool (Hit.score y) (Hit.score x)) results.

Definition search_similar_chunks (query_text : string) (top_k : Z)
    (document_ids : option (list Z)) (self : DocumentIndexer)
  : outcome (list Hit.t) :=
  match index self with
  | None => Ok []
  | Some ix =>
    if ntotal ix =? 0 then Ok []
    else
      query_embedding <- _create_embeddings [query_text] ;;
      candidates <- faiss_search ix query_embedding (top_k * 2) ;;
      Ok (sort_by_score
            (search_loop (metadata self) document_ids top_k candidates []))
  end.

(** The first loop of [remove_document_from_index]; [new_vector_id] is
    the third component. *)
Fixpoint remove_loop (ix : faiss_index vec) (document_id : Z)
    (items : list (Z * Meta.t))
    (acc : list vec * PyDict.dict Z Meta.t * Z)
  : outcome (list vec * PyDict.dict Z Meta.t * Z) :=
  match items with
  | [] => Ok acc
  | (vector_id, m) :: rest =>
      if negb (Meta.document_id m =? document_id) then
        let '(keep_vectors, keep_metadata, new_vector_id) := acc in
        vector <- reconstruct ix vector_id ;;
        remove_loop ix document_id rest
          (keep_vectors ++ [vector],
           PyDict.set Z.eqb keep_metadata new_vector_id m,
           new_vector_id + 1)
      else remove_loop ix document_id rest acc
  end.

(** The tail shared by removal and rebuild: a new index of dimension
    [self.dimension] takes the place of the old one, the vectors are
    added, the metadata replaced, both saved. [False] when anything
    raises; what was assigned before stays assigned. *)
Definition install (io : save_fault) (self : DocumentIndexer)
    (ix : faiss_index vec) (vectors : list vec) (md : PyDict.dict Z Meta.t)
  : bool * DocumentIndexer :=
  match IndexFlatIP (dimension self) with
  | Raise _ => (false, self)
  | Ok new =>
    match faiss_add new (vstack ix vectors) with
    | Raise _ => (false, mkIndexer (Some new) (metadata self) (dimension self))
    | Ok new' =>
      let self' := mkIndexer (Some new') md (dimension self) in
      match _save_index io self' with
      | Raise _ => (false, self')
      | Ok _ => (true, self')
      end
    end
  end.

Definition remove_document_from_index (io : save_fault) (document_id : Z)
    (self : DocumentIndexer) : bool * DocumentIndexer :=
  match index self with
  | None => (false, self)
  | Some ix =>
    match remove_loop ix document_id (PyDict.items (metadata self)) ([], [], 0) with
    | Raise _ => (false, self)
    | Ok (keep_vectors, keep_metadata, _) =>
      match keep_vectors with
      | [] =>
        match IndexFlatIP (dimension self) with
        | Raise _ => (false, self)
        | Ok new =>
          let self' := mkIndexer (Some new) [] (dimension self) in
          match _save_index io self' with
          | Raise _ => (false, self')
          | Ok _ => (true, self')
          end
        end
      | _ => install io self ix keep_vectors keep_metadata
      end
    end
  end.

(** [len(unique_docs)] *)
Fixpoint count_unique (l : list Z) : Z :=
  match l with
  | [] => 0
  | x :: r => if existsb (Z.eqb x) r then count_unique r else 1 + count_unique r
  end.

(** [index_file_size] is [os.path.getsize(self.index_path)], [None] when
    the file does not exist. *)
Definition get_index_stats (index_file_size : option Z) (self : DocumentIndexer)
  : Stats.t :=
  match index self with
  | None => Stats.mk 0 0 0 0
  | Some ix =>
    let unique_docs := map Meta.document_id (PyDict.values (metadata self)) in
    let index_size :=
      match index_file_size with
      | Some n => (inject_Z n / inject_Z (1024 * 1024))%Q
      | None => 0%Q
      end in
    Stats.mk (ntotal ix) (int_or (dimension self) 0)
             (count_unique unique_docs) (round2 index_size)
  end.

(** [documents_data[doc_id].append(metadata)], the list made first when
    the key is new. *)
Definition group_add (documents_data : PyDict.dict Z (list Meta.t))
    (item : Z * Meta.t) : PyDict.dict Z (list Meta.t) :=
  let doc_id := Meta.document_id (snd item) in
  match PyDict.get Z.eqb documents_data doc_id with
  | None => PyDict.set Z.eqb documents_data doc_id [snd item]
  | Some l => PyDict.set Z.eqb documents_data doc_id (l ++ [snd item])
  end.

Definition group_by_document (md : PyDict.dict Z Meta.t)
  : PyDict.dict Z (list Meta.t) :=
  fold_left group_add (PyDict.items md) [].

(** [chunks_metadata.sort(key=lambda x: x.get("chunk_index", 0))] *)
Definition sort_by_chunk_index (chunks_metadata : list Meta.t) : list Meta.t :=
  PyList.sort (fun x y => Meta.chunk_index x <=? Meta.chunk_index y)
              chunks_metadata.

(** The scan [for vid, meta in self.metadata.items(): if meta == chunk_meta]. *)
Definition find_vector_id (md : PyDict.dict Z Meta.t) (chunk_meta : Meta.t)
  : option Z :=
  match find (fun it => Meta.eqb (snd it) chunk_meta) (PyDict.items md) with
  | Some (vid, _) => Some vid
  | None => None
  end.

(** [for chunk_meta in chunks_metadata] *)
Fixpoint rebuild_chunks (ix : faiss_index vec) (md : PyDict.dict Z Meta.t)
    (chunks_metadata : list Meta.t)
    (acc : list vec * PyDict.dict Z Meta.t * Z)
  : outcome (list vec * PyDict.dict Z Meta.t * Z) :=
  match chunks_metadata with
  | [] => Ok acc
  | chunk_meta :: rest =>
      match find_vector_id md chunk_meta with
      | Some old_vector_id =>
          let '(all_vectors, new_metadata, new_vector_id) := acc in
          vector <- reconstruct ix old_vector_id ;;
          rebuild_chunks ix md rest
            (all_vectors ++ [vector],
             PyDict.set Z.eqb new_metadata new_vector_id chunk_meta,
             new_vector_id + 1)
      | None => rebuild_chunks ix md rest acc
      end
  end.

(** [for doc_id, chunks_metadata in documents_data.items()] *)
Fixpoint rebuild_documents (ix : faiss_index vec) (md : PyDict.dict Z Meta.t)
    (documents_data : list (Z * list Meta.t))
    (acc : list vec * PyDict.dict Z Meta.t * Z)
  : outcome (list vec * PyDict.dict Z Meta.t * Z) :=
  match documents_data with
  | [] => Ok acc
  | (_, chunks_metadata) :: rest =>
      acc' <- rebuild_chunks ix md (sort_by_chunk_index chunks_metadata) acc ;;
      rebuild_documents ix md rest acc'
  end.

(** With metadata and no index, the first [self.index.reconstruct] raises
    [AttributeError] (every [chunk_meta] is found by the scan, so a
    vector is asked for): the method returns [False]. *)
Definition rebuild_index (io : save_fault) (self : DocumentIndexer)
  : bool * DocumentIndexer :=
  match metadata self with
  | [] => (true, self)
  | _ =>
    match index self with
    | None => (false, self)
    | Some ix =>
      match rebuild_documents ix (metadata self)
              (PyDict.items (group_by_document (metadata self))) ([], [], 0) with
      | Raise _ => (false, self)
      | Ok (all_vectors, new_metadata, _) =>
        match all_vectors with
        | [] => (false, self)
        | _ => install io self ix all_vectors new_metadata
        end
      end
    end
  end.

End Indexer.

(** ** [VectorSearchEngine] *)

(** A result of [find_relevant_context]: the hit and its added key. *)
Module Context.
Record t : Type := mk {
  hit : Hit.t;
  relevance_reason : string
}.
End Context.

(** A value of [doc_scores] in [find_similar_documents]. *)
Module DocScore.
Record t : Type := mk {
  document_id : option Z;
  max_score : Q;
  avg_score : Q;
  chunk_count : Z;
  title : string
}.
End DocScore.

Definition option_Z_eqb (a b : option Z) : bool :=
  match a, b with
  | Some x, Some y => x =? y
  | None, None => true
  | _, _ => false
  end.

(** [n // m] *)
Definition floordiv (n m : Z) : outcome Z :=
  if m =? 0 then Raise ZeroDivisionError else Ok (n / m).

(** [try: ... except Exception: return []] *)
Definition except_return_empty {A : Type} (body : outcome (list A)) : list A :=
  match body with
  | Ok r => r
  | Raise _ => []
  end.

Section SearchEngine.
Context {B : Backend}.

Definition find_relevant_context_try (question : string)
    (document_ids : option (list Z)) (max_chunks : Z) (indexer : DocumentIndexer)
  : outcome (list Context.t) :=
  similar_chunks <-
    search_similar_chunks question (max_chunks * 2) document_ids indexer ;;
  let relevant_chunks :=
    PyList.slice_to max_chunks
      (filter (fun chunk => negb (Qle_bool (Hit.score chunk) (3 # 10)))
              similar_chunks) in
  Ok (map (fun chunk =>
             Context.mk chunk (explain_relevance question (Hit.text chunk)))
          relevant_chunks).

Definition find_relevant_context (question : string)
    (document_ids : option (list Z)) (max_chunks : Z) (indexer : DocumentIndexer)
  : list Context.t :=
  except_return_empty
    (find_relevant_context_try question document_ids max_chunks indexer).

Definition get_document_summary_context_try (document_id max_chunks : Z)
    (indexer : DocumentIndexer) : outcome (list string) :=
  let all_chunks :=
    map (fun it => (Meta.chunk_index (snd it), Meta.text (snd it)))
        (filter (fun it => Meta.document_id (snd it) =? document_id)
                (PyDict.items (metadata indexer))) in
  let all_chunks := PyList.sort (fun x y => fst x <=? fst y) all_chunks in
  let n := Z.of_nat (length all_chunks) in
  selected_chunks <-
    (if n >? max_chunks then
       step <- floordiv n max_chunks ;;
       Ok (PyList.slice_to max_chunks
             (flat_map (fun i => match PyList.item all_chunks i with
                                 | Some c => [c]
                                 | None => []
                                 end)
                       (PyList.range_step n step)))
     else Ok all_chunks) ;;
  Ok (map snd selected_chunks).

Definition get_document_summary_context (document_id max_chunks : Z)
    (indexer : DocumentIndexer) : list string :=
  except_return_empty
    (get_document_summary_context_try document_id max_chunks indexer).

(** The body of [for chunk in similar_chunks] in [find_similar_documents]. *)
Definition score_chunk (document_id : Z)
    (doc_scores : PyDict.dict (option Z) DocScore.t) (chunk : Hit.t)
  : PyDict.dict (option Z) DocScore.t :=
  let chunk_doc_id := Hit.document_id chunk in
  if option_Z_eqb chunk_doc_id (Some document_id) then doc_scores
  else
    match PyDict.get option_Z_eqb doc_scores chunk_doc_id with
    | None =>
        PyDict.set option_Z_eqb doc_scores chunk_doc_id
          (DocScore.mk chunk_doc_id (Hit.score chunk) (Hit.score chunk) 1
                       (Hit.document_title chunk))
    | Some s =>
        let mx := if Qle_bool (Hit.score chunk) (DocScore.max_score s)
                  then DocScore.max_score s else Hit.score chunk in
        let avg := ((DocScore.avg_score s * inject_Z (DocScore.chunk_count s)
                     + Hit.score chunk)
                    / inject_Z (DocScore.chunk_count s + 1))%Q in
        PyDict.set option_Z_eqb doc_scores chunk_doc_id
          (DocScore.mk (DocScore.document_id s) mx avg
                       (DocScore.chunk_count s + 1) (DocScore.title s))
    end.

Definition find_similar_documents_try (document_id top_k : Z)
    (indexer : DocumentIndexer) : outcome (list DocScore.t) :=
  let target_chunks :=
    map (fun it => Meta.text (snd it))
        (filter (fun it => Meta.document_id (snd it) =? document_id)
                (PyDict.items (metadata indexer))) in
  match target_chunks with
  | [] => Ok []
  | _ =>
    let combined_text := PyStr.join " " (PyList.slice_to 5 target_chunks) in
    similar_chunks <- search_similar_chunks combined_text (top_k * 5) None indexer ;;
    let doc_scores := fold_left (score_chunk document_id) similar_chunks [] in
    let similar_docs :=
      PyList.sort (fun x y => Qle_bool (DocScore.avg_score y) (DocScore.avg_score x))
                  (PyDict.values doc_scores) in
    Ok (PyList.slice_to top_k similar_docs)
  end.

Definition find_similar_documents (document_id top_k : Z)
    (indexer : DocumentIndexer) : list DocScore.t :=
  except_return_empty (find_similar_documents_try document_id top_k indexer).

End SearchEngine.

(** ** Specification vocabulary *)

Fixpoint no_dot (s : string) : Prop :=
  match s with
  | EmptyString => True
  | String a r => a <> "."%char /\ no_dot r
  end.

(** What the loop of [chunk_text] puts in a chunk: a stripped, non-empty
    piece between periods. *)
Definition sentence (s : string) : Prop :=
  s <> EmptyString /\ PyStr.lstrip s = s /\ PyStr.rstrip s = s /\ no_dot s.

(** The sentences that [chunk_text] copies from the chunk it closes,
    [prev], to the head of the next one. *)
Definition overlap_seed (overlap : Z) (prev : list string) : list string :=
  if (overlap >? 0) && (1 <? length prev)%nat then last_n overlap prev else [].

(** Every element paired with the one before it, [p] before the first. *)
Fixpoint with_prev {A : Type} (p : A) (l : list A) : list (A * A) :=
  match l with
  | [] => []
  | x :: r => (p, x) :: with_prev x r
  end.

(** A chunk without the sentences seeded from its predecessor. *)
Definition fresh_part (overlap : Z) (pg : list string * list string)
  : list string :=
  skipn (length (overlap_seed overlap (fst pg))) (snd pg).

(** A chunk starts with the seed taken from its predecessor. *)
Definition seeded (overlap : Z) (pg : list string * list string) : Prop :=
  firstn (length (overlap_seed overlap (fst pg))) (snd pg)
  = overlap_seed overlap (fst pg).

(** The sentences of a chunk fit the budget, or the chunk is its seed and
    one sentence more. *)
Definition within_budget (chunk_size overlap : Z)
    (pg : list string * list string) : Prop :=
  sum_len (snd pg) <= chunk_size
  \/ length (snd pg) = S (length (overlap_seed overlap (fst pg))).

(** What holds of the chunks [gs], as lists of sentences, made from the
    sentences [done]. *)
Definition groups_ok (chunk_size overlap : Z) (gs : list (list string))
    (done : list string) : Prop :=
  concat (map (fresh_part overlap) (with_prev [] gs)) = done
  /\ Forall (seeded overlap) (with_prev [] gs)
  /\ Forall (within_budget chunk_size overlap) (with_prev [] gs)
  /\ Forall (fun g => g <> [] /\ Forall sentence g) gs.

(** The loop invariant of [chunk_text] after the sentences [done]. *)
Inductive chunk_inv (chunk_size overlap : Z) (st : chunker)
    (done : list string) : Prop :=
| inv_start :
    chunks st = [] -> current_chunk st = [] -> current_length st = 0 ->
    done = [] ->
    chunk_inv chunk_size overlap st done
| inv_run (G : list (list string)) :
    chunks st = map close_chunk G ->
    current_chunk st <> [] ->
    current_length st = sum_len (current_chunk st) ->
    groups_ok chunk_size overlap (G ++ [current_chunk st]) done ->
    chunk_inv chunk_size overlap st done.


Section IndexerVocabulary.
Context {B : Backend}.

(** [self.index.ntotal], and 0 without an index. *)
Definition index_size (self : DocumentIndexer) : Z :=
  match index self with
  | Some ix => ntotal ix
  | None => 0
  end.

(** The two stores go together: one metadata entry for each vector, under
    the ids 0, 1, ... in this order, and the dimension of the index is the
    one recorded. Without an index there is no metadata. *)
Definition consistent (self : DocumentIndexer) : Prop :=
  match index self with
  | None => metadata self = []
  | Some ix =>
      dimension self = Some (d ix)
      /\ PyDict.keys (metadata self) = map Z.of_nat (seq 0 (length (xb ix)))
  end.

(** The records of a document, in storage order. *)
Definition records_of (document_id : Z) (self : DocumentIndexer) : list Meta.t :=
  filter (fun m => Meta.document_id m =? document_id)
         (PyDict.values (metadata self)).

(** Within each document the [chunk_index] values are 0, 1, ..., K-1 in
    storage order. *)
Definition chunk_order (self : DocumentIndexer) : Prop :=
  forall doc,
    map Meta.chunk_index (records_of doc self)
    = map Z.of_nat (seq 0 (length (records_of doc self))).

(** The index is empty or not initialized. *)
Definition index_empty (self : DocumentIndexer) : Prop :=
  match index self with
  | None => True
  | Some ix => xb ix = []
  end.

(** What the embedding model is relied on for: one row for each text. *)
Definition encode_one_row_per_text : Prop :=
  forall texts a, model_encode texts = Ok a -> length (rows a) = length texts.

End IndexerVocabulary.

(** ** A small backend to run the operations on

    Vectors are numbers: a text is embedded as its length; the search
    returns the first [k] ids, each with score 1; the model raises on an
    empty text. *)
Module Toy.
Definition encode (texts : list string) : outcome (ndarray Z) :=
  if existsb PyStr.is_empty texts then Raise EncodeError
  else Ok (mkArray 1 (map PyStr.len texts)).

Definition search (ix : faiss_index Z) (query : ndarray Z) (k : Z)
  : outcome (list (Q * Z)) :=
  Ok (firstn (Z.to_nat k)
        (map (fun i => (1%Q, Z.of_nat i)) (seq 0 (length (xb ix))))).

#[global] Instance backend : Backend := {|
  vec := Z;
  model_encode := encode;
  faiss_search := search;
  explain_relevance := fun _ _ => EmptyString
|}.

(** The store after [add_document_to_index(1, "A. B.", "t1")] on a new
    indexer, and after a second document. *)
Definition one_doc : DocumentIndexer :=
  snd (add_document_to_index NoFault 1 "A. B." "t1" new_indexer).
Definition two_docs : DocumentIndexer :=
  snd (add_document_to_index NoFault 2 "C." "t2" one_doc).
End Toy.

(** Neighbours are in the order of their keys. *)
Fixpoint ordered {A : Type} (key : A -> Z) (l : list A) : Prop :=
  match l with
  | [] => True
  | x :: r =>
      match r with [] => True | y :: _ => key x <= key y end /\ ordered key r
  end.

Section Readings.
Context {B : Backend}.


End Readings.

(** A statistics record of zeros. *)
Definition all_zero (s : Stats.t) : Prop :=
  Stats.total_vectors s = 0 /\ Stats.dimension s = 0
  /\ Stats.documents_count s = 0 /\ (Stats.index_size_mb s == 0)%Q.

Section MoreReadings.
Context {B : Backend}.

(** The reading of the document filter before amendment: every result
    of a search with the filter [S] has its document in [S]. *)
Definition search_respects_filter (query_text : string) (top_k : Z)
    (S : list Z) (self : DocumentIndexer) : Prop :=
  forall hits,
    search_similar_chunks query_text top_k (Some S) self = Ok hits ->
    Forall (fun h => exists doc, Hit.document_id h = Some doc /\ In doc S) hits.

(** The reading of the reads on an empty index before amendment: the
    search gives no result and the statistics are all zero. *)
Definition empty_reads_all_zero (index_file_size : option Z)
    (query_text : string) (top_k : Z) (document_ids : option (list Z))
    (self : DocumentIndexer) : Prop :=
  index_empty self ->
  search_similar_chunks query_text top_k document_ids self = Ok []
  /\ all_zero (get_index_stats index_file_size self).

(** The reading of removal before amendment: it reports success for any
    document and any state. *)
Definition remove_always_succeeds (io : save_fault) (document_id : Z)
    (self : DocumentIndexer) : Prop :=
  fst (remove_document_from_index io document_id self) = true.

(** The records that a removal of [document_id] keeps. *)
Definition kept_records (document_id : Z) (self : DocumentIndexer)
  : list Meta.t :=
  filter (fun m => negb (Meta.document_id m =? document_id))
         (PyDict.values (metadata self)).

End MoreReadings.

(** The documents of a list of records, each once, in the order in
    which they first appear: the keys of [documents_data]. *)
Definition add_document_key (docs : list Z) (m : Meta.t) : list Z :=
  if existsb (Z.eqb (Meta.document_id m)) docs then docs
  else docs ++ [Meta.document_id m].

Definition documents_of (vals : list Meta.t) : list Z :=
  fold_left add_document_key vals [].

Definition records_in (doc : Z) (vals : list Meta.t) : list Meta.t :=
  filter (fun m => Meta.document_id m =? doc) vals.

(** The records in the order of a rebuild: document after document, each
    document's records sorted by [chunk_index]. *)
Definition regroup (vals : list Meta.t) : list Meta.t :=
  concat (map (fun doc => sort_by_chunk_index (records_in doc vals))
              (documents_of vals)).

Section InvariantReadings.
Context {B : Backend}.

(** The records that [add_document_to_index] makes for the chunks of a
    document. *)
Definition new_records (document_id : Z) (document_title : string)
    (text_chunks : list string) : list Meta.t :=
  map (fun ic => Meta.mk document_id (fst ic) (snd ic) document_title
                         (PyStr.len (snd ic)))
      (PyList.enumerate text_chunks).

(** The reading of the chunk order before amendment: every addition
    keeps it. *)
Definition add_keeps_chunk_order (io : save_fault) (document_id : Z)
    (document_text document_title : string) (self : DocumentIndexer) : Prop :=
  consistent self -> chunk_order self ->
  chunk_order
    (snd (add_document_to_index io document_id document_text document_title
                                self)).

End InvariantReadings.

(** ** Further vocabulary *)

(** Neighbours are related by [R]. *)
Fixpoint chain {A : Type} (R : A -> A -> Prop) (l : list A) : Prop :=
  match l with
  | [] => True
  | x :: r => match r with [] => True | y :: _ => R x y end /\ chain R r
  end.

Section SearchVocabulary.
Context {B : Backend}.

(** What faiss is relied on for: a label is [-1] or the id of a stored
    vector. *)
Definition faiss_labels_valid : Prop :=
  forall ix query k candidates,
    faiss_search ix query k = Ok candidates ->
    Forall (fun c => snd c = -1 \/ 0 <= snd c < ntotal ix) candidates.

(** The records with their vectors, in storage order. *)
Definition store_pairs (self : DocumentIndexer) : list (Meta.t * vec) :=
  match index self with
  | Some ix => combine (PyDict.values (metadata self)) (xb ix)
  | None => []
  end.

End SearchVocabulary.

(** What the dict [doc_scores] keeps at every step. *)
Definition doc_scores_ok (doc : Z)
    (doc_scores : PyDict.dict (option Z) DocScore.t) : Prop :=
  NoDup (PyDict.keys doc_scores)
  /\ Forall (fun kv => fst kv <> Some doc
                       /\ DocScore.document_id (snd kv) = fst kv
                       /\ 1 <= DocScore.chunk_count (snd kv)) doc_scores.

(** ** The files of the index: [_load_index] and [__init__]

    A file is missing, or reading it raises, or it gives back what was
    written: [faiss.write_index] / [faiss.read_index] and [pickle] are
    taken to lose nothing. *)
Inductive file (A : Type) : Type :=
| Missing
| Unreadable
| Content (a : A).
Arguments Missing {A}.
Arguments Unreadable {A}.
Arguments Content {A} a.

Section Files.
Context {B : Backend}.

Record disk : Type := mkDisk {
  index_file : file (faiss_index vec);
  metadata_file : file (PyDict.dict Z Meta.t)
}.

(** [_load_index]: both files must exist; the index is read and the
    dimension taken from it, then the metadata; when a read raises, the
    [except] clause resets the index and the metadata, not the
    dimension. *)
Definition _load_index (fs : disk) (self : DocumentIndexer) : DocumentIndexer :=
  match index_file fs, metadata_file fs with
  | Missing, _ => self
  | _, Missing => self
  | Unreadable, _ => mkIndexer None [] (dimension self)
  | Content ix, Unreadable => mkIndexer None [] (Some (d ix))
  | Content ix, Content md => mkIndexer (Some ix) md (Some (d ix))
  end.

(** [DocumentIndexer.__init__] *)
Definition __init__ (fs : disk) : DocumentIndexer :=
  _load_index fs (mkIndexer None [] None).

(** The files after a [_save_index] in which no write fails: nothing is
    written without an index. *)
Definition saved_files (self : DocumentIndexer) (fs : disk) : disk :=
  match index self with
  | Some ix => mkDisk (Content ix) (Content (metadata self))
  | None => fs
  end.

End Files.

(** ** The search endpoint ([api/v1/document.py]) *)

(** The [detail] of an [HTTPException]: a literal, or [str(e)]. *)
Inductive detail : Type :=
| Text (s : string)
| StrOf (e : exn).

Inductive http (A : Type) : Type :=
| Respond (body : A)
| HTTPException (status_code : Z) (why : detail).
Arguments Respond {A} body.
Arguments HTTPException {A} status_code why.

Section Endpoints.
Context {B : Backend}.

(** [search_documents]; the body is [(search_results, query)]. *)
Definition search_documents (query : string) (document_ids : option (list Z))
    (top_k : Z) (self : DocumentIndexer) : http (list Hit.t * string) :=
  if PyStr.is_empty (PyStr.strip query)
  then HTTPException 400 (Text "Query cannot be empty")
  else
    match search_similar_chunks query top_k document_ids self with
    | Ok results => Respond (results, query)
    | Raise e => HTTPException 500 (StrOf e)
    end.

End Endpoints.

(** ** [QuestionAnsweringService._format_context_sources] ([qa.py]) *)

(** [round(x, 3)], half to even, on a rational. *)
Definition round3 (x : Q) : Q :=
  let n := 2000 * Qnum x + Zpos (Qden x) in
  let m := 2 * Zpos (Qden x) in
  let r := n / m in
  let r := if (n mod m =? 0) && Z.odd r then r - 1 else r in
  Qmake r 1000.

Module Source.
Record t : Type := mk {
  document_id : option Z;
  document_title : string;
  chunk_index : option Z;
  score : Q;
  snippet : string
}.
End Source.

(** [text[:200] + "..." if len(text) > 200 else text] *)
Definition make_snippet (text : string) : string :=
  if PyStr.len text >? 200 then (String.substring 0 200 text ++ "...")%string
  else text.

Definition _format_context_sources (relevant_chunks : list Context.t)
  : list Source.t :=
  map (fun chunk =>
         let h := Context.hit chunk in
         Source.mk (Hit.document_id h) (Hit.document_title h) (Hit.chunk_index h)
                   (round3 (Hit.score h)) (make_snippet (Hit.text h)))
      relevant_chunks.

(** ** [ModelManager] ([core/model_manager.py])

    The loaded models and tokenizers are opaque; [download] is
    [_download_and_cache_model] for a model type, which may raise. *)

Definition dict_del {V : Type} (m : PyDict.dict string V) (k : string)
  : PyDict.dict string V :=
  filter (fun kv => negb (String.eqb (fst kv) k)) m.

Definition dict_has {V : Type} (m : PyDict.dict string V) (k : string) : bool :=
  existsb (fun kv => String.eqb (fst kv) k) m.

Section Models.
Variables model tokenizer : Type.
Variable download : string -> outcome (model * option tokenizer).

Record ModelManager : Type := mkManager {
  models : PyDict.dict string model;
  tokenizers : PyDict.dict string (option tokenizer);
  _summarization_loaded : bool;
  _embedding_loaded : bool;
  _qa_loaded : bool
}.

(** [ModelManager()] *)
Definition new_manager : ModelManager := mkManager [] [] false false false.

Definition load_summarization_model (self : ModelManager)
  : outcome unit * ModelManager :=
  if _summarization_loaded self then (Ok tt, self)
  else
    match download "summarization" with
    | Raise e => (Raise e, self)
    | Ok (m, t) =>
        (Ok tt,
         mkManager (PyDict.set String.eqb (models self) "summarization" m)
                   (PyDict.set String.eqb (tokenizers self) "summarization" t)
                   true (_embedding_loaded self) (_qa_loaded self))
    end.

Definition load_embedding_model (self : ModelManager)
  : outcome unit * ModelManager :=
  if _embedding_loaded self then (Ok tt, self)
  else
    match download "embedding" with
    | Raise e => (Raise e, self)
    | Ok (m, _) =>
        (Ok tt,
         mkManager (PyDict.set String.eqb (models self) "embedding" m)
                   (tokenizers self)
                   (_summarization_loaded self) true (_qa_loaded self))
    end.

Definition load_qa_model (self : ModelManager) : outcome unit * ModelManager :=
  if _qa_loaded self then (Ok tt, self)
  else
    match download "qa" with
    | Raise e => (Raise e, self)
    | Ok (m, t) =>
        (Ok tt,
         mkManager (PyDict.set String.eqb (models self) "qa" m)
                   (PyDict.set String.eqb (tokenizers self) "qa" t)
                   (_summarization_loaded self) (_embedding_loaded self) true)
    end.

(** What a getter gives: the model, the [KeyError] of
    [self.models[key]], or the exception of the download. *)
Inductive got : Type :=
| Got (m : model)
| KeyError (k : string)
| Failed (e : exn).

Definition get_embedding_model (self : ModelManager) : got * ModelManager :=
  let '(r, self') :=
    if negb (_embedding_loaded self) then load_embedding_model self
    else (Ok tt, self) in
  match r with
  | Raise e => (Failed e, self')
  | Ok _ =>
      match PyDict.get String.eqb (models self') "embedding" with
      | Some m => (Got m, self')
      | None => (KeyError "embedding", self')
      end
  end.

Definition unload_model (model_type : string) (self : ModelManager)
  : ModelManager :=
  if dict_has (models self) model_type then
    let models' := dict_del (models self) model_type in
    let tokenizers' :=
      if dict_has (tokenizers self) model_type
      then dict_del (tokenizers self) model_type
      else tokenizers self in
    mkManager models' tokenizers'
      (if String.eqb model_type "summarization" then false
       else _summarization_loaded self)
      (if String.eqb model_type "summarization" then _embedding_loaded self
       else if String.eqb model_type "embedding" then false
       else _embedding_loaded self)
      (if String.eqb model_type "summarization" then _qa_loaded self
       else if String.eqb model_type "embedding" then _qa_loaded self
       else if String.eqb model_type "qa" then false
       else _qa_loaded self)
  else self.

(** [for model_type in list(self.models.keys()): self.unload_model(model_type)] *)
Definition unload_all_models (self : ModelManager) : ModelManager :=
  fold_left (fun st k => unload_model k st) (PyDict.keys (models self)) self.

Definition load_all_models (self : ModelManager) : outcome unit * ModelManager :=
  let '(r, self1) := load_embedding_model self in
  match r with
  | Raise e => (Raise e, self1)
  | Ok _ =>
      let '(r, self2) := load_summarization_model self1 in
      match r with
      | Raise e => (Raise e, self2)
      | Ok _ => load_qa_model self2
      end
  end.

(** [initialize_models], on the manager it is given. *)
Definition initialize_models (self : ModelManager) : bool * ModelManager :=
  match load_all_models self with
  | (Ok _, self') => (true, self')
  | (Raise _, self') => (false, self')
  end.

(** A flag is set exactly when the model is in [models]; [models] holds
    the three model types only, and a tokenizer only beside its model. *)
Definition flags_match (self : ModelManager) : Prop :=
  _summarization_loaded self = dict_has (models self) "summarization"
  /\ _embedding_loaded self = dict_has (models self) "embedding"
  /\ _qa_loaded self = dict_has (models self) "qa"
  /\ (forall k, dict_has (models self) k = true ->
                k = "summarization" \/ k = "embedding" \/ k = "qa")
  /\ (forall k, dict_has (tokenizers self) k = true ->
                dict_has (models self) k = true).

End Models.

(** ** Further states to run the operations on *)

Section CountReading.
Context {B : Backend}.

(** The reading of the count of a removal before amendment: in any
    state, a removal that returns [True] takes [total_vectors] down by
    the number of records that the document had. *)
Definition remove_drops_record_count (io : save_fault) (document_id : Z)
    (self : DocumentIndexer) : Prop :=
  forall self' size size',
    remove_document_from_index io document_id self = (true, self') ->
    Stats.total_vectors (get_index_stats size' self')
    = Stats.total_vectors (get_index_stats size self)
      - Z.of_nat (length (records_of document_id self)).

End CountReading.

(** States that [DocumentIndexer()] loads from files that do not go
    together: [_save_index] writes the index file before the metadata
    file, and [_load_index] does not compare the two. *)
Module Loaded.

(** An index file of three vectors beside the metadata of
    [Toy.two_docs]: one record of document 1, one of document 2. *)
Definition three_vectors_two_records : DocumentIndexer :=
  __init__ (mkDisk (Content (mkIndex 1 [5; 2; 2]))
                   (Content (metadata Toy.two_docs))).

(** An index file of two vectors beside four records: documents 7 and 9
    with two chunks each. *)
Definition two_vectors_four_records : DocumentIndexer :=
  __init__ (mkDisk (Content (mkIndex 1 [5; 5]))
                   (Content [(0, Meta.mk 7 0 "A." "t7" 2);
                             (1, Meta.mk 7 1 "B." "t7" 2);
                             (2, Meta.mk 9 0 "C." "t9" 2);
                             (3, Meta.mk 9 1 "D." "t9" 2)])).

End Loaded.

(** Documents of more than one chunk: two sentences of 300 characters
    do not fit the chunk size of 512 together. *)
Module Long.

Definition sentence_300 : string := String.concat "" (repeat "0123456789" 30).

Definition text : string := (sentence_300 ++ ". " ++ sentence_300)%string.

(** The store after [add_document_to_index(1, text, "t1")] and
    [add_document_to_index(2, text, "t2")] on a new indexer. *)
Definition two_docs : DocumentIndexer :=
  snd (add_document_to_index NoFault 2 text "t2"
         (snd (add_document_to_index NoFault 1 text "t1" new_indexer))).

End Long.

(** * Properties of [chunk_text] *)

Section StringFacts.
Import PyStr.

Lemma string_app_assoc (a b c : string) :
  ((a ++ b) ++ c = a ++ (b ++ c))%string.
Proof. induction a as [|x a IH]; simpl; [reflexivity | now rewrite IH]. Qed.


Lemma lstrip_head (s : string) :
  lstrip s = EmptyString \/
  exists a r, lstrip s = String a r /\ is_space a = false.
Proof.
  induction s as [|a r IH]; simpl; [now left|].
  destruct (is_space a) eqn:E; [exact IH|].
  right; exists a, r; split; [reflexivity | exact E].
Qed.

Lemma rstrip_idem (s : string) : rstrip (rstrip s) = rstrip s.
Proof.
  induction s as [|a r IH]; simpl; [reflexivity|].
  destruct (rstrip r) as [|b r'] eqn:E.
  - destruct (is_space a) eqn:Ea; simpl; [reflexivity | now rewrite Ea].
  - change (rstrip (String a (String b r'))) with
      (match rstrip (String b r') with
       | EmptyString => if is_space a then EmptyString else String a EmptyString
       | r0 => String a r0
       end).
    now rewrite IH.
Qed.

Lemma rstrip_keeps_head (a : ascii) (r : string) :
  is_space a = false -> exists r', rstrip (String a r) = String a r'.
Proof.
  intros Ea; simpl. destruct (rstrip r) as [|b r'].
  - rewrite Ea. now exists EmptyString.
  - now exists (String b r').
Qed.

Lemma lstrip_strip (s : string) : lstrip (strip s) = strip s.
Proof.
  unfold strip. destruct (lstrip_head s) as [E | (a & r & E & Ea)]; rewrite E.
  - reflexivity.
  - destruct (rstrip_keeps_head a r Ea) as (r' & E'). rewrite E'. simpl.
    now rewrite Ea.
Qed.

Lemma rstrip_strip (s : string) : rstrip (strip s) = strip s.
Proof. unfold strip. apply rstrip_idem. Qed.

Lemma strip_idem (s : string) : strip (strip s) = strip s.
Proof.
  unfold strip at 1. rewrite lstrip_strip. apply rstrip_strip.
Qed.

Lemma no_dot_lstrip (s : string) : no_dot s -> no_dot (lstrip s).
Proof.
  induction s as [|a r IH]; simpl; [trivial|].
  intros [Ha Hr]. destruct (is_space a); simpl; auto.
Qed.

Lemma no_dot_rstrip (s : string) : no_dot s -> no_dot (rstrip s).
Proof.
  induction s as [|a r IH]; simpl; [trivial|].
  intros [Ha Hr]. specialize (IH Hr).
  destruct (rstrip r) as [|b r'].
  - destruct (is_space a); simpl; auto.
  - simpl in *. auto.
Qed.

Lemma no_dot_strip (s : string) : no_dot s -> no_dot (strip s).
Proof. intros H. unfold strip. now apply no_dot_rstrip, no_dot_lstrip. Qed.

Lemma split_not_nil (c : ascii) (s : string) : split c s <> [].
Proof.
  induction s as [|a r IH]; simpl; [discriminate|].
  destruct (Ascii.eqb a c); [discriminate|].
  destruct (split c r); discriminate.
Qed.

Lemma split_no_dot (s : string) : Forall no_dot (split "." s).
Proof.
  induction s as [|a r IH]; simpl.
  - constructor; simpl; auto.
  - destruct (Ascii.eqb a ".") eqn:E.
    + constructor; simpl; auto.
    + apply Ascii.eqb_neq in E.
      destruct (split "." r) as [|p ps].
      * constructor; simpl; auto.
      * inversion IH; subst. constructor; simpl; auto.
Qed.

Lemma strip_sentence (s : string) :
  no_dot s -> strip s <> EmptyString -> sentence (strip s).
Proof.
  intros Hd Hne. repeat split.
  - exact Hne.
  - apply lstrip_strip.
  - apply rstrip_strip.
  - now apply no_dot_strip.
Qed.

Lemma sentence_strip (s : string) : sentence s -> strip s = s.
Proof. intros (_ & Hl & Hr & _). unfold strip. now rewrite Hl. Qed.

Lemma sentence_not_empty (s : string) : sentence s -> is_empty s = false.
Proof. intros (Hne & _). destruct s; [congruence | reflexivity]. Qed.

Lemma sentences_of_sentences (text : string) : Forall sentence (sentences_of text).
Proof.
  unfold sentences_of. generalize (split_no_dot text).
  induction 1 as [|x l Hx Hl IH]; simpl; [constructor|].
  destruct (is_empty (strip x)) eqn:E; simpl; [exact IH|].
  constructor; [|exact IH].
  apply strip_sentence; [exact Hx|]. intros C. rewrite C in E. discriminate.
Qed.

Lemma split_app_dot (s t : string) :
  no_dot s -> split "." (s ++ String "." t) = s :: split "." t.
Proof.
  induction s as [|a r IH]; simpl.
  - reflexivity.
  - intros [Ha Hr]. apply Ascii.eqb_neq in Ha. rewrite Ha.
    now rewrite (IH Hr).
Qed.

Lemma sentences_of_cons (s t : string) :
  sentence s -> sentences_of (s ++ String "." t) = s :: sentences_of t.
Proof.
  intros Hs. unfold sentences_of.
  rewrite split_app_dot by apply Hs. simpl.
  rewrite (sentence_strip s Hs), (sentence_not_empty s Hs). reflexivity.
Qed.

Lemma sentences_of_space (t : string) :
  sentences_of (String " " t) = sentences_of t.
Proof.
  unfold sentences_of. simpl split.
  destruct (split "." t) as [|p ps] eqn:E.
  - now apply split_not_nil in E.
  - reflexivity.
Qed.

Lemma close_chunk_cons (s : string) (g : list string) :
  g <> [] ->
  close_chunk (s :: g) = (s ++ String "." (String " " (close_chunk g)))%string.
Proof.
  intros Hg. unfold close_chunk, join. destruct g as [|x g]; [congruence|].
  change (String.concat ". " (s :: x :: g))
    with (s ++ ". " ++ String.concat ". " (x :: g))%string.
  rewrite string_app_assoc. reflexivity.
Qed.

(** Splitting a closed chunk again gives back its sentences. *)
Lemma sentences_of_close_chunk (g : list string) :
  Forall sentence g -> g <> [] -> sentences_of (close_chunk g) = g.
Proof.
  induction 1 as [|s g Hs Hg IH]; [congruence|]. intros _.
  destruct g as [|x g].
  - unfold close_chunk, join. simpl String.concat.
    rewrite (sentences_of_cons s EmptyString Hs). reflexivity.
  - rewrite close_chunk_cons by discriminate.
    rewrite (sentences_of_cons _ _ Hs), sentences_of_space, IH; [reflexivity|].
    discriminate.
Qed.


End StringFacts.

Section ChunkFacts.
Variables chunk_size overlap : Z.

Lemma last_default {A : Type} (l : list A) (a b : A) :
  l <> [] -> last l a = last l b.
Proof.
  induction l as [|y l IH]; [congruence|]. intros _.
  destruct l as [|z l]; [reflexivity|].
  change (last (z :: l) a = last (z :: l) b). apply IH. discriminate.
Qed.

Lemma with_prev_snoc {A : Type} (p : A) (l : list A) (x : A) :
  with_prev p (l ++ [x]) = with_prev p l ++ [(last l p, x)].
Proof.
  revert p. induction l as [|y l IH]; intros p; [reflexivity|].
  change (with_prev p ((y :: l) ++ [x])) with ((p, y) :: with_prev y (l ++ [x])).
  rewrite IH. simpl with_prev. destruct l as [|z l]; [reflexivity|].
  rewrite (last_default (z :: l) y p) by discriminate. reflexivity.
Qed.

Lemma sum_len_snoc (l : list string) (s : string) :
  sum_len (l ++ [s]) = sum_len l + PyStr.len s.
Proof. induction l as [|x l IH]; simpl; [lia | rewrite IH; lia]. Qed.

Lemma overlap_seed_sentences (prev : list string) :
  Forall sentence prev -> Forall sentence (overlap_seed overlap prev).
Proof.
  intros H. unfold overlap_seed, last_n.
  destruct ((overlap >? 0) && (1 <? length prev)%nat); [|constructor].
  rewrite Forall_forall in *. intros x Hx. apply H.
  rewrite <- (firstn_skipn (length prev - Z.to_nat overlap) prev).
  apply in_or_app. now right.
Qed.

(** Closing the chunk in progress: the next one is its seed and [s]. *)
Lemma groups_ok_close (gs : list (list string)) (cur done : list string)
    (s : string) :
  sentence s ->
  groups_ok chunk_size overlap (gs ++ [cur]) done ->
  groups_ok chunk_size overlap
            ((gs ++ [cur]) ++ [overlap_seed overlap cur ++ [s]]) (done ++ [s]).
Proof.
  intros Hs (Hc & Hse & Hb & Hv).
  assert (Hlast : last (gs ++ [cur]) [] = cur) by apply last_last.
  unfold groups_ok. rewrite with_prev_snoc, Hlast.
  split; [|split; [|split]].
  - rewrite map_app, concat_app, Hc. simpl. f_equal. unfold fresh_part. simpl.
    rewrite skipn_app, skipn_all, Nat.sub_diag. reflexivity.
  - apply Forall_app. split; [exact Hse|].
    constructor; [|constructor]. unfold seeded. simpl.
    rewrite firstn_app, firstn_all, Nat.sub_diag. simpl. apply app_nil_r.
  - apply Forall_app. split; [exact Hb|].
    constructor; [|constructor]. right. simpl.
    rewrite length_app. simpl. lia.
  - apply Forall_app. split; [exact Hv|].
    constructor; [|constructor]. split.
    + destruct (overlap_seed overlap cur); discriminate.
    + apply Forall_app. split; [|constructor; [exact Hs | constructor]].
      apply overlap_seed_sentences.
      apply Forall_app in Hv. destruct Hv as [_ Hv].
      inversion Hv; subst. tauto.
Qed.

(** Adding [s] to the chunk in progress, within the budget. *)
Lemma groups_ok_extend (gs : list (list string)) (cur done : list string)
    (s : string) :
  sentence s ->
  sum_len cur + PyStr.len s <= chunk_size ->
  groups_ok chunk_size overlap (gs ++ [cur]) done ->
  groups_ok chunk_size overlap (gs ++ [cur ++ [s]]) (done ++ [s]).
Proof.
  intros Hs Hle (Hc & Hse & Hb & Hv).
  unfold groups_ok. rewrite with_prev_snoc in *.
  apply Forall_app in Hse. destruct Hse as [Hse1 Hse2].
  apply Forall_app in Hb. destruct Hb as [Hb1 _].
  apply Forall_app in Hv. destruct Hv as [Hv1 Hv2].
  inversion Hse2 as [|? ? Hsd _]; subst.
  inversion Hv2 as [|? ? [Hne Hcur] _]; subst.
  unfold seeded in Hsd. simpl in Hsd.
  set (k := length (overlap_seed overlap (last gs []))) in *.
  assert (Hk : (k <= length cur)%nat).
  { pose proof (f_equal (@length string) Hsd) as E.
    rewrite length_firstn in E. fold k in E. lia. }
  split; [|split; [|split]].
  - rewrite !map_app, !concat_app. simpl. rewrite !app_nil_r, <- app_assoc.
    f_equal.
    unfold fresh_part in *. simpl in *. fold k.
    rewrite skipn_app. replace (k - length cur)%nat with 0%nat by lia.
    reflexivity.
  - apply Forall_app. split; [exact Hse1|].
    constructor; [|constructor]. unfold seeded. simpl. fold k.
    rewrite firstn_app. replace (k - length cur)%nat with 0%nat by lia.
    simpl. rewrite app_nil_r. exact Hsd.
  - apply Forall_app. split; [exact Hb1|].
    constructor; [|constructor]. left. simpl. rewrite sum_len_snoc. exact Hle.
  - apply Forall_app. split; [exact Hv1|].
    constructor; [|constructor]. split.
    + destruct cur; discriminate.
    + apply Forall_app. split; [exact Hcur | constructor; [exact Hs | constructor]].
Qed.

Lemma overlap_seed_nil : overlap_seed overlap [] = [].
Proof. unfold overlap_seed. now destruct (overlap >? 0). Qed.

Lemma groups_ok_first (s : string) :
  sentence s -> groups_ok chunk_size overlap [[s]] [s].
Proof.
  intros Hs. unfold groups_ok, fresh_part, seeded, within_budget. simpl.
  split; [|split; [|split]].
  - now rewrite overlap_seed_nil.
  - constructor; [|constructor]. simpl. now rewrite overlap_seed_nil.
  - constructor; [|constructor]. right. simpl. now rewrite overlap_seed_nil.
  - constructor; [|constructor]. split; [discriminate | constructor; [exact Hs | constructor]].
Qed.

Lemma chunk_step_sentence (st : chunker) (done : list string) (s : string) :
  sentence s ->
  chunk_inv chunk_size overlap st done ->
  chunk_inv chunk_size overlap (chunk_step chunk_size overlap st s) (done ++ [s]).
Proof.
  intros Hs Hinv. unfold chunk_step.
  rewrite (sentence_strip s Hs), (sentence_not_empty s Hs).
  destruct Hinv as [Hch Hcur Hz Hd | G Hch Hcur Hlen Hok].
  - rewrite Hcur. simpl. rewrite andb_false_r. subst done.
    apply (inv_run _ _ _ _ []); simpl.
    + exact Hch.
    + discriminate.
    + lia.
    + now apply groups_ok_first.
  - destruct (length (current_chunk st) =? 0)%nat eqn:E0.
    { apply Nat.eqb_eq in E0. destruct (current_chunk st); [congruence | discriminate]. }
    simpl negb. rewrite andb_true_r.
    destruct (current_length st + PyStr.len s >? chunk_size) eqn:Egt.
    + assert (Hnew :
        (if (overlap >? 0) && (1 <? length (current_chunk st))%nat
         then mkChunker (chunks st ++ [close_chunk (current_chunk st)])
                (last_n overlap (current_chunk st) ++ [s])
                (sum_len (last_n overlap (current_chunk st) ++ [s]))
         else mkChunker (chunks st ++ [close_chunk (current_chunk st)])
                [s] (PyStr.len s))
        = mkChunker (chunks st ++ [close_chunk (current_chunk st)])
            (overlap_seed overlap (current_chunk st) ++ [s])
            (sum_len (overlap_seed overlap (current_chunk st) ++ [s]))).
      { unfold overlap_seed.
        destruct ((overlap >? 0) && (1 <? length (current_chunk st))%nat);
          [reflexivity|]. simpl. f_equal. lia. }
      rewrite Hnew.
      apply (inv_run _ _ _ _ (G ++ [current_chunk st])); simpl.
      * rewrite map_app, Hch. reflexivity.
      * destruct (overlap_seed overlap (current_chunk st)); discriminate.
      * reflexivity.
      * now apply groups_ok_close.
    + apply (inv_run _ _ _ _ G); simpl.
      * exact Hch.
      * destruct (current_chunk st); discriminate.
      * rewrite sum_len_snoc. lia.
      * apply groups_ok_extend; [exact Hs | | exact Hok].
        rewrite <- Hlen. lia.
Qed.

Lemma chunk_loop_sentences (l : list string) (st : chunker) (done : list string) :
  Forall sentence l ->
  chunk_inv chunk_size overlap st done ->
  chunk_inv chunk_size overlap
            (fold_left (chunk_step chunk_size overlap) l st) (done ++ l).
Proof.
  intros Hl. revert st done.
  induction Hl as [|s l Hs Hl IH]; intros st done Hinv; simpl.
  - now rewrite app_nil_r.
  - replace (done ++ s :: l) with ((done ++ [s]) ++ l)
      by (rewrite <- app_assoc; reflexivity).
    apply IH. now apply chunk_step_sentence.
Qed.

(** The loop skips what is empty once stripped: it runs on [sentences_of]. *)
Lemma chunk_loop_raw (raw : list string) (st : chunker) :
  fold_left (chunk_step chunk_size overlap) raw st
  = fold_left (chunk_step chunk_size overlap)
      (filter (fun s => negb (PyStr.is_empty s)) (map PyStr.strip raw)) st.
Proof.
  revert st. induction raw as [|x raw IH]; intros st; simpl; [reflexivity|].
  destruct (PyStr.is_empty (PyStr.strip x)) eqn:E; simpl.
  - rewrite <- IH. f_equal. unfold chunk_step. now rewrite E.
  - rewrite <- IH. f_equal. unfold chunk_step.
    now rewrite strip_idem, E.
Qed.

Lemma chunk_loop_inv (text : string) :
  chunk_inv chunk_size overlap
    (fold_left (chunk_step chunk_size overlap) (PyStr.split "." text)
               (mkChunker [] [] 0))
    (sentences_of text).
Proof.
  rewrite chunk_loop_raw.
  apply (chunk_loop_sentences _ _ []).
  - apply sentences_of_sentences.
  - now apply inv_start.
Qed.

Lemma map_sentences_of_close (gs : list (list string)) :
  Forall (fun g => g <> [] /\ Forall sentence g) gs ->
  map sentences_of (map close_chunk gs) = gs.
Proof.
  induction 1 as [|g gs [Hne Hg] _ IH]; simpl; [reflexivity|].
  now rewrite IH, sentences_of_close_chunk.
Qed.

End ChunkFacts.

Lemma chunk_finish_run (st : chunker) (G : list (list string)) :
  chunks st = map close_chunk G -> current_chunk st <> [] ->
  chunk_finish st = map close_chunk (G ++ [current_chunk st]).
Proof.
  intros Hch Hne. unfold chunk_finish.
  destruct (current_chunk st) eqn:E; [congruence|].
  now rewrite map_app, Hch.
Qed.



(** * Properties of the index *)

Section DictFacts.
Context {V : Type}.
Implicit Types (m : PyDict.dict Z V) (l : list V).

Lemma enumerate_from_snoc l (x : V) (n : nat) :
  combine (map Z.of_nat (seq n (length (l ++ [x])))) (l ++ [x])
  = combine (map Z.of_nat (seq n (length l))) l
    ++ [(Z.of_nat (n + length l), x)].
Proof.
  revert n. induction l as [|y l IH]; intros n; simpl.
  - now rewrite Nat.add_0_r.
  - rewrite IH. simpl. do 4 f_equal. lia.
Qed.

Lemma enumerate_snoc l (x : V) :
  PyList.enumerate (l ++ [x])
  = PyList.enumerate l ++ [(Z.of_nat (length l), x)].
Proof. unfold PyList.enumerate. now rewrite enumerate_from_snoc. Qed.

Lemma keys_enumerate l :
  PyDict.keys (PyList.enumerate l) = map Z.of_nat (seq 0 (length l)).
Proof.
  unfold PyDict.keys, PyList.enumerate.
  generalize 0%nat. induction l as [|x l IH]; intros n; simpl;
    [reflexivity | now rewrite IH].
Qed.

Lemma values_enumerate l : PyDict.values (PyList.enumerate l) = l.
Proof.
  unfold PyDict.values, PyList.enumerate.
  generalize 0%nat. induction l as [|x l IH]; intros n; simpl;
    [reflexivity | now rewrite IH].
Qed.

Lemma length_enumerate l : length (PyList.enumerate l) = length l.
Proof. rewrite <- (values_enumerate l) at 2. unfold PyDict.values. now rewrite length_map. Qed.

Lemma set_fresh m (k : Z) (v : V) :
  ~ In k (PyDict.keys m) -> PyDict.set Z.eqb m k v = m ++ [(k, v)].
Proof.
  induction m as [|[k' v'] m IH]; simpl; intros Hk; [reflexivity|].
  destruct (k' =? k) eqn:E.
  - apply Z.eqb_eq in E. tauto.
  - rewrite IH by tauto. reflexivity.
Qed.

Lemma keys_in_range (n : nat) (k : Z) :
  In k (map Z.of_nat (seq 0 n)) <-> 0 <= k < Z.of_nat n.
Proof.
  rewrite in_map_iff. split.
  - intros (i & <- & Hi). apply in_seq in Hi. lia.
  - intros H. exists (Z.to_nat k). split; [lia|]. apply in_seq. lia.
Qed.

Lemma set_enumerate l (v : V) :
  PyDict.set Z.eqb (PyList.enumerate l) (Z.of_nat (length l)) v
  = PyList.enumerate (l ++ [v]).
Proof.
  rewrite enumerate_snoc. apply set_fresh.
  rewrite keys_enumerate, keys_in_range. lia.
Qed.

(** A dict whose keys are 0, 1, ... in order is the enumeration of its
    values. *)
Lemma dict_is_enumerate m :
  PyDict.keys m = map Z.of_nat (seq 0 (length m)) ->
  m = PyList.enumerate (PyDict.values m).
Proof.
  unfold PyDict.keys, PyDict.values, PyList.enumerate.
  rewrite length_map. generalize 0%nat.
  induction m as [|[k v] m IH]; intros n; simpl; [reflexivity|].
  intros H. injection H as Hk Hm. subst k. f_equal. now apply IH.
Qed.

Lemma get_in m (k : Z) (v : V) :
  PyDict.get Z.eqb m k = Some v -> In (k, v) m.
Proof.
  induction m as [|[k' v'] m IH]; simpl; [discriminate|].
  destruct (k' =? k) eqn:E.
  - apply Z.eqb_eq in E. intros [= ->]. left. now subst.
  - intros H. right. now apply IH.
Qed.

End DictFacts.

Section SortFacts.
Context {A : Type}.
Variable key : A -> Z.
Let before (x y : A) : bool := key x <=? key y.

Lemma insert_ordered (x : A) (l : list A) :
  ordered key l -> ordered key (PyList.insert before x l).
Proof.
  induction l as [|y l IH]; simpl; [tauto|].
  intros [Hy Hl]. unfold before at 1.
  destruct (key x <=? key y) eqn:E.
  - simpl. apply Z.leb_le in E. tauto.
  - apply Z.leb_gt in E. specialize (IH Hl). simpl. split; [|exact IH].
    destruct l as [|z l]; simpl.
    + lia.
    + unfold before. destruct (key x <=? key z); [lia | exact Hy].
Qed.

Lemma sort_ordered (l : list A) : ordered key (PyList.sort before l).
Proof.
  induction l as [|x l IH]; simpl; [exact I | now apply insert_ordered].
Qed.

Lemma sort_of_ordered (l : list A) :
  ordered key l -> PyList.sort before l = l.
Proof.
  induction l as [|x l IH]; simpl; [reflexivity|].
  intros [Hx Hl]. rewrite (IH Hl).
  destruct l as [|y l]; simpl; [reflexivity|].
  unfold before. apply Z.leb_le in Hx. now rewrite Hx.
Qed.

Lemma sort_idem (l : list A) :
  PyList.sort before (PyList.sort before l) = PyList.sort before l.
Proof. apply sort_of_ordered, sort_ordered. Qed.

End SortFacts.

Section SortMembers.
Context {A : Type}.
Variable before : A -> A -> bool.

Lemma in_insert (x y : A) (l : list A) :
  In y (PyList.insert before x l) <-> y = x \/ In y l.
Proof.
  induction l as [|z l IH]; simpl; [intuition congruence|].
  destruct (before x z); simpl; [intuition congruence|].
  rewrite IH. intuition congruence.
Qed.

Lemma in_sort (y : A) (l : list A) :
  In y (PyList.sort before l) <-> In y l.
Proof.
  induction l as [|x l IH]; simpl; [tauto|].
  rewrite in_insert, IH. intuition congruence.
Qed.

Lemma length_insert (x : A) (l : list A) :
  length (PyList.insert before x l) = S (length l).
Proof.
  induction l as [|z l IH]; simpl; [reflexivity|].
  destruct (before x z); simpl; [reflexivity | now rewrite IH].
Qed.

Lemma length_sort (l : list A) : length (PyList.sort before l) = length l.
Proof.
  induction l as [|x l IH]; simpl; [reflexivity|].
  now rewrite length_insert, IH.
Qed.

Lemma Forall_sort (P : A -> Prop) (l : list A) :
  Forall P l -> Forall P (PyList.sort before l).
Proof.
  rewrite !Forall_forall. intros H y Hy. apply H. now apply in_sort.
Qed.

End SortMembers.

Section AddFacts.
Context {B : Backend}.

Lemma put_chunks_ids (doc : Z) (title : string) (start : Z)
    (l : list (Z * string)) (ids : list Z) (md : PyDict.dict Z Meta.t) :
  fst (fold_left (put_chunk doc title start) l (ids, md))
  = ids ++ map (fun ic => start + fst ic) l.
Proof.
  revert ids md. induction l as [|[i c] l IH]; intros ids md; simpl.
  - now rewrite app_nil_r.
  - rewrite IH, <- app_assoc. reflexivity.
Qed.

Lemma map_fst_enumerate {A : Type} (f : Z -> Z) (l : list A) :
  map (fun ic => f (fst ic)) (PyList.enumerate l)
  = map (fun i => f (Z.of_nat i)) (seq 0 (length l)).
Proof.
  unfold PyList.enumerate. generalize 0%nat.
  induction l as [|x l IH]; intros n; simpl; [reflexivity | now rewrite IH].
Qed.

(** The call that reaches [_save_index]: what it returns and leaves. *)
Lemma add_document_reaches_save (io : save_fault) (doc : Z)
    (text title : string) (self : DocumentIndexer)
    (emb : ndarray vec) (ix' : faiss_index vec) :
  chunk_text text None None <> [] ->
  _create_embeddings (chunk_text text None None) = Ok emb ->
  faiss_add (fst (index_or_new self emb)) emb = Ok ix' ->
  let start := ntotal (fst (index_or_new self emb)) in
  let acc := fold_left (put_chunk doc title start)
               (PyList.enumerate (chunk_text text None None))
               ([], metadata self) in
  let self' := mkIndexer (Some ix') (snd acc) (snd (index_or_new self emb)) in
  add_document_to_index io doc text title self
  = (match io with NoFault => Ok (fst acc) | _ => Raise OSError end, self').
Proof.
  intros Hne Hemb Hadd. unfold add_document_to_index.
  destruct (chunk_text text None None) as [|c cs] eqn:Ec; [congruence|].
  rewrite Hemb. destruct (index_or_new self emb) as [ix dim] eqn:Ei.
  simpl in Hadd. rewrite Hadd. simpl.
  destruct (fold_left _ _ _) as [vector_ids md] eqn:Ef. simpl.
  unfold _save_index. simpl. destruct io; reflexivity.
Qed.

(** A call that returns ids went through the save, or had no chunk. *)
Lemma add_document_ok_inv (io : save_fault) (doc : Z)
    (text title : string) (self self' : DocumentIndexer) (ids : list Z) :
  add_document_to_index io doc text title self = (Ok ids, self') ->
  (chunk_text text None None = [] /\ ids = [] /\ self' = self)
  \/ (chunk_text text None None <> [] /\ io = NoFault /\
      exists emb ix',
        _create_embeddings (chunk_text text None None) = Ok emb /\
        faiss_add (fst (index_or_new self emb)) emb = Ok ix').
Proof.
  intros H.
  destruct (chunk_text text None None) as [|c cs] eqn:Ec.
  - left. unfold add_document_to_index in H. rewrite Ec in H.
    injection H as <- <-. auto.
  - right. split; [discriminate|].
    destruct (_create_embeddings (c :: cs)) as [emb|e] eqn:Ee.
    2:{ unfold add_document_to_index in H. rewrite Ec, Ee in H. discriminate. }
    destruct (faiss_add (fst (index_or_new self emb)) emb) as [ix'|e] eqn:Ea.
    2:{ unfold add_document_to_index in H. rewrite Ec, Ee in H.
        destruct (index_or_new self emb) as [ix dim]. simpl in Ea.
        rewrite Ea in H. discriminate. }
    rewrite <- Ec in Ee.
    assert (Hne : chunk_text text None None <> []) by (rewrite Ec; discriminate).
    rewrite (add_document_reaches_save io doc text title self emb ix' Hne Ee Ea) in H.
    split; [|now exists emb, ix'].
    destruct io; [reflexivity | discriminate | discriminate].
Qed.

End AddFacts.

Section AddTheorems.
Context {B : Backend}.

(** C7. A batch added to an index of size N takes the ids N, N+1, ... in
    order: the vector of row [i] is then read back under the id [N + i];
    and a call of [add_document_to_index] that returns gives the ids
    N, ..., N+n-1 for the n chunks of the text, one id for each chunk. *)
Theorem add_assigns_contiguous_ids :
  (forall (ix ix' : faiss_index vec) (x : ndarray vec),
      faiss_add ix x = Ok ix' ->
      ntotal ix' = ntotal ix + Z.of_nat (length (rows x))
      /\ forall (i : nat) (v : vec),
           nth_error (rows x) i = Some v ->
           reconstruct ix' (ntotal ix + Z.of_nat i) = Ok v)
  /\ (forall (io : save_fault) (doc : Z) (text title : string)
             (self self' : DocumentIndexer) (ids : list Z),
         add_document_to_index io doc text title self = (Ok ids, self') ->
         ids = map (fun i => index_size self + Z.of_nat i)
                   (seq 0 (length (chunk_text text None None)))
         /\ length ids = length (chunk_text text None None)).
Proof.
  split.
  - intros ix ix' x H. unfold faiss_add in H.
    destruct (shape1 x =? d ix); [|discriminate]. injection H as <-.
    unfold ntotal, reconstruct, PyList.item. simpl.
    rewrite length_app. split; [apply Nat2Z.inj_add|]. intros i v Hi.
    destruct (_ <? 0) eqn:E; [apply Z.ltb_lt in E; lia|].
    replace (Z.to_nat (Z.of_nat (length (xb ix)) + Z.of_nat i))
      with (length (xb ix) + i)%nat by lia.
    rewrite nth_error_app2 by lia.
    replace (length (xb ix) + i - length (xb ix))%nat with i by lia.
    now rewrite Hi.
  - intros io doc text title self self' ids H.
    assert (Hids : ids = map (fun i => index_size self + Z.of_nat i)
                            (seq 0 (length (chunk_text text None None)))).
    { destruct (add_document_ok_inv _ _ _ _ _ _ _ H)
        as [(Hc & -> & _) | (Hne & -> & emb & ix' & He & Ha)].
      - now rewrite Hc.
      - rewrite (add_document_reaches_save NoFault doc text title self emb ix'
                   Hne He Ha) in H.
        injection H as <- _. rewrite put_chunks_ids. simpl.
        rewrite (map_fst_enumerate (fun i => _ + i)).
        apply map_ext. intros i. f_equal.
        unfold index_size, index_or_new. destruct (index self); reflexivity. }
    split; [exact Hids|]. rewrite Hids. now rewrite length_map, length_seq.
Qed.


End AddTheorems.



Section SearchFacts.
Context {B : Backend}.

(** Where a result of the search loop comes from. *)
Lemma search_loop_hits (md : PyDict.dict Z Meta.t) (ids : option (list Z))
    (k : Z) (cands : list (Q * Z)) (res : list Hit.t) (h : Hit.t) :
  In h (search_loop md ids k cands res) ->
  In h res
  \/ exists score idx,
      In (score, idx) cands
      /\ h = make_hit idx score (PyDict.get Z.eqb md idx)
      /\ forall S, filter_given ids = Some S ->
                   not_in_filter (PyDict.get Z.eqb md idx) S = false.
Proof.
  revert res. induction cands as [|[score idx] cands IH]; intros res; simpl.
  - now left.
  - assert (Hrec : forall res',
      (In h res' -> In h res \/ exists score0 idx0,
          ((score, idx) = (score0, idx0) \/ In (score0, idx0) cands)
          /\ h = make_hit idx0 score0 (PyDict.get Z.eqb md idx0)
          /\ forall S, filter_given ids = Some S ->
                not_in_filter (PyDict.get Z.eqb md idx0) S = false) ->
      In h (search_loop md ids k cands res') ->
      In h res \/ exists score0 idx0,
          ((score, idx) = (score0, idx0) \/ In (score0, idx0) cands)
          /\ h = make_hit idx0 score0 (PyDict.get Z.eqb md idx0)
          /\ forall S, filter_given ids = Some S ->
                not_in_filter (PyDict.get Z.eqb md idx0) S = false).
    { intros res' Hres' Hin. destruct (IH res' Hin) as [H | (s0 & i0 & H1 & H2 & H3)].
      - now apply Hres'.
      - right. exists s0, i0. auto. }
    destruct (idx =? -1); [apply Hrec; tauto|].
    destruct (match filter_given ids with
              | Some ids0 => not_in_filter (PyDict.get Z.eqb md idx) ids0
              | None => false
              end) eqn:Eskip; [apply Hrec; tauto|].
    assert (Hnew : forall h', In h' (res ++ [make_hit idx score (PyDict.get Z.eqb md idx)]) ->
      In h' res \/ h' = make_hit idx score (PyDict.get Z.eqb md idx)).
    { intros h' Hh'. apply in_app_or in Hh'. simpl in Hh'. intuition congruence. }
    assert (Hfilter : forall S, filter_given ids = Some S ->
              not_in_filter (PyDict.get Z.eqb md idx) S = false).
    { intros S HS. now rewrite HS in Eskip. }
    destruct (_ >=? k).
    + intros Hin. destruct (Hnew _ Hin) as [H | H]; [now left|].
      right. exists score, idx. auto.
    + apply Hrec. intros Hin. destruct (Hnew _ Hin) as [H | H]; [now left|].
      right. exists score, idx. auto.
Qed.

Lemma search_hits (q : string) (k : Z) (ids : option (list Z))
    (self : DocumentIndexer) (hits : list Hit.t) (h : Hit.t) :
  search_similar_chunks q k ids self = Ok hits ->
  In h hits ->
  exists score idx,
    h = make_hit idx score (PyDict.get Z.eqb (metadata self) idx)
    /\ forall S, filter_given ids = Some S ->
                 not_in_filter (PyDict.get Z.eqb (metadata self) idx) S = false.
Proof.
  unfold search_similar_chunks. intros H Hin.
  destruct (index self) as [ix|]; [|injection H as <-; destruct Hin].
  destruct (ntotal ix =? 0); [injection H as <-; destruct Hin|].
  destruct (_create_embeddings [q]) as [qe|e]; [|discriminate]. simpl in H.
  destruct (faiss_search ix qe (k * 2)) as [cands|e]; [|discriminate].
  simpl in H. injection H as <-.
  unfold sort_by_score in Hin. apply in_sort in Hin.
  destruct (search_loop_hits _ _ _ _ _ _ Hin) as [[] | (score & idx & _ & H1 & H2)].
  now exists score, idx.
Qed.

Lemma search_empty_index (q : string) (k : Z) (ids : option (list Z))
    (self : DocumentIndexer) :
  index_empty self -> search_similar_chunks q k ids self = Ok [].
Proof.
  unfold index_empty, search_similar_chunks.
  destruct (index self) as [ix|]; [|reflexivity].
  intros H. unfold ntotal. now rewrite H.
Qed.

Lemma vector_id_make_hit (idx : Z) (score : Q) (vm : option Meta.t) :
  Hit.vector_id (make_hit idx score vm) = idx.
Proof. destruct vm; reflexivity. Qed.

(** C3, as amended. A search with a non-empty document filter [S] drops
    every candidate that has no metadata and returns only results whose
    document is in [S]; an empty filter is no filter: the search is the
    one without [document_ids]. *)
Theorem search_document_filter :
  (forall (q : string) (k : Z) (S : list Z) (self : DocumentIndexer)
          (hits : list Hit.t),
      S <> [] ->
      search_similar_chunks q k (Some S) self = Ok hits ->
      Forall (fun h =>
                exists m,
                  PyDict.get Z.eqb (metadata self) (Hit.vector_id h) = Some m
                  /\ Hit.document_id h = Some (Meta.document_id m)
                  /\ In (Meta.document_id m) S) hits)
  /\ (forall (q : string) (k : Z) (self : DocumentIndexer),
         search_similar_chunks q k (Some []) self
         = search_similar_chunks q k None self).
Proof.
  split.
  - intros q k S self hits HS H. apply Forall_forall. intros h Hin.
    destruct (search_hits _ _ _ _ _ _ H Hin) as (score & idx & -> & Hf).
    assert (HfS : filter_given (Some S) = Some S) by (destruct S; [congruence | reflexivity]).
    specialize (Hf S HfS). rewrite vector_id_make_hit.
    destruct (PyDict.get Z.eqb (metadata self) idx) as [m|]; [|discriminate].
    exists m. simpl in *. repeat split.
    apply negb_false_iff, existsb_exists in Hf.
    destruct Hf as (x & Hx & E). apply Z.eqb_eq in E. now subst.
  - intros q k self. unfold search_similar_chunks.
    destruct (index self) as [ix|]; [|reflexivity].
    destruct (ntotal ix =? 0); [reflexivity|].
    destruct (_create_embeddings [q]); [|reflexivity]. simpl.
    destruct (faiss_search ix a (k * 2)) as [cands|]; [|reflexivity]. simpl.
    do 2 f_equal. generalize (@nil Hit.t).
    induction cands as [|[score idx] cands IH]; intros res; simpl; [reflexivity|].
    rewrite !IH. reflexivity.
Qed.

(** C9, as amended. On an empty or uninitialized index the search
    returns the empty list and the statistics come back as a record with
    no vector; the record is all zero when the index is uninitialized,
    and carries the recorded dimension when the index is initialized. *)
Theorem reads_on_empty_index (index_file_size : option Z) (q : string)
    (k : Z) (ids : option (list Z)) (self : DocumentIndexer) :
  index_empty self ->
  search_similar_chunks q k ids self = Ok []
  /\ Stats.total_vectors (get_index_stats index_file_size self) = 0
  /\ (index self = None -> all_zero (get_index_stats index_file_size self))
  /\ (index self <> None ->
      Stats.dimension (get_index_stats index_file_size self)
      = int_or (dimension self) 0).
Proof.
  intros He. split; [now apply search_empty_index|].
  unfold index_empty, get_index_stats, all_zero in *.
  destruct (index self) as [ix|]; simpl.
  - unfold ntotal. rewrite He. simpl. repeat split; congruence.
  - repeat split; congruence.
Qed.

End SearchFacts.

Lemma search_document_filter_witness :
  Forall (fun h => exists m,
            PyDict.get Z.eqb (metadata Toy.two_docs) (Hit.vector_id h) = Some m
            /\ Hit.document_id h = Some (Meta.document_id m)
            /\ In (Meta.document_id m) [2])
         [Hit.mk 1 1 (Some 2) (Some 0) "C." "t2" 2].
Proof.
  apply (proj1 search_document_filter "x" 5 [2] Toy.two_docs).
  - discriminate.
  - reflexivity.
Defined.

(** C3, as first stated, fails: with the empty filter the search over
    two documents returns their chunks, none of which is in the filter. *)
Lemma search_empty_filter_counterexample :
  ~ search_respects_filter "x" 5 [] Toy.two_docs.
Proof.
  intros H. specialize (H _ eq_refl).
  inversion H as [|h l (doc & _ & []) _].
Qed.

Lemma reads_on_empty_index_witness :
  search_similar_chunks "anything" 5 None new_indexer = Ok []
  /\ Stats.total_vectors (get_index_stats None new_indexer) = 0
  /\ (index new_indexer = None -> all_zero (get_index_stats None new_indexer))
  /\ (index new_indexer <> None ->
      Stats.dimension (get_index_stats None new_indexer)
      = int_or (dimension new_indexer) 0).
Proof.
  apply (reads_on_empty_index None "anything" 5 None new_indexer).
  exact I.
Defined.

(** C9, as first stated, fails: after the only document is removed the
    index is empty, and the statistics carry its dimension, 1. *)
Lemma stats_on_emptied_index_counterexample :
  ~ empty_reads_all_zero None "anything" 5 None
      (snd (remove_document_from_index NoFault 1 Toy.one_doc)).
Proof.
  intros H. destruct (H eq_refl) as (_ & _ & Hd & _).
  vm_compute in Hd. discriminate.
Qed.

Section RemoveFacts.
Context {B : Backend}.

Lemma reconstruct_in_range (ix : faiss_index vec) (key : Z) :
  0 <= key < ntotal ix -> exists v, reconstruct ix key = Ok v.
Proof.
  unfold ntotal, reconstruct, PyList.item. intros H.
  destruct (key <? 0) eqn:E; [apply Z.ltb_lt in E; lia|].
  destruct (nth_error (xb ix) (Z.to_nat key)) as [v|] eqn:En; [now exists v|].
  apply nth_error_None in En. lia.
Qed.

(** What the loop of the removal has built when it ends. *)
Lemma remove_loop_spec (ix : faiss_index vec) (doc : Z)
    (items : list (Z * Meta.t)) (kv kv' : list vec) (R : list Meta.t)
    (km' : PyDict.dict Z Meta.t) (n' : Z) :
  remove_loop ix doc items (kv, PyList.enumerate R, Z.of_nat (length R))
  = Ok (kv', km', n') ->
  let kept := filter (fun m => negb (Meta.document_id m =? doc))
                     (map snd items) in
  km' = PyList.enumerate (R ++ kept)
  /\ length kv' = (length kv + length kept)%nat.
Proof.
  revert kv R. induction items as [|[vid m] items IH]; intros kv R; simpl.
  - intros [= <- <- _]. now rewrite app_nil_r, Nat.add_0_r.
  - destruct (negb (Meta.document_id m =? doc)); simpl.
    + destruct (reconstruct ix vid) as [v|e]; [|discriminate]. simpl.
      rewrite set_enumerate.
      replace (Z.of_nat (length R) + 1) with (Z.of_nat (length (R ++ [m])))
        by (rewrite length_app; simpl; lia).
      intros H. destruct (IH _ _ H) as [H1 H2].
      rewrite <- app_assoc in H1. split; [exact H1|].
      rewrite H2, length_app. simpl. lia.
    + apply IH.
Qed.

(** With every id in range the loop ends without raising. *)
Lemma remove_loop_total (ix : faiss_index vec) (doc : Z)
    (items : list (Z * Meta.t))
    (acc : list vec * PyDict.dict Z Meta.t * Z) :
  Forall (fun it => 0 <= fst it < ntotal ix) items ->
  exists r, remove_loop ix doc items acc = Ok r.
Proof.
  intros H. revert acc. induction H as [|[vid m] items Hv _ IH]; intros acc; simpl.
  - now exists acc.
  - destruct (negb (Meta.document_id m =? doc)); [|apply IH].
    destruct acc as [[kv km] n].
    destruct (reconstruct_in_range ix vid Hv) as (v & ->). simpl. apply IH.
Qed.

Lemma consistent_keys_in_range (self : DocumentIndexer) (ix : faiss_index vec) :
  consistent self -> index self = Some ix ->
  Forall (fun it => 0 <= fst it < ntotal ix) (PyDict.items (metadata self)).
Proof.
  unfold consistent. intros H E. rewrite E in H. destruct H as [_ Hk].
  apply Forall_forall. intros [k m] Hin. simpl.
  apply keys_in_range. rewrite <- Hk. unfold PyDict.keys.
  apply (in_map fst) in Hin. exact Hin.
Qed.

Lemma consistent_sizes (self : DocumentIndexer) (ix : faiss_index vec) :
  consistent self -> index self = Some ix ->
  length (metadata self) = length (xb ix).
Proof.
  unfold consistent. intros H E. rewrite E in H. destruct H as [_ Hk].
  apply (f_equal (@length Z)) in Hk. unfold PyDict.keys in Hk.
  now rewrite !length_map, length_seq in Hk.
Qed.

Lemma consistent_is_enumerate (self : DocumentIndexer) :
  consistent self ->
  metadata self = PyList.enumerate (PyDict.values (metadata self)).
Proof.
  unfold consistent. intros H. destruct (index self) as [ix|] eqn:E.
  - apply dict_is_enumerate. destruct H as [_ Hk]. rewrite Hk.
    apply (f_equal (@length Z)) in Hk. unfold PyDict.keys in Hk.
    rewrite !length_map, length_seq in Hk. now rewrite Hk.
  - now rewrite H.
Qed.

(** The tail shared by removal and rebuild, when the dimension is the
    one of the old index. *)
Lemma install_consistent (io : save_fault) (self : DocumentIndexer)
    (ix : faiss_index vec) (vs : list vec) (md : PyDict.dict Z Meta.t) :
  dimension self = Some (d ix) ->
  install io self ix vs md
  = (match io with NoFault => true | _ => false end,
     mkIndexer (Some (mkIndex (d ix) vs)) md (dimension self)).
Proof.
  intros Hd. unfold install, IndexFlatIP, faiss_add, vstack. rewrite Hd. simpl.
  rewrite Z.eqb_refl. unfold _save_index. simpl. destruct io; reflexivity.
Qed.

(** The removal on consistent stores: the kept records, renumbered from
    0, with as many vectors. *)
Lemma remove_document_consistent (io : save_fault) (doc : Z)
    (self : DocumentIndexer) (ix : faiss_index vec) :
  consistent self -> index self = Some ix ->
  exists vs,
    length vs = length (kept_records doc self)
    /\ remove_document_from_index io doc self
       = (match io with NoFault => true | _ => false end,
          mkIndexer (Some (mkIndex (d ix) vs))
                    (PyList.enumerate (kept_records doc self))
                    (dimension self)).
Proof.
  intros Hc Hix. unfold remove_document_from_index. rewrite Hix.
  destruct (remove_loop_total ix doc (PyDict.items (metadata self)) ([], [], 0)
              (consistent_keys_in_range _ _ Hc Hix)) as ([[kv km] n] & Hloop).
  rewrite Hloop.
  assert (Hspec : km = PyList.enumerate (kept_records doc self)
                  /\ length kv = length (kept_records doc self)).
  { destruct (remove_loop_spec ix doc _ [] kv [] km n Hloop) as [H1 H2].
    split; [exact H1 | exact H2]. }
  destruct Hspec as [Hkm Hlen].
  assert (Hd : dimension self = Some (d ix)).
  { unfold consistent in Hc. rewrite Hix in Hc. tauto. }
  exists kv. split; [exact Hlen|].
  destruct kv as [|v kv].
  - destruct (kept_records doc self); [|discriminate Hlen].
    rewrite Hd. simpl. unfold _save_index. simpl. destruct io; reflexivity.
  - rewrite install_consistent by exact Hd. now rewrite Hkm.
Qed.

Lemma length_kept_records (doc : Z) (self : DocumentIndexer) :
  (length (kept_records doc self) + length (records_of doc self))%nat
  = length (metadata self).
Proof.
  unfold kept_records, records_of, PyDict.values.
  rewrite <- (length_map snd (metadata self)).
  induction (map snd (metadata self)) as [|m l IH]; simpl; [reflexivity|].
  destruct (Meta.document_id m =? doc); simpl; lia.
Qed.

(** A removal that returned [True] left the kept records, renumbered
    from 0, and as many vectors. *)
Lemma remove_document_true (io : save_fault) (doc : Z)
    (self self' : DocumentIndexer) :
  remove_document_from_index io doc self = (true, self') ->
  metadata self' = PyList.enumerate (kept_records doc self)
  /\ index_size self' = Z.of_nat (length (kept_records doc self)).
Proof.
  unfold remove_document_from_index.
  destruct (index self) as [ix|]; [|discriminate].
  destruct (remove_loop ix doc _ _) as [[[kv km] n]|e] eqn:Hloop; [|discriminate].
  assert (Hspec : km = PyList.enumerate (kept_records doc self)
                  /\ length kv = length (kept_records doc self)).
  { destruct (remove_loop_spec ix doc _ [] kv [] km n Hloop) as [H1 H2].
    split; [exact H1 | exact H2]. }
  destruct Hspec as [Hkm Hlen].
  destruct kv as [|v kv].
  - destruct (kept_records doc self); [|discriminate Hlen].
    destruct (IndexFlatIP (dimension self)) as [new|e] eqn:En; [|discriminate].
    unfold IndexFlatIP in En. destruct (dimension self); [|discriminate].
    injection En as <-.
    destruct (_save_index io _); intros [= <-]. split; reflexivity.
  - unfold install. destruct (IndexFlatIP (dimension self)) as [new|e] eqn:En;
      [|discriminate].
    unfold IndexFlatIP in En. destruct (dimension self); [|discriminate].
    injection En as <-. unfold faiss_add, vstack. simpl.
    destruct (d ix =? z); [|discriminate].
    destruct (_save_index io _); intros [= <-]. simpl.
    split; [exact Hkm|]. unfold index_size, ntotal. simpl index. cbv iota.
    simpl xb. now rewrite Hlen.
Qed.

(** C2, as amended. After [remove_document_from_index(d)] returned [True], no
    search, for any query, [top_k] and filter, returns a result of
    document [d]; and when the store had one metadata entry for each
    vector, [total_vectors] of the statistics has gone down by the
    number of records that [d] had. *)
Theorem remove_document_effect (io : save_fault) (doc : Z)
    (self self' : DocumentIndexer) :
  remove_document_from_index io doc self = (true, self') ->
  (forall q k ids hits,
      search_similar_chunks q k ids self' = Ok hits ->
      Forall (fun h => Hit.document_id h <> Some doc) hits)
  /\ (index_size self = Z.of_nat (length (metadata self)) ->
      forall size size',
        Stats.total_vectors (get_index_stats size' self')
        = Stats.total_vectors (get_index_stats size self)
          - Z.of_nat (length (records_of doc self))).
Proof.
  intros Hrm. destruct (remove_document_true io doc self self' Hrm) as [Hmd Hsz].
  split.
  - intros q k ids hits Hs. apply Forall_forall. intros h Hin.
    destruct (search_hits _ _ _ _ _ _ Hs Hin) as (score & idx & -> & _).
    rewrite Hmd.
    destruct (PyDict.get Z.eqb (PyList.enumerate (kept_records doc self)) idx)
      as [m|] eqn:Eg; cbn [make_hit Hit.document_id]; [|discriminate].
    apply get_in in Eg. apply (in_map snd) in Eg.
    pose proof (values_enumerate (kept_records doc self)) as Hv.
    unfold PyDict.values in Hv. simpl in Eg. rewrite Hv in Eg.
    unfold kept_records in Eg.
    apply filter_In in Eg. destruct Eg as [_ Eg]. simpl in Eg.
    apply negb_true_iff, Z.eqb_neq in Eg. congruence.
  - intros Hpar size size'.
    assert (Htot : forall sz st, Stats.total_vectors (get_index_stats sz st)
                                 = index_size st).
    { intros sz st. unfold get_index_stats, index_size.
      destruct (index st); reflexivity. }
    rewrite !Htot, Hsz, Hpar.
    pose proof (length_kept_records doc self). lia.
Qed.

(** C8, as amended. On consistent stores with an initialized index, and
    when the save does not fail, [remove_document_from_index(d)] rebuilds
    the stores from the records of the other documents and returns
    [True], whether or not a record of [d] exists; without an index it
    returns [False] and changes nothing. *)
Theorem remove_document_reports_success (doc : Z) (self : DocumentIndexer) :
  (consistent self -> index self <> None ->
   fst (remove_document_from_index NoFault doc self) = true
   /\ metadata (snd (remove_document_from_index NoFault doc self))
      = PyList.enumerate (kept_records doc self)
   /\ index_size (snd (remove_document_from_index NoFault doc self))
      = Z.of_nat (length (kept_records doc self)))
  /\ (index self = None ->
      forall io, remove_document_from_index io doc self = (false, self)).
Proof.
  split.
  - intros Hc Hix. destruct (index self) as [ix|] eqn:E; [|congruence].
    destruct (remove_document_consistent NoFault doc self ix Hc E)
      as (vs & Hlen & ->). simpl. repeat split.
    unfold index_size, ntotal. simpl. now rewrite Hlen.
  - intros E io. unfold remove_document_from_index. now rewrite E.
Qed.

End RemoveFacts.

Lemma remove_document_effect_witness :
  (forall q k ids hits,
      search_similar_chunks q k ids
        (snd (remove_document_from_index NoFault 1 Toy.two_docs)) = Ok hits ->
      Forall (fun h => Hit.document_id h <> Some 1) hits)
  /\ (forall size size',
        Stats.total_vectors
          (get_index_stats size'
             (snd (remove_document_from_index NoFault 1 Toy.two_docs)))
        = Stats.total_vectors (get_index_stats size Toy.two_docs)
          - Z.of_nat (length (records_of 1 Toy.two_docs))).
Proof.
  destruct (remove_document_effect NoFault 1 Toy.two_docs
              (snd (remove_document_from_index NoFault 1 Toy.two_docs))
              eq_refl) as [Hsearch Hcount].
  split; [exact Hsearch | apply Hcount; reflexivity].
Defined.

(** C2, as first stated, fails: the files hold three vectors and the
    records of two, one of document 1 and one of document 2, and
    [DocumentIndexer()] loads them as they are. Removing document 1
    returns [True] and keeps the one vector of document 2:
    [total_vectors] goes from 3 to 1, and document 1 had one record. *)
Lemma remove_count_counterexample :
  ~ remove_drops_record_count NoFault 1 Loaded.three_vectors_two_records.
Proof.
  intros H. specialize (H _ None None eq_refl).
  vm_compute in H. discriminate.
Qed.

Lemma remove_document_reports_success_witness :
  fst (remove_document_from_index NoFault 7 Toy.two_docs) = true
  /\ metadata (snd (remove_document_from_index NoFault 7 Toy.two_docs))
     = PyList.enumerate (kept_records 7 Toy.two_docs)
  /\ index_size (snd (remove_document_from_index NoFault 7 Toy.two_docs))
     = Z.of_nat (length (kept_records 7 Toy.two_docs)).
Proof.
  apply (proj1 (remove_document_reports_success 7 Toy.two_docs)).
  - vm_compute. split; reflexivity.
  - discriminate.
Defined.

(** C8, as first stated, fails: on a new indexer, which has no index,
    the removal returns [False]. *)
Lemma remove_without_index_counterexample :
  ~ remove_always_succeeds NoFault 1 new_indexer.
Proof. unfold remove_always_succeeds. simpl. discriminate. Qed.

Section GroupFacts.

Lemma add_document_key_in (doc : Z) (vals : list Meta.t) (acc : list Z) :
  In doc (fold_left add_document_key vals acc)
  <-> In doc acc \/ exists m, In m vals /\ Meta.document_id m = doc.
Proof.
  revert acc. induction vals as [|m vals IH]; intros acc; simpl.
  - split; [tauto|]. intros [H | (m & [] & _)]. exact H.
  - rewrite IH. unfold add_document_key.
    destruct (existsb (Z.eqb (Meta.document_id m)) acc) eqn:E.
    + apply existsb_exists in E. destruct E as (x & Hx & E).
      apply Z.eqb_eq in E. subst x. split.
      * intros [H | (m' & H1 & H2)]; [tauto | right; exists m'; tauto].
      * intros [H | (m' & [-> | H1] & H2)];
          [tauto | left; now subst | right; exists m'; tauto].
    + rewrite in_app_iff. simpl. split.
      * intros [[H | [H | []]] | (m' & H1 & H2)];
          [tauto | right; exists m; tauto | right; exists m'; tauto].
      * intros [H | (m' & [-> | H1] & H2)];
          [tauto | left; tauto | right; exists m'; tauto].
Qed.

Lemma documents_of_in (doc : Z) (vals : list Meta.t) :
  In doc (documents_of vals) <-> exists m, In m vals /\ Meta.document_id m = doc.
Proof.
  unfold documents_of. rewrite add_document_key_in. simpl. tauto.
Qed.

Lemma add_document_key_nodup (vals : list Meta.t) (acc : list Z) :
  NoDup acc -> NoDup (fold_left add_document_key vals acc).
Proof.
  revert acc. induction vals as [|m vals IH]; intros acc Hacc; simpl; [exact Hacc|].
  apply IH. unfold add_document_key.
  destruct (existsb (Z.eqb (Meta.document_id m)) acc) eqn:E; [exact Hacc|].
  apply NoDup_app; [exact Hacc | repeat constructor; intros [] |].
  intros x Hx [<- | []].
  assert (existsb (Z.eqb (Meta.document_id m)) acc = true).
  { apply existsb_exists. exists (Meta.document_id m). split; [exact Hx|]. apply Z.eqb_refl. }
  congruence.
Qed.

Lemma documents_of_nodup (vals : list Meta.t) : NoDup (documents_of vals).
Proof. apply add_document_key_nodup. constructor. Qed.

Lemma documents_of_snoc (vals : list Meta.t) (m : Meta.t) :
  documents_of (vals ++ [m]) = add_document_key (documents_of vals) m.
Proof. unfold documents_of. now rewrite fold_left_app. Qed.

Lemma records_in_snoc (doc : Z) (vals : list Meta.t) (m : Meta.t) :
  records_in doc (vals ++ [m])
  = records_in doc vals ++ (if Meta.document_id m =? doc then [m] else []).
Proof. unfold records_in. rewrite filter_app. reflexivity. Qed.

Lemma records_in_nil (doc : Z) (vals : list Meta.t) :
  ~ In doc (documents_of vals) -> records_in doc vals = [].
Proof.
  intros H. unfold records_in.
  destruct (filter _ vals) as [|m l] eqn:E; [reflexivity|].
  exfalso. apply H. apply documents_of_in. exists m.
  assert (Hin : In m (filter (fun m0 => Meta.document_id m0 =? doc) vals))
    by (rewrite E; now left).
  apply filter_In in Hin. destruct Hin as [H1 H2]. apply Z.eqb_eq in H2. tauto.
Qed.

Section KeyedDict.
Context {V : Type}.
Variable f : Z -> V.

Lemma get_keyed (ds : list Z) (k : Z) :
  PyDict.get Z.eqb (map (fun doc => (doc, f doc)) ds) k
  = if existsb (Z.eqb k) ds then Some (f k) else None.
Proof.
  induction ds as [|x ds IH]; simpl; [reflexivity|].
  rewrite (Z.eqb_sym k x). destruct (x =? k) eqn:E; simpl; [|exact IH].
  apply Z.eqb_eq in E. now subst.
Qed.

Lemma set_keyed_new (ds : list Z) (k : Z) (v : V) :
  ~ In k ds ->
  PyDict.set Z.eqb (map (fun doc => (doc, f doc)) ds) k v
  = map (fun doc => (doc, f doc)) ds ++ [(k, v)].
Proof.
  intros H. apply set_fresh. unfold PyDict.keys. rewrite map_map. simpl.
  now rewrite map_id.
Qed.

Lemma set_keyed_old (ds : list Z) (k : Z) (v : V) :
  NoDup ds -> In k ds ->
  PyDict.set Z.eqb (map (fun doc => (doc, f doc)) ds) k v
  = map (fun doc => (doc, if doc =? k then v else f doc)) ds.
Proof.
  induction ds as [|x ds IH]; simpl; [tauto|].
  intros Hnd Hin. inversion Hnd as [|? ? Hx Hds]; subst.
  destruct (x =? k) eqn:E.
  - apply Z.eqb_eq in E. subst x. f_equal.
    apply map_ext_in. intros y Hy.
    destruct (y =? k) eqn:Ey; [|reflexivity].
    apply Z.eqb_eq in Ey. subst y. tauto.
  - f_equal. apply IH; [exact Hds|].
    destruct Hin as [-> | Hin]; [|exact Hin].
    rewrite Z.eqb_refl in E. discriminate.
Qed.

End KeyedDict.

(** The dict [documents_data] of [rebuild_index]: the documents in the
    order of first appearance, each with its records in storage order. *)
Lemma group_by_document_spec (md : PyDict.dict Z Meta.t) :
  group_by_document md
  = map (fun doc => (doc, records_in doc (PyDict.values md)))
        (documents_of (PyDict.values md)).
Proof.
  unfold group_by_document, PyDict.items, PyDict.values.
  induction md as [|[vid m] md IH] using rev_ind; [reflexivity|].
  rewrite fold_left_app. simpl fold_left.
  replace (map snd (md ++ [(vid, m)])) with (map snd md ++ [m])
    by (now rewrite map_app).
  rewrite IH, documents_of_snoc. unfold group_add at 1. simpl snd.
  rewrite get_keyed. unfold add_document_key.
  destruct (existsb (Z.eqb (Meta.document_id m)) (documents_of (map snd md))) eqn:E.
  - rewrite set_keyed_old.
    + apply map_ext. intros doc. f_equal. rewrite records_in_snoc.
      rewrite (Z.eqb_sym doc). destruct (Meta.document_id m =? doc) eqn:Ed.
      * apply Z.eqb_eq in Ed. now subst.
      * now rewrite app_nil_r.
    + apply documents_of_nodup.
    + apply existsb_exists in E. destruct E as (x & Hx & E).
      apply Z.eqb_eq in E. now subst.
  - assert (Hnot : ~ In (Meta.document_id m) (documents_of (map snd md))).
    { intros Hin. assert (existsb (Z.eqb (Meta.document_id m))
                             (documents_of (map snd md)) = true).
      { apply existsb_exists. eexists. split; [exact Hin | apply Z.eqb_refl]. }
      congruence. }
    rewrite set_keyed_new by exact Hnot. rewrite map_app. simpl. f_equal.
    + apply map_ext_in. intros doc Hdoc. f_equal. rewrite records_in_snoc.
      destruct (Meta.document_id m =? doc) eqn:Ed; [|now rewrite app_nil_r].
      apply Z.eqb_eq in Ed. subst doc. tauto.
    + rewrite records_in_snoc, Z.eqb_refl, (records_in_nil _ _ Hnot). reflexivity.
Qed.

End GroupFacts.

Section RegroupFacts.

Lemma records_in_all (doc : Z) (l : list Meta.t) :
  Forall (fun m => Meta.document_id m = doc) l -> records_in doc l = l.
Proof.
  induction 1 as [|m l Hm _ IH]; simpl; [reflexivity|].
  apply Z.eqb_eq in Hm. rewrite Hm. now f_equal.
Qed.

Lemma records_in_none (doc doc' : Z) (l : list Meta.t) :
  Forall (fun m => Meta.document_id m = doc') l -> doc' <> doc ->
  records_in doc l = [].
Proof.
  induction 1 as [|m l Hm _ IH]; simpl; [reflexivity|]. intros Hne.
  subst doc'. apply Z.eqb_neq in Hne. rewrite Hne. apply IH.
  now apply Z.eqb_neq.
Qed.

Lemma records_in_uniform (doc : Z) (vals : list Meta.t) :
  Forall (fun m => Meta.document_id m = doc) (records_in doc vals).
Proof.
  apply Forall_forall. intros m Hm. apply filter_In in Hm.
  now apply Z.eqb_eq.
Qed.

Lemma sorted_records_uniform (doc : Z) (vals : list Meta.t) :
  Forall (fun m => Meta.document_id m = doc)
         (sort_by_chunk_index (records_in doc vals)).
Proof. apply Forall_sort, records_in_uniform. Qed.

Lemma sorted_records_not_nil (doc : Z) (vals : list Meta.t) :
  In doc (documents_of vals) ->
  sort_by_chunk_index (records_in doc vals) <> [].
Proof.
  intros H Hnil. apply documents_of_in in H. destruct H as (m & Hm & Hd).
  assert (Hin : In m (records_in doc vals)).
  { apply filter_In. split; [exact Hm | now apply Z.eqb_eq]. }
  apply (f_equal (@length Meta.t)) in Hnil.
  unfold sort_by_chunk_index in Hnil. rewrite length_sort in Hnil.
  destruct (records_in doc vals); [destruct Hin | discriminate].
Qed.

(** The records of one document in a list of blocks, one block for each
    document. *)
Lemma records_in_blocks (f : Z -> list Meta.t) (ds : list Z) (doc : Z) :
  NoDup ds ->
  (forall x, Forall (fun m => Meta.document_id m = x) (f x)) ->
  records_in doc (concat (map f ds))
  = if existsb (Z.eqb doc) ds then f doc else [].
Proof.
  intros Hnd Hf. induction Hnd as [|x ds Hx Hnd IH]; simpl; [reflexivity|].
  replace (records_in doc (f x ++ concat (map f ds)))
    with (records_in doc (f x) ++ records_in doc (concat (map f ds)))
    by (unfold records_in; now rewrite filter_app).
  rewrite IH.
  destruct (doc =? x) eqn:E; simpl.
  - apply Z.eqb_eq in E. subst x.
    rewrite (records_in_all doc (f doc) (Hf doc)).
    destruct (existsb (Z.eqb doc) ds) eqn:Ex; [|apply app_nil_r].
    apply existsb_exists in Ex. destruct Ex as (y & Hy & Ey).
    apply Z.eqb_eq in Ey. subst y. tauto.
  - apply Z.eqb_neq in E.
    now rewrite (records_in_none doc x (f x) (Hf x)) by congruence.
Qed.

Lemma records_in_regroup (doc : Z) (vals : list Meta.t) :
  records_in doc (regroup vals) = sort_by_chunk_index (records_in doc vals).
Proof.
  unfold regroup.
  rewrite (records_in_blocks
             (fun x => sort_by_chunk_index (records_in x vals))
             (documents_of vals) doc (documents_of_nodup vals)
             (fun x => sorted_records_uniform x vals)).
  destruct (existsb (Z.eqb doc) (documents_of vals)) eqn:E; [reflexivity|].
  rewrite records_in_nil; [reflexivity|]. intros Hin.
  assert (existsb (Z.eqb doc) (documents_of vals) = true).
  { apply existsb_exists. exists doc. split; [exact Hin | apply Z.eqb_refl]. }
  congruence.
Qed.

Lemma add_key_block_in (d : Z) (l : list Meta.t) (acc : list Z) :
  Forall (fun m => Meta.document_id m = d) l -> In d acc ->
  fold_left add_document_key l acc = acc.
Proof.
  induction 1 as [|m l Hm _ IH]; simpl; [reflexivity|]. intros Hin.
  unfold add_document_key at 2. rewrite Hm.
  assert (E : existsb (Z.eqb d) acc = true).
  { apply existsb_exists. exists d. split; [exact Hin | apply Z.eqb_refl]. }
  rewrite E. now apply IH.
Qed.

Lemma add_key_block (d : Z) (l : list Meta.t) (acc : list Z) :
  l <> [] -> Forall (fun m => Meta.document_id m = d) l -> ~ In d acc ->
  fold_left add_document_key l acc = acc ++ [d].
Proof.
  intros Hne Hl Hd. destruct Hl as [|m l Hm Hl]; [congruence|]. simpl.
  unfold add_document_key at 2. rewrite Hm.
  destruct (existsb (Z.eqb d) acc) eqn:E.
  - apply existsb_exists in E. destruct E as (y & Hy & Ey).
    apply Z.eqb_eq in Ey. subst y. tauto.
  - apply (add_key_block_in d); [exact Hl|]. apply in_or_app. right. now left.
Qed.

Lemma documents_of_blocks (f : Z -> list Meta.t) (ds acc : list Z) :
  NoDup (acc ++ ds) ->
  (forall x, In x ds ->
             f x <> [] /\ Forall (fun m => Meta.document_id m = x) (f x)) ->
  fold_left add_document_key (concat (map f ds)) acc = acc ++ ds.
Proof.
  revert acc. induction ds as [|x ds IH]; intros acc Hnd Hf; simpl.
  - now rewrite app_nil_r.
  - rewrite fold_left_app.
    destruct (Hf x (or_introl eq_refl)) as [H1 H2].
    rewrite (add_key_block x (f x) acc H1 H2).
    + rewrite IH.
      * now rewrite <- app_assoc.
      * now rewrite <- app_assoc.
      * intros y Hy. apply Hf. now right.
    + apply NoDup_remove_2 in Hnd. intros Hin. apply Hnd.
      apply in_or_app. now left.
Qed.

Lemma documents_of_regroup (vals : list Meta.t) :
  documents_of (regroup vals) = documents_of vals.
Proof.
  unfold regroup, documents_of at 1.
  rewrite (documents_of_blocks
             (fun x => sort_by_chunk_index (records_in x vals))
             (documents_of vals) []).
  - reflexivity.
  - apply documents_of_nodup.
  - intros x Hx. split.
    + now apply sorted_records_not_nil.
    + apply sorted_records_uniform.
Qed.

(** Regrouping what is regrouped changes nothing. *)
Lemma regroup_idem (vals : list Meta.t) :
  regroup (regroup vals) = regroup vals.
Proof.
  unfold regroup at 1. rewrite documents_of_regroup. unfold regroup at 2.
  f_equal. apply map_ext. intros doc.
  rewrite records_in_regroup. unfold sort_by_chunk_index.
  apply (sort_idem Meta.chunk_index).
Qed.

Lemma in_regroup (m : Meta.t) (vals : list Meta.t) :
  In m (regroup vals) -> In m vals.
Proof.
  unfold regroup. intros H. apply in_concat in H.
  destruct H as (l & Hl & Hm). apply in_map_iff in Hl.
  destruct Hl as (doc & <- & _). unfold sort_by_chunk_index in Hm.
  apply in_sort in Hm. apply filter_In in Hm. tauto.
Qed.

Lemma filter_or_length {A : Type} (p q : A -> bool) (l : list A) :
  (forall x, In x l -> p x && q x = false) ->
  length (filter (fun x => p x || q x) l)
  = (length (filter p l) + length (filter q l))%nat.
Proof.
  induction l as [|x l IH]; simpl; [reflexivity|]. intros H.
  pose proof (H x (or_introl eq_refl)) as Hx.
  assert (IH' := IH (fun y Hy => H y (or_intror Hy))).
  destruct (p x), (q x); simpl in *; try discriminate; lia.
Qed.

Lemma length_blocks (vals : list Meta.t) (ds : list Z) :
  NoDup ds ->
  length (concat (map (fun doc => sort_by_chunk_index (records_in doc vals)) ds))
  = length (filter (fun m => existsb (Z.eqb (Meta.document_id m)) ds) vals).
Proof.
  induction 1 as [|x ds Hx Hnd IH]; simpl.
  - induction vals; simpl; auto.
  - rewrite length_app, IH. unfold sort_by_chunk_index. rewrite length_sort.
    rewrite (filter_or_length (fun m => Meta.document_id m =? x)).
    + reflexivity.
    + intros m _. destruct (Meta.document_id m =? x) eqn:E; [|reflexivity].
      apply Z.eqb_eq in E. simpl.
      destruct (existsb _ ds) eqn:Ex; [|reflexivity].
      apply existsb_exists in Ex. destruct Ex as (y & Hy & Ey).
      apply Z.eqb_eq in Ey. subst. tauto.
Qed.

(** A rebuild keeps every record. *)
Lemma length_regroup (vals : list Meta.t) :
  length (regroup vals) = length vals.
Proof.
  unfold regroup. rewrite length_blocks by apply documents_of_nodup.
  f_equal. apply forallb_filter_id. apply forallb_forall. intros m Hm.
  apply existsb_exists. exists (Meta.document_id m). split; [|apply Z.eqb_refl].
  apply documents_of_in. now exists m.
Qed.

End RegroupFacts.

Section RebuildFacts.
Context {B : Backend}.

Lemma Meta_eqb_refl (m : Meta.t) : Meta.eqb m m = true.
Proof.
  unfold Meta.eqb. now rewrite !Z.eqb_refl, !String.eqb_refl.
Qed.

(** The scan for the old id of a record of the store finds one. *)
Lemma find_vector_id_in (md : PyDict.dict Z Meta.t) (c : Meta.t) :
  In c (PyDict.values md) ->
  exists vid, find_vector_id md c = Some vid /\ In vid (PyDict.keys md).
Proof.
  intros Hc. unfold find_vector_id, PyDict.items.
  destruct (find (fun it => Meta.eqb (snd it) c) md) as [[vid m]|] eqn:E.
  - exists vid. split; [reflexivity|]. apply find_some in E.
    destruct E as [E _]. apply (in_map fst) in E. exact E.
  - exfalso. unfold PyDict.values in Hc. apply in_map_iff in Hc.
    destruct Hc as (it & <- & Hit). pose proof (find_none _ _ E it Hit) as Hn.
    simpl in Hn. now rewrite Meta_eqb_refl in Hn.
Qed.

Lemma reconstruct_empty (ix : faiss_index vec) (key : Z) :
  xb ix = [] -> reconstruct ix key = Raise FaissError.
Proof.
  intros H. unfold reconstruct, PyList.item. rewrite H.
  destruct (key <? 0); [reflexivity|]. now destruct (Z.to_nat key).
Qed.

(** What the inner loop of a rebuild has built when it ends. *)
Lemma rebuild_chunks_spec (ix : faiss_index vec) (md : PyDict.dict Z Meta.t)
    (cs : list Meta.t) (vs vs' : list vec) (R : list Meta.t)
    (md' : PyDict.dict Z Meta.t) (n' : Z) :
  Forall (fun c => In c (PyDict.values md)) cs ->
  rebuild_chunks ix md cs (vs, PyList.enumerate R, Z.of_nat (length R))
  = Ok (vs', md', n') ->
  md' = PyList.enumerate (R ++ cs)
  /\ n' = Z.of_nat (length (R ++ cs))
  /\ length vs' = (length vs + length cs)%nat
  /\ (xb ix = [] -> cs = []).
Proof.
  intros Hcs. revert vs R. induction Hcs as [|c cs Hc _ IH]; intros vs R; simpl.
  - intros [= <- <- <-]. rewrite app_nil_r, Nat.add_0_r. auto.
  - destruct (find_vector_id_in md c Hc) as (vid & -> & _).
    destruct (reconstruct ix vid) as [v|e] eqn:Er; [|discriminate]. simpl.
    rewrite set_enumerate.
    replace (Z.of_nat (length R) + 1) with (Z.of_nat (length (R ++ [c])))
      by (rewrite length_app; simpl; lia).
    intros H. destruct (IH _ _ H) as (H1 & H2 & H3 & H4).
    rewrite <- app_assoc in H1, H2. simpl in H1, H2.
    repeat split; [exact H1 | exact H2 | |].
    + rewrite H3, length_app. simpl. lia.
    + intros Hx. rewrite (reconstruct_empty ix vid Hx) in Er. discriminate.
Qed.

Lemma rebuild_chunks_total (ix : faiss_index vec) (md : PyDict.dict Z Meta.t)
    (cs : list Meta.t) (acc : list vec * PyDict.dict Z Meta.t * Z) :
  Forall (fun k => 0 <= k < ntotal ix) (PyDict.keys md) ->
  Forall (fun c => In c (PyDict.values md)) cs ->
  exists r, rebuild_chunks ix md cs acc = Ok r.
Proof.
  intros Hk Hcs. revert acc. induction Hcs as [|c cs Hc _ IH]; intros acc; simpl.
  - now exists acc.
  - destruct (find_vector_id_in md c Hc) as (vid & -> & Hvid).
    destruct acc as [[vs m] n].
    rewrite Forall_forall in Hk.
    destruct (reconstruct_in_range ix vid (Hk vid Hvid)) as (v & ->). simpl.
    apply IH.
Qed.

(** What the loop over the documents has built when it ends. *)
Lemma rebuild_documents_spec (ix : faiss_index vec) (md : PyDict.dict Z Meta.t)
    (groups : list (Z * list Meta.t)) (vs vs' : list vec) (R : list Meta.t)
    (md' : PyDict.dict Z Meta.t) (n' : Z) :
  Forall (fun g => Forall (fun c => In c (PyDict.values md)) (snd g)) groups ->
  rebuild_documents ix md groups (vs, PyList.enumerate R, Z.of_nat (length R))
  = Ok (vs', md', n') ->
  let all := concat (map (fun g => sort_by_chunk_index (snd g)) groups) in
  md' = PyList.enumerate (R ++ all)
  /\ length vs' = (length vs + length all)%nat
  /\ (xb ix = [] -> all = []).
Proof.
  intros Hg. revert vs R. induction Hg as [|[doc cs] groups Hcs _ IH];
    intros vs R; simpl.
  - intros [= <- <- _]. rewrite app_nil_r, Nat.add_0_r. auto.
  - destruct (rebuild_chunks ix md (sort_by_chunk_index cs) _)
      as [[[vs1 md1] n1]|e] eqn:Ec; [|discriminate]. simpl.
    assert (Hs : Forall (fun c => In c (PyDict.values md)) (sort_by_chunk_index cs))
      by (apply Forall_sort; exact Hcs).
    destruct (rebuild_chunks_spec _ _ _ _ _ _ _ _ Hs Ec) as (-> & -> & H3 & H4).
    intros H. destruct (IH _ _ H) as (H1 & H2 & H5).
    rewrite <- app_assoc in H1. repeat split; [exact H1 | |].
    + rewrite H2, H3, length_app. lia.
    + intros Hx. now rewrite (H4 Hx), (H5 Hx).
Qed.

Lemma rebuild_documents_total (ix : faiss_index vec) (md : PyDict.dict Z Meta.t)
    (groups : list (Z * list Meta.t))
    (acc : list vec * PyDict.dict Z Meta.t * Z) :
  Forall (fun k => 0 <= k < ntotal ix) (PyDict.keys md) ->
  Forall (fun g => Forall (fun c => In c (PyDict.values md)) (snd g)) groups ->
  exists r, rebuild_documents ix md groups acc = Ok r.
Proof.
  intros Hk Hg. revert acc. induction Hg as [|[doc cs] groups Hcs _ IH];
    intros acc; simpl.
  - now exists acc.
  - destruct (rebuild_chunks_total ix md (sort_by_chunk_index cs) acc Hk)
      as (r & ->); [apply Forall_sort; exact Hcs|]. simpl. apply IH.
Qed.

Lemma groups_in_store (md : PyDict.dict Z Meta.t) :
  Forall (fun g => Forall (fun c => In c (PyDict.values md)) (snd g))
         (PyDict.items (group_by_document md)).
Proof.
  rewrite group_by_document_spec. unfold PyDict.items.
  apply Forall_forall. intros g Hg. apply in_map_iff in Hg.
  destruct Hg as (doc & <- & _). simpl.
  apply Forall_forall. intros c Hc. apply filter_In in Hc. tauto.
Qed.

Lemma groups_regroup (md : PyDict.dict Z Meta.t) :
  concat (map (fun g => sort_by_chunk_index (snd g))
              (PyDict.items (group_by_document md)))
  = regroup (PyDict.values md).
Proof.
  rewrite group_by_document_spec. unfold PyDict.items, regroup.
  now rewrite map_map.
Qed.

(** The three ways a rebuild can leave the stores: as they were; rebuilt,
    with the records regrouped and as many vectors; or, when the recorded
    dimension is not the one of the index, with an empty index of the
    recorded dimension over the old metadata. None depends on the save. *)
Lemma rebuild_index_cases (self : DocumentIndexer) :
  (forall io, snd (rebuild_index io self) = self)
  \/ (exists ix vs,
        index self = Some ix
        /\ length vs = length (regroup (PyDict.values (metadata self)))
        /\ forall io,
             rebuild_index io self
             = (match io with NoFault => true | _ => false end,
                mkIndexer (Some (mkIndex (d ix) vs))
                  (PyList.enumerate (regroup (PyDict.values (metadata self))))
                  (Some (d ix))))
  \/ (exists ix n,
        index self = Some ix /\ dimension self = Some n /\ d ix <> n
        /\ forall io,
             snd (rebuild_index io self)
             = mkIndexer (Some (mkIndex n [])) (metadata self) (Some n)).
Proof.
  unfold rebuild_index.
  destruct (metadata self) as [|it md0] eqn:Emd; [now left|].
  rewrite <- Emd.
  destruct (index self) as [ix|] eqn:Eix; [|now left].
  destruct (rebuild_documents ix (metadata self) _ _)
    as [[[vs md'] n']|e] eqn:Ed; [|now left].
  destruct (rebuild_documents_spec ix (metadata self) _ [] vs [] md' n'
              (groups_in_store (metadata self)) Ed) as (Hmd & Hlen & _).
  rewrite groups_regroup in Hmd, Hlen. simpl in Hmd, Hlen.
  destruct vs as [|v vs]; [now left|].
  unfold install, IndexFlatIP.
  destruct (dimension self) as [n|] eqn:Edim; [|now left].
  unfold faiss_add, vstack. simpl.
  destruct (d ix =? n) eqn:En.
  - apply Z.eqb_eq in En. subst n. right. left.
    exists ix, (v :: vs). split; [reflexivity|]. split; [exact Hlen|].
    intros io. rewrite Hmd. unfold _save_index. simpl. destruct io; reflexivity.
  - right. right. exists ix, n. apply Z.eqb_neq in En.
    split; [reflexivity|]. split; [reflexivity|]. split; [exact En|].
    intros io. reflexivity.
Qed.

(** Nothing is rebuilt from an empty index. *)
Lemma rebuild_empty_index (self : DocumentIndexer) (ix : faiss_index vec) :
  index self = Some ix -> xb ix = [] ->
  forall io, snd (rebuild_index io self) = self.
Proof.
  intros Eix Hx io. unfold rebuild_index.
  destruct (metadata self) as [|it md0] eqn:Emd; [reflexivity|].
  rewrite <- Emd. rewrite Eix.
  destruct (rebuild_documents ix (metadata self) _ _)
    as [[[vs md'] n']|e] eqn:Ed; [|reflexivity].
  destruct (rebuild_documents_spec ix (metadata self) _ [] vs [] md' n'
              (groups_in_store (metadata self)) Ed) as (_ & Hlen & Hall).
  rewrite (Hall Hx) in Hlen. simpl in Hlen.
  destruct vs; [reflexivity | discriminate].
Qed.

End RebuildFacts.

Section RebuildTwice.
Context {B : Backend}.

(** A rebuild of stores just rebuilt gives the same metadata and as
    many vectors. *)
Lemma rebuild_of_rebuilt (io : save_fault) (dd : Z) (vs : list vec)
    (vals : list Meta.t) :
  length vs = length (regroup vals) ->
  let self1 := mkIndexer (Some (mkIndex dd vs))
                 (PyList.enumerate (regroup vals)) (Some dd) in
  exists vs2,
    length vs2 = length vs
    /\ snd (rebuild_index io self1)
       = mkIndexer (Some (mkIndex dd vs2)) (metadata self1) (Some dd).
Proof.
  intros Hlen self1.
  destruct (rebuild_index_cases self1)
    as [HA | [(ix1 & vs2 & Hix1 & Hlen2 & HB)
             | (ix1 & n & Hix1 & Hdim & Hne & HC)]].
  - exists vs. split; [reflexivity|]. now rewrite (HA io).
  - exists vs2. simpl in Hix1. injection Hix1 as <-.
    rewrite (HB io). simpl in *.
    rewrite values_enumerate in *. rewrite regroup_idem in *.
    split; [congruence | reflexivity].
  - simpl in Hix1, Hdim. injection Hix1 as <-. injection Hdim as <-.
    simpl in Hne. congruence.
Qed.

(** After a rebuild, a second one leaves the stores as they are, or
    with other vectors, as many, under the same metadata. *)
Lemma rebuild_second_run (io1 io2 : save_fault) (self : DocumentIndexer) :
  let self1 := snd (rebuild_index io1 self) in
  let self2 := snd (rebuild_index io2 self1) in
  self2 = self1
  \/ exists dd vs vs2,
       length vs2 = length vs
       /\ self1 = mkIndexer (Some (mkIndex dd vs)) (metadata self1) (Some dd)
       /\ self2 = mkIndexer (Some (mkIndex dd vs2)) (metadata self1) (Some dd).
Proof.
  intros self1 self2. subst self2 self1.
  destruct (rebuild_index_cases self)
    as [HA | [(ix & vs & Hix & Hlen & HB) | (ix & n & Hix & Hdim & Hne & HC)]].
  - left. rewrite (HA io1). apply HA.
  - right. rewrite (HB io1). simpl snd.
    destruct (rebuild_of_rebuilt io2 (d ix) vs _ Hlen) as (vs2 & Hl2 & E).
    exists (d ix), vs, vs2. split; [exact Hl2|]. split; [reflexivity | exact E].
  - left. rewrite (HC io1).
    apply (rebuild_empty_index _ (mkIndex n [])); reflexivity.
Qed.

End RebuildTwice.

Section RebuildTheorems.
Context {B : Backend}.

(** C6. For every state and whatever the saves do, a second
    [rebuild_index] right after a first leaves the same [total_vectors]
    and, for each document, the same records in the same order; and on a
    store without metadata [rebuild_index] changes nothing and returns
    [True]. *)
Theorem rebuild_index_twice (io1 io2 : save_fault) (self : DocumentIndexer) :
  let self1 := snd (rebuild_index io1 self) in
  let self2 := snd (rebuild_index io2 self1) in
  (forall size,
      Stats.total_vectors (get_index_stats size self2)
      = Stats.total_vectors (get_index_stats size self1))
  /\ (forall doc, records_of doc self2 = records_of doc self1)
  /\ (metadata self = [] -> rebuild_index io1 self = (true, self)).
Proof.
  intros self1 self2.
  pose proof (rebuild_second_run io1 io2 self) as Hsame.
  cbv zeta in Hsame. subst self2 self1.
  split; [|split].
  - intros size. destruct Hsame as [E | (dd & vs & vs2 & Hl & E1 & E2)];
      [now rewrite E|].
    rewrite E2. rewrite E1 at 2.
    unfold get_index_stats, ntotal. simpl. now rewrite Hl.
  - intros doc. destruct Hsame as [E | (dd & vs & vs2 & Hl & E1 & E2)];
      [now rewrite E|].
    rewrite E2. reflexivity.
  - intros H. unfold rebuild_index. now rewrite H.
Qed.

End RebuildTheorems.

Section InvariantFacts.
Context {B : Backend}.

Lemma put_chunks_metadata (doc : Z) (title : string) (N : nat)
    (text_chunks : list string) (j : nat) (ids : list Z)
    (md : PyDict.dict Z Meta.t) :
  PyDict.keys md = map Z.of_nat (seq 0 (N + j)) ->
  snd (fold_left (put_chunk doc title (Z.of_nat N))
         (combine (map Z.of_nat (seq j (length text_chunks))) text_chunks)
         (ids, md))
  = md ++ map (fun ic => (Z.of_nat N + fst ic,
                          Meta.mk doc (fst ic) (snd ic) title
                                  (PyStr.len (snd ic))))
              (combine (map Z.of_nat (seq j (length text_chunks))) text_chunks).
Proof.
  revert j ids md. induction text_chunks as [|c cs IH]; intros j ids md Hk; simpl.
  - now rewrite app_nil_r.
  - rewrite set_fresh.
    + rewrite IH.
      * now rewrite <- app_assoc.
      * unfold PyDict.keys in *. rewrite map_app, Hk. simpl.
        replace (N + S j)%nat with (S (N + j)) by lia.
        rewrite seq_S, map_app. simpl. do 3 f_equal. lia.
    + rewrite Hk, keys_in_range. lia.
Qed.

Lemma map_seq_from (a n : nat) :
  map (fun i => Z.of_nat a + Z.of_nat i) (seq 0 n) = map Z.of_nat (seq a n).
Proof.
  revert a. induction n as [|n IH]; intros a; simpl; [reflexivity|].
  f_equal; [lia|]. rewrite <- seq_shift, map_map, <- IH.
  apply map_ext. intros i. lia.
Qed.

Lemma index_or_new_size (self : DocumentIndexer) (emb : ndarray vec) :
  consistent self ->
  ntotal (fst (index_or_new self emb)) = Z.of_nat (length (metadata self))
  /\ length (xb (fst (index_or_new self emb))) = length (metadata self)
  /\ snd (index_or_new self emb) = Some (d (fst (index_or_new self emb))).
Proof.
  unfold consistent, index_or_new, ntotal. intros H.
  destruct (index self) as [ix|] eqn:E; simpl.
  - destruct H as [Hd Hk]. apply (f_equal (@length Z)) in Hk.
    unfold PyDict.keys in Hk. rewrite !length_map, length_seq in Hk.
    rewrite Hk. auto.
  - rewrite H. auto.
Qed.

Lemma consistent_keys (self : DocumentIndexer) :
  consistent self ->
  PyDict.keys (metadata self) = map Z.of_nat (seq 0 (length (metadata self))).
Proof.
  intros H. rewrite (consistent_is_enumerate self H) at 1.
  rewrite keys_enumerate. unfold PyDict.values. now rewrite length_map.
Qed.

(** An addition that reaches the save, on consistent stores: the new
    records go after the old ones, and the stores stay consistent. *)
Lemma add_document_consistent (io : save_fault) (doc : Z)
    (text title : string) (self : DocumentIndexer)
    (emb : ndarray vec) (ix' : faiss_index vec) :
  consistent self ->
  chunk_text text None None <> [] ->
  _create_embeddings (chunk_text text None None) = Ok emb ->
  faiss_add (fst (index_or_new self emb)) emb = Ok ix' ->
  length (rows emb) = length (chunk_text text None None) ->
  let self' := snd (add_document_to_index io doc text title self) in
  consistent self'
  /\ PyDict.values (metadata self')
     = PyDict.values (metadata self)
       ++ new_records doc title (chunk_text text None None).
Proof.
  intros Hc Hne Hemb Hadd Hrows self'. subst self'.
  rewrite (add_document_reaches_save io doc text title self emb ix' Hne Hemb Hadd).
  simpl snd.
  destruct (index_or_new_size self emb Hc) as (Hn & Hx & Hd).
  rewrite Hn.
  pose proof (put_chunks_metadata doc title (length (metadata self))
                (chunk_text text None None) 0 [] (metadata self)) as Hmd.
  rewrite Nat.add_0_r in Hmd. specialize (Hmd (consistent_keys self Hc)).
  fold (PyList.enumerate (chunk_text text None None)) in Hmd.
  unfold consistent. simpl. rewrite Hmd. split; [split|].
  - rewrite Hd. unfold faiss_add in Hadd.
    destruct (_ =? _) in Hadd; [|discriminate]. now injection Hadd as <-.
  - unfold faiss_add in Hadd.
    destruct (_ =? _) in Hadd; [|discriminate]. injection Hadd as <-. simpl.
    rewrite length_app, Hx, Hrows, seq_app, map_app.
    unfold PyDict.keys. rewrite map_app. f_equal.
    + apply (consistent_keys self Hc).
    + rewrite map_map. simpl.
      rewrite (map_fst_enumerate (fun i => Z.of_nat (length (metadata self)) + i)).
      apply map_seq_from.
  - unfold PyDict.values, new_records. rewrite map_app, map_map. reflexivity.
Qed.

End InvariantFacts.

Section InvariantSteps.
Context {B : Backend}.

(** An addition leaves the state as it found it, or reaches the save. *)
Lemma add_document_cases (io : save_fault) (doc : Z) (text title : string)
    (self : DocumentIndexer) :
  snd (add_document_to_index io doc text title self) = self
  \/ (chunk_text text None None <> [] /\
      exists emb ix',
        _create_embeddings (chunk_text text None None) = Ok emb
        /\ faiss_add (fst (index_or_new self emb)) emb = Ok ix').
Proof.
  destruct (chunk_text text None None) as [|c cs] eqn:Ec.
  { left. unfold add_document_to_index. now rewrite Ec. }
  destruct (_create_embeddings (c :: cs)) as [emb|e] eqn:Ee.
  2:{ left. unfold add_document_to_index. now rewrite Ec, Ee. }
  destruct (faiss_add (fst (index_or_new self emb)) emb) as [ix'|e] eqn:Ea.
  { right. split; [discriminate|]. now exists emb, ix'. }
  left. unfold add_document_to_index. rewrite Ec, Ee.
  unfold index_or_new in *. destruct self as [[ix|] md dim]; simpl in *.
  - now rewrite Ea.
  - unfold faiss_add in Ea. simpl in Ea. rewrite Z.eqb_refl in Ea. discriminate.
Qed.

Lemma chunk_index_new_records (doc : Z) (title : string) (cs : list string) :
  map Meta.chunk_index (new_records doc title cs)
  = map Z.of_nat (seq 0 (length cs)).
Proof.
  unfold new_records. rewrite map_map. simpl.
  apply (map_fst_enumerate (fun i => i)).
Qed.

Lemma new_records_uniform (doc : Z) (title : string) (cs : list string) :
  Forall (fun m => Meta.document_id m = doc) (new_records doc title cs).
Proof.
  unfold new_records. apply Forall_forall. intros m Hm.
  apply in_map_iff in Hm. now destruct Hm as (ic & <- & _).
Qed.

Lemma length_new_records (doc : Z) (title : string) (cs : list string) :
  length (new_records doc title cs) = length cs.
Proof.
  unfold new_records. now rewrite length_map, length_enumerate.
Qed.

Lemma chunk_order_after_add (doc : Z) (title : string) (cs : list string)
    (self self' : DocumentIndexer) :
  chunk_order self -> records_of doc self = [] ->
  PyDict.values (metadata self')
  = PyDict.values (metadata self) ++ new_records doc title cs ->
  chunk_order self'.
Proof.
  intros Ho Hnone Hv doc'.
  assert (E : records_of doc' self'
              = records_of doc' self ++ records_in doc' (new_records doc title cs)).
  { unfold records_of, records_in. now rewrite Hv, filter_app. }
  rewrite E. destruct (Z.eq_dec doc doc') as [<- | Hne].
  - rewrite Hnone, (records_in_all doc _ (new_records_uniform doc title cs)).
    simpl. now rewrite chunk_index_new_records, length_new_records.
  - rewrite (records_in_none doc' doc _ (new_records_uniform doc title cs) Hne).
    rewrite app_nil_r. apply Ho.
Qed.

Lemma records_of_enumerate (doc : Z) (ix : option (faiss_index vec))
    (vals : list Meta.t) (dim : option Z) :
  records_of doc (mkIndexer ix (PyList.enumerate vals) dim)
  = records_in doc vals.
Proof. unfold records_of. simpl. now rewrite values_enumerate. Qed.

Lemma records_in_kept (doc doc' : Z) (self : DocumentIndexer) :
  records_in doc' (kept_records doc self)
  = if doc' =? doc then [] else records_of doc' self.
Proof.
  unfold records_in, kept_records, records_of.
  induction (PyDict.values (metadata self)) as [|m l IH]; simpl.
  - now destruct (doc' =? doc).
  - destruct (Meta.document_id m =? doc) eqn:E1; simpl.
    + rewrite IH. destruct (doc' =? doc) eqn:E2; [reflexivity|].
      apply Z.eqb_eq in E1. rewrite E1, (Z.eqb_sym doc doc'), E2. reflexivity.
    + rewrite IH. destruct (Meta.document_id m =? doc') eqn:E3;
        destruct (doc' =? doc) eqn:E2; try reflexivity.
      apply Z.eqb_eq in E3, E2. subst. rewrite Z.eqb_refl in E1. discriminate.
Qed.

Lemma consistent_enumerate (dd : Z) (vs : list vec) (vals : list Meta.t)
    (dim : option Z) :
  length vs = length vals -> dim = Some dd ->
  consistent (mkIndexer (Some (mkIndex dd vs)) (PyList.enumerate vals) dim).
Proof.
  intros Hl Hd. unfold consistent. simpl. split; [exact Hd|].
  now rewrite keys_enumerate, Hl.
Qed.

Lemma ordered_of_range (l : list Meta.t) (a : nat) :
  map Meta.chunk_index l = map Z.of_nat (seq a (length l)) ->
  ordered Meta.chunk_index l.
Proof.
  revert a. induction l as [|x l IH]; intros a; simpl; [trivial|].
  intros H. injection H as Hx Hl. split; [|now apply (IH (S a))].
  destruct l as [|y l]; [trivial|]. simpl in Hl. injection Hl as Hy _. lia.
Qed.

Lemma sort_records_in_order (doc : Z) (self : DocumentIndexer) :
  chunk_order self ->
  sort_by_chunk_index (records_of doc self) = records_of doc self.
Proof.
  intros Ho. apply (sort_of_ordered Meta.chunk_index).
  apply (ordered_of_range _ 0). apply Ho.
Qed.

End InvariantSteps.

Section InvariantTheorem.
Context {B : Backend}.

(** C5, as amended. The invariant -- consistent stores in which the
    [chunk_index] values of each document are 0, ..., K-1 in storage
    order -- holds of a new indexer and is kept by
    [add_document_to_index] for a document that has no record in the
    store yet (the model giving one row for each text), by
    [remove_document_from_index] and by [rebuild_index]; the removal
    leaves the records of every other document as they are, in their
    order, and the rebuild those of every document: vector ids change,
    records do not. *)
Theorem store_invariant_preserved (self : DocumentIndexer) :
  (consistent new_indexer /\ chunk_order new_indexer)
  /\ (consistent self -> chunk_order self ->
      (forall io doc text title,
          encode_one_row_per_text ->
          records_of doc self = [] ->
          let self' := snd (add_document_to_index io doc text title self) in
          consistent self' /\ chunk_order self')
      /\ (forall io doc,
            let self' := snd (remove_document_from_index io doc self) in
            consistent self' /\ chunk_order self'
            /\ forall doc', doc' <> doc ->
                            records_of doc' self' = records_of doc' self)
      /\ (forall io,
            let self' := snd (rebuild_index io self) in
            consistent self' /\ chunk_order self'
            /\ forall doc, records_of doc self' = records_of doc self)).
Proof.
  split; [split; [reflexivity | intros doc; reflexivity]|].
  intros Hc Ho. split; [|split].
  - intros io doc text title Henc Hnone self'. subst self'.
    destruct (add_document_cases io doc text title self)
      as [-> | (Hne & emb & ix' & He & Ha)]; [now split|].
    destruct (add_document_consistent io doc text title self emb ix'
                Hc Hne He Ha (Henc _ _ He)) as [Hc' Hv].
    split; [exact Hc'|].
    now apply (chunk_order_after_add doc title (chunk_text text None None) self).
  - intros io doc self'. subst self'.
    destruct (index self) as [ix|] eqn:Hix.
    2:{ unfold remove_document_from_index. rewrite Hix. simpl. auto. }
    destruct (remove_document_consistent io doc self ix Hc Hix)
      as (vs & Hlen & ->). simpl snd.
    assert (Hrec : forall doc', records_of doc'
               (mkIndexer (Some (mkIndex (d ix) vs))
                  (PyList.enumerate (kept_records doc self)) (dimension self))
               = if doc' =? doc then [] else records_of doc' self).
    { intros doc'. now rewrite records_of_enumerate, records_in_kept. }
    split; [|split].
    + apply consistent_enumerate; [exact Hlen|].
      unfold consistent in Hc. rewrite Hix in Hc. tauto.
    + intros doc'. rewrite Hrec. destruct (doc' =? doc); [reflexivity | apply Ho].
    + intros doc' Hne. rewrite Hrec. apply Z.eqb_neq in Hne. now rewrite Hne.
  - intros io self'. subst self'.
    destruct (rebuild_index_cases self)
      as [HA | [(ix & vs & Hix & Hlen & HB) | (ix & n & Hix & Hdim & Hne & _)]].
    + rewrite (HA io). auto.
    + rewrite (HB io). simpl snd.
      assert (Hrec : forall doc, records_of doc
                 (mkIndexer (Some (mkIndex (d ix) vs))
                    (PyList.enumerate (regroup (PyDict.values (metadata self))))
                    (Some (d ix)))
                 = records_of doc self).
      { intros doc. rewrite records_of_enumerate, records_in_regroup.
        now apply sort_records_in_order. }
      split; [|split].
      * now apply consistent_enumerate.
      * intros doc. rewrite Hrec. apply Ho.
      * exact Hrec.
    + unfold consistent in Hc. rewrite Hix in Hc. destruct Hc as [Hd _].
      congruence.
Qed.

End InvariantTheorem.

Lemma toy_encode_one_row_per_text : encode_one_row_per_text.
Proof.
  intros texts a. simpl. unfold Toy.encode.
  destruct (existsb PyStr.is_empty texts); [discriminate|].
  intros [= <-]. simpl. apply length_map.
Qed.

Lemma toy_two_docs_consistent : consistent Toy.two_docs.
Proof. vm_compute. split; reflexivity. Qed.

Lemma toy_two_docs_chunk_order : chunk_order Toy.two_docs.
Proof.
  assert (E : PyDict.values (metadata Toy.two_docs)
              = [Meta.mk 1 0 "A. B." "t1" 5; Meta.mk 2 0 "C." "t2" 2])
    by reflexivity.
  intros doc. unfold records_of. rewrite E. unfold filter.
  cbn [Meta.document_id].
  destruct (1 =? doc) eqn:E1, (2 =? doc) eqn:E2; try reflexivity.
  apply Z.eqb_eq in E1, E2. lia.
Qed.

Lemma long_two_docs_consistent : consistent Long.two_docs.
Proof. vm_compute. split; reflexivity. Qed.

Lemma long_two_docs_values :
  PyDict.values (metadata Long.two_docs)
  = [Meta.mk 1 0 (Long.sentence_300 ++ ".") "t1" 301;
     Meta.mk 1 1 (Long.sentence_300 ++ ".") "t1" 301;
     Meta.mk 2 0 (Long.sentence_300 ++ ".") "t2" 301;
     Meta.mk 2 1 (Long.sentence_300 ++ ".") "t2" 301].
Proof. vm_compute. reflexivity. Qed.

Lemma long_two_docs_chunk_order : chunk_order Long.two_docs.
Proof.
  intros doc. unfold records_of. rewrite long_two_docs_values. unfold filter.
  cbn [Meta.document_id].
  destruct (1 =? doc) eqn:E1, (2 =? doc) eqn:E2; try reflexivity.
  apply Z.eqb_eq in E1, E2. lia.
Qed.

Lemma store_invariant_preserved_witness :
  map Meta.chunk_index (records_of 1 Long.two_docs) = [0; 1]
  /\ map Meta.chunk_index (records_of 2 Long.two_docs) = [0; 1]
  /\ length (chunk_text Long.text None None) = 2%nat
  /\ (consistent (snd (add_document_to_index NoFault 3 Long.text "t3" Long.two_docs))
      /\ chunk_order (snd (add_document_to_index NoFault 3 Long.text "t3" Long.two_docs)))
  /\ (consistent (snd (remove_document_from_index NoFault 1 Long.two_docs))
      /\ chunk_order (snd (remove_document_from_index NoFault 1 Long.two_docs))
      /\ records_of 2 (snd (remove_document_from_index NoFault 1 Long.two_docs))
         = records_of 2 Long.two_docs)
  /\ (consistent (snd (rebuild_index NoFault Long.two_docs))
      /\ chunk_order (snd (rebuild_index NoFault Long.two_docs))
      /\ records_of 2 (snd (rebuild_index NoFault Long.two_docs))
         = records_of 2 Long.two_docs).
Proof.
  destruct (proj2 (store_invariant_preserved Long.two_docs)
              long_two_docs_consistent long_two_docs_chunk_order)
    as (Hadd & Hrm & Hrb).
  split; [vm_compute; reflexivity|].
  split; [vm_compute; reflexivity|].
  split; [vm_compute; reflexivity|].
  split; [|split].
  - apply Hadd; [exact toy_encode_one_row_per_text|].
    vm_compute. reflexivity.
  - destruct (Hrm NoFault 1) as (H1 & H2 & H3).
    split; [exact H1|]. split; [exact H2|]. apply H3. discriminate.
  - destruct (Hrb NoFault) as (H1 & H2 & H3).
    split; [exact H1|]. split; [exact H2|]. apply H3.
Defined.

(** Why C5 asks for consistent stores: the files hold two vectors and
    four records, in which documents 7 and 9 have their chunks 0, 1 in
    order. Adding document 5, which has no record, returns the id 2 and
    puts its record under the key 2, where chunk 0 of document 9 was:
    document 9 is left with chunk 1 only. *)
Lemma add_on_loaded_store_breaks_order :
  chunk_order Loaded.two_vectors_four_records
  /\ records_of 5 Loaded.two_vectors_four_records = []
  /\ fst (add_document_to_index NoFault 5 "E." "t5"
            Loaded.two_vectors_four_records) = Ok [2]
  /\ ~ chunk_order (snd (add_document_to_index NoFault 5 "E." "t5"
                           Loaded.two_vectors_four_records)).
Proof.
  split; [|split; [|split]].
  - assert (E : PyDict.values (metadata Loaded.two_vectors_four_records)
                = [Meta.mk 7 0 "A." "t7" 2; Meta.mk 7 1 "B." "t7" 2;
                   Meta.mk 9 0 "C." "t9" 2; Meta.mk 9 1 "D." "t9" 2])
      by reflexivity.
    intros doc. unfold records_of. rewrite E. unfold filter.
    cbn [Meta.document_id].
    destruct (7 =? doc) eqn:E1, (9 =? doc) eqn:E2; try reflexivity.
    apply Z.eqb_eq in E1, E2. lia.
  - reflexivity.
  - vm_compute. reflexivity.
  - intros H. specialize (H 9). vm_compute in H. discriminate.
Qed.

(** C5, as first stated, fails: document 1 is in the store with one
    chunk; adding document 1 again puts a second record of [chunk_index]
    0 after the first. *)
Lemma add_same_document_counterexample :
  ~ add_keeps_chunk_order NoFault 1 "C." "t1" Toy.one_doc.
Proof.
  intros H.
  assert (Hc : consistent Toy.one_doc) by (vm_compute; split; reflexivity).
  assert (Ho : chunk_order Toy.one_doc).
  { assert (E : PyDict.values (metadata Toy.one_doc)
                = [Meta.mk 1 0 "A. B." "t1" 5]) by reflexivity.
    intros doc. unfold records_of. rewrite E. unfold filter.
    cbn [Meta.document_id]. destruct (1 =? doc); reflexivity. }
  specialize (H Hc Ho 1). vm_compute in H. discriminate.
Qed.

Lemma rebuild_index_twice_witness :
  rebuild_index NoFault new_indexer = (true, new_indexer).
Proof.
  apply (proj2 (proj2 (rebuild_index_twice NoFault NoFault new_indexer))).
  reflexivity.
Defined.

Lemma add_assigns_contiguous_ids_witness :
  [1] = map (fun i => index_size Toy.one_doc + Z.of_nat i)
            (seq 0 (length (chunk_text "C." None None)))
  /\ length [1] = length (chunk_text "C." None None).
Proof.
  apply (proj2 add_assigns_contiguous_ids NoFault 2 "C." "t2"
           Toy.one_doc Toy.two_docs [1]).
  reflexivity.
Defined.

Section RankerFacts.
Context {B : Backend}.

Lemma length_filter_items (doc : Z) (md : PyDict.dict Z Meta.t) :
  length (filter (fun it => Meta.document_id (snd it) =? doc) (PyDict.items md))
  = length (filter (fun m => Meta.document_id m =? doc) (PyDict.values md)).
Proof.
  unfold PyDict.items, PyDict.values.
  induction md as [|[k m] md IH]; simpl; [reflexivity|].
  destruct (Meta.document_id m =? doc); simpl; now rewrite IH.
Qed.

(** With no embedding the search gives nothing or raises. *)
Lemma search_without_model (q : string) (k : Z) (ids : option (list Z))
    (self : DocumentIndexer) :
  (forall texts, model_encode texts = Raise EncodeError) ->
  search_similar_chunks q k ids self = Ok []
  \/ search_similar_chunks q k ids self = Raise EncodeError.
Proof.
  intros H. unfold search_similar_chunks, _create_embeddings.
  destruct (index self) as [ix|]; [|now left].
  destruct (ntotal ix =? 0); [now left|]. rewrite H. now right.
Qed.

Lemma slice_to_nil {A : Type} (n : Z) : PyList.slice_to n (@nil A) = [].
Proof. unfold PyList.slice_to. destruct (n <? 0); now rewrite firstn_nil. Qed.

(** C10. [find_relevant_context], [get_document_summary_context] and
    [find_similar_documents] return a list whatever happens inside: when
    the body of one of them raises, the result is the empty list. So it
    is when the search raises, from the embedding or from faiss; when
    [max_chunks] is 0 and the document has records, so that the stride
    divides by zero; and, with the embedding model always failing, for
    every call of the two operations that search. *)
Theorem ranker_never_raises :
  (forall q ids k self e,
      find_relevant_context_try q ids k self = Raise e ->
      find_relevant_context q ids k self = [])
  /\ (forall doc k self e,
        get_document_summary_context_try doc k self = Raise e ->
        get_document_summary_context doc k self = [])
  /\ (forall doc k self e,
        find_similar_documents_try doc k self = Raise e ->
        find_similar_documents doc k self = [])
  /\ (forall q ids k self e,
        search_similar_chunks q (k * 2) ids self = Raise e ->
        find_relevant_context q ids k self = [])
  /\ (forall doc self,
        records_of doc self <> [] ->
        get_document_summary_context_try doc 0 self = Raise ZeroDivisionError
        /\ get_document_summary_context doc 0 self = [])
  /\ ((forall texts, model_encode texts = Raise EncodeError) ->
      forall q ids doc k self,
        find_relevant_context q ids k self = []
        /\ find_similar_documents doc k self = []).
Proof.
  split; [|split; [|split; [|split; [|split]]]].
  - intros q ids k self e H. unfold find_relevant_context. now rewrite H.
  - intros doc k self e H. unfold get_document_summary_context. now rewrite H.
  - intros doc k self e H. unfold find_similar_documents. now rewrite H.
  - intros q ids k self e H.
    unfold find_relevant_context, find_relevant_context_try. now rewrite H.
  - intros doc self Hrec.
    assert (Hraise : get_document_summary_context_try doc 0 self
                     = Raise ZeroDivisionError).
    { unfold get_document_summary_context_try.
      rewrite length_sort, length_map, length_filter_items.
      fold (records_of doc self).
      destruct (records_of doc self) as [|m l]; [congruence|].
      reflexivity. }
    split; [exact Hraise|].
    unfold get_document_summary_context. now rewrite Hraise.
  - intros Hdown q ids doc k self. split.
    + unfold find_relevant_context, find_relevant_context_try.
      destruct (search_without_model q (k * 2) ids self Hdown) as [-> | ->];
        [|reflexivity].
      simpl. now rewrite slice_to_nil.
    + unfold find_similar_documents, find_similar_documents_try.
      destruct (map _ _) as [|t ts]; [reflexivity|].
      destruct (search_without_model
                  (PyStr.join " " (PyList.slice_to 5 (t :: ts)))
                  (k * 5) None self Hdown) as [-> | ->]; [|reflexivity].
      simpl. now rewrite slice_to_nil.
Qed.

End RankerFacts.

Lemma ranker_never_raises_witness :
  find_relevant_context "" None 5 Toy.two_docs = []
  /\ get_document_summary_context 1 0 Toy.two_docs = [].
Proof.
  destruct (@ranker_never_raises Toy.backend)
    as (_ & _ & _ & Hsearch & Hzero & _).
  split.
  - apply (Hsearch "" None 5 Toy.two_docs EncodeError). reflexivity.
  - apply (Hzero 1 Toy.two_docs). vm_compute. discriminate.
Defined.

(** * Further properties of [chunk_text] *)

Section ChunkMore.

(** The chunks as lists of sentences: none when the text has no
    sentence, otherwise what the loop invariant says. *)
Lemma chunk_text_groups (text : string) (chunk_size overlap : option Z) :
  let size := int_or chunk_size settings.MAX_CHUNK_SIZE in
  let ov := int_or overlap settings.CHUNK_OVERLAP in
  (chunk_text text chunk_size overlap = [] /\ sentences_of text = [])
  \/ exists gs,
       gs <> []
       /\ chunk_text text chunk_size overlap = map close_chunk gs
       /\ map sentences_of (chunk_text text chunk_size overlap) = gs
       /\ groups_ok size ov gs (sentences_of text).
Proof.
  intros size ov. unfold chunk_text. fold size ov.
  destruct (chunk_loop_inv size ov text) as [Hch Hcur _ Hd | G Hch Hcur _ Hok].
  - left. unfold chunk_finish. rewrite Hcur, Hch. auto.
  - right.
    set (st := fold_left (chunk_step size ov) (PyStr.split "." text)
                         (mkChunker [] [] 0)) in *.
    exists (G ++ [current_chunk st]).
    rewrite (chunk_finish_run _ G Hch Hcur).
    destruct Hok as (Hc & Hse & Hb & Hv).
    rewrite (map_sentences_of_close _ Hv).
    repeat split; try assumption.
    destruct G; discriminate.
Qed.

Lemma sum_len_nonneg (l : list string) : 0 <= sum_len l.
Proof.
  induction l as [|s l IH]; simpl; [lia|]. unfold PyStr.len. lia.
Qed.

Lemma sum_len_app (a b : list string) :
  sum_len (a ++ b) = sum_len a + sum_len b.
Proof. induction a as [|s a IH]; simpl; [reflexivity | rewrite IH; lia]. Qed.

(** Sentences that fit the budget all go to the chunk in progress. *)
Lemma chunk_loop_fits (size ov : Z) (l : list string) (st : chunker) :
  Forall sentence l ->
  current_length st = sum_len (current_chunk st) ->
  sum_len (current_chunk st) + sum_len l <= size ->
  fold_left (chunk_step size ov) l st
  = mkChunker (chunks st) (current_chunk st ++ l)
              (sum_len (current_chunk st ++ l)).
Proof.
  intros Hl. revert st. induction Hl as [|s l Hs Hl IH]; intros st Hlen Hfit; simpl.
  - rewrite app_nil_r, <- Hlen. now destruct st.
  - simpl in Hfit. pose proof (sum_len_nonneg l).
    assert (Hstep : chunk_step size ov st s
                    = mkChunker (chunks st) (current_chunk st ++ [s])
                                (sum_len (current_chunk st ++ [s]))).
    { unfold chunk_step.
      rewrite (sentence_strip s Hs), (sentence_not_empty s Hs).
      destruct (current_length st + PyStr.len s >? size) eqn:E.
      - apply Z.gtb_lt in E. lia.
      - simpl. rewrite sum_len_snoc, Hlen. reflexivity. }
    rewrite Hstep, IH; simpl.
    + now rewrite <- !app_assoc.
    + reflexivity.
    + rewrite sum_len_snoc. lia.
Qed.

Lemma chunk_text_fits_sentences (text : string) (chunk_size overlap : option Z) :
  sentences_of text <> [] ->
  sum_len (sentences_of text) <= int_or chunk_size settings.MAX_CHUNK_SIZE ->
  chunk_text text chunk_size overlap = [close_chunk (sentences_of text)].
Proof.
  intros Hne Hfit. unfold chunk_text. rewrite chunk_loop_raw.
  fold (sentences_of text).
  rewrite chunk_loop_fits; simpl; try assumption; try reflexivity.
  - unfold chunk_finish. simpl. destruct (sentences_of text); [congruence | reflexivity].
  - apply sentences_of_sentences.
Qed.

(** X1. [chunk_text] returns no chunk exactly when the text has no
    non-empty sentence. *)
Theorem chunk_text_empty_iff (text : string) (chunk_size overlap : option Z) :
  chunk_text text chunk_size overlap = [] <-> sentences_of text = [].
Proof.
  destruct (chunk_text_groups text chunk_size overlap)
    as [[H1 H2] | (gs & Hne & Hch & _ & Hok)].
  - tauto.
  - split.
    + intros E. rewrite E in Hch. destruct gs; [congruence | discriminate].
    + intros E. destruct Hok as (Hc & _ & _ & Hv). rewrite E in Hc.
      exfalso. destruct gs as [|g gs]; [congruence|].
      inversion Hv as [|? ? [Hg _] _]; subst. simpl in Hc.
      unfold fresh_part in Hc at 1. simpl in Hc.
      unfold overlap_seed in Hc at 1. simpl in Hc.
      rewrite andb_false_r in Hc. simpl in Hc.
      destruct g; [congruence | discriminate].
Qed.

(** X2. When the sentences of the text fit the budget together, the
    result is the single chunk that joins them all. *)
Theorem chunk_text_one_chunk (text : string) (chunk_size overlap : option Z) :
  sentences_of text <> [] ->
  sum_len (sentences_of text) <= int_or chunk_size settings.MAX_CHUNK_SIZE ->
  chunk_text text chunk_size overlap = [close_chunk (sentences_of text)].
Proof. apply chunk_text_fits_sentences. Qed.

(** X3. A chunk whose sentences fit the budget is a fixed point: split
    again, it comes back as the one chunk it is. *)
Theorem chunk_text_of_chunk (g : list string) (chunk_size overlap : option Z) :
  g <> [] -> Forall sentence g ->
  sum_len g <= int_or chunk_size settings.MAX_CHUNK_SIZE ->
  chunk_text (close_chunk g) chunk_size overlap = [close_chunk g].
Proof.
  intros Hne Hg Hfit.
  pose proof (sentences_of_close_chunk g Hg Hne) as E.
  rewrite chunk_text_fits_sentences; rewrite E; try assumption. reflexivity.
Qed.

Lemma overlap_seed_whole (ov : Z) (prev : list string) :
  (1 < length prev)%nat -> Z.of_nat (length prev) <= ov ->
  overlap_seed ov prev = prev.
Proof.
  intros H1 H2. unfold overlap_seed, last_n.
  assert (E1 : (ov >? 0) = true) by (apply Z.gtb_lt; lia).
  assert (E2 : (1 <? length prev)%nat = true) by now apply Nat.ltb_lt.
  rewrite E1, E2. simpl.
  replace (length prev - Z.to_nat ov)%nat with 0%nat by lia. reflexivity.
Qed.

(** X4. A chunk that closes with more than one sentence and no more
    sentences than the overlap is repeated whole at the head of the next
    chunk (with the default overlap of 50: every chunk of 2 to 50
    sentences). *)
Theorem chunk_text_repeats_previous (text : string)
    (chunk_size overlap : option Z) :
  let ov := int_or overlap settings.CHUNK_OVERLAP in
  Forall (fun pg =>
            (1 < length (fst pg))%nat -> Z.of_nat (length (fst pg)) <= ov ->
            firstn (length (fst pg)) (snd pg) = fst pg)
         (with_prev [] (map sentences_of (chunk_text text chunk_size overlap))).
Proof.
  intros ov.
  destruct (chunk_text_groups text chunk_size overlap)
    as [[H1 _] | (gs & _ & _ & Hgs & Hok)].
  - rewrite H1. constructor.
  - rewrite Hgs. destruct Hok as (_ & Hse & _ & _). fold ov in Hse.
    rewrite Forall_forall in *. intros pg Hpg H1 H2.
    specialize (Hse pg Hpg). unfold seeded in Hse.
    now rewrite (overlap_seed_whole ov (fst pg) H1 H2) in Hse.
Qed.

(** X5. Every chunk is the join of its own sentences, of which it has at
    least one, each non-empty, stripped and without a period: splitting a
    chunk and joining it again gives the chunk back. *)
Theorem chunk_text_chunks_wellformed (text : string)
    (chunk_size overlap : option Z) :
  Forall (fun f =>
            sentences_of f <> []
            /\ Forall sentence (sentences_of f)
            /\ close_chunk (sentences_of f) = f)
         (chunk_text text chunk_size overlap).
Proof.
  destruct (chunk_text_groups text chunk_size overlap)
    as [[H1 _] | (gs & _ & Hch & _ & Hok)].
  - rewrite H1. constructor.
  - rewrite Hch. destruct Hok as (_ & _ & _ & Hv).
    rewrite Forall_forall in *. intros f Hf.
    apply in_map_iff in Hf. destruct Hf as (g & <- & Hg).
    destruct (Hv g Hg) as [Hne Hsg].
    rewrite sentences_of_close_chunk by assumption. auto.
Qed.

End ChunkMore.

Lemma chunk_text_one_chunk_witness :
  chunk_text "A. B. C." (Some 1000) None = [close_chunk (sentences_of "A. B. C.")].
Proof.
  apply (chunk_text_one_chunk "A. B. C." (Some 1000) None).
  - vm_compute. discriminate.
  - vm_compute. discriminate.
Defined.

Lemma chunk_text_of_chunk_witness :
  chunk_text (close_chunk ["A"; "B"]) None None = [close_chunk ["A"; "B"]].
Proof.
  apply (chunk_text_of_chunk ["A"; "B"] None None).
  - discriminate.
  - repeat constructor; (discriminate || (intros C; discriminate C)).
  - vm_compute. discriminate.
Defined.

Lemma chunk_text_repeats_previous_witness :
  firstn 2 ["a"; "b"; "c"] = ["a"; "b"].
Proof.
  pose proof (chunk_text_repeats_previous "a. b. c" (Some 2) None) as H.
  assert (E : with_prev [] (map sentences_of (chunk_text "a. b. c" (Some 2) None))
              = [([], ["a"; "b"]); (["a"; "b"], ["a"; "b"; "c"])])
    by reflexivity.
  rewrite E in H. apply Forall_inv_tail, Forall_inv in H.
  apply H; simpl; [lia | vm_compute; discriminate].
Defined.

(** * Further properties of the search *)

Section ChainFacts.
Context {A : Type}.
Variable before : A -> A -> bool.
Hypothesis before_total : forall x y, before x y = false -> before y x = true.

Lemma insert_chain (x : A) (l : list A) :
  chain (fun a b => before a b = true) l ->
  chain (fun a b => before a b = true) (PyList.insert before x l).
Proof.
  induction l as [|y l IH]; simpl; [tauto|].
  intros [Hy Hl]. destruct (before x y) eqn:E.
  - simpl. tauto.
  - specialize (IH Hl). simpl. split; [|exact IH].
    destruct l as [|z l]; simpl.
    + now apply before_total.
    + destruct (before x z); [now apply before_total | exact Hy].
Qed.

Lemma sort_chain (l : list A) :
  chain (fun a b => before a b = true) (PyList.sort before l).
Proof.
  induction l as [|x l IH]; simpl; [exact I | now apply insert_chain].
Qed.

End ChainFacts.

Lemma chain_impl {A : Type} (R S : A -> A -> Prop) (l : list A) :
  (forall x y, R x y -> S x y) -> chain R l -> chain S l.
Proof.
  intros H. induction l as [|x l IH]; simpl; [tauto|].
  intros [H1 H2]. split; [|now apply IH]. destruct l; auto.
Qed.

Lemma Qle_bool_total (x y : Q) : Qle_bool x y = false -> Qle_bool y x = true.
Proof.
  intros H. apply Qle_bool_iff. apply Qlt_le_weak, Qnot_le_lt.
  intros C. apply Qle_bool_iff in C. congruence.
Qed.

Section SearchMore.
Context {B : Backend}.

Lemma search_loop_length (md : PyDict.dict Z Meta.t) (ids : option (list Z))
    (k : Z) (cands : list (Q * Z)) (res : list Hit.t) :
  let L := Z.of_nat (length (search_loop md ids k cands res)) in
  (Z.of_nat (length res) < k -> L <= k)
  /\ (k <= Z.of_nat (length res) -> L <= Z.of_nat (length res) + 1).
Proof.
  revert res. induction cands as [|[score idx] cands IH]; intros res; simpl.
  - lia.
  - destruct (idx =? -1); [apply IH|].
    destruct (match filter_given ids with
              | Some ids0 => not_in_filter (PyDict.get Z.eqb md idx) ids0
              | None => false
              end); [apply IH|].
    rewrite length_app. simpl.
    destruct (Z.of_nat (length res + 1) >=? k) eqn:E.
    + rewrite length_app. simpl. apply Z.geb_le in E. lia.
    + assert (Hlt : Z.of_nat (length res + 1) < k).
      { destruct (Z.ltb_spec (Z.of_nat (length res + 1)) k) as [Hl|Hl]; [exact Hl|].
        apply Z.geb_le in Hl. congruence. }
      specialize (IH (res ++ [make_hit idx score (PyDict.get Z.eqb md idx)])).
      rewrite length_app in IH. simpl in IH. lia.
Qed.

(** Where a result of the search loop comes from, label included. *)
Lemma search_loop_origin (md : PyDict.dict Z Meta.t) (ids : option (list Z))
    (k : Z) (cands : list (Q * Z)) (res : list Hit.t) (h : Hit.t) :
  In h (search_loop md ids k cands res) ->
  In h res
  \/ exists score idx,
      In (score, idx) cands /\ idx <> -1
      /\ h = make_hit idx score (PyDict.get Z.eqb md idx).
Proof.
  revert res. induction cands as [|[score idx] cands IH]; intros res; simpl.
  - now left.
  - assert (Hrec : forall res',
      (In h res' -> In h res \/ exists score0 idx0,
          ((score, idx) = (score0, idx0) \/ In (score0, idx0) cands)
          /\ idx0 <> -1
          /\ h = make_hit idx0 score0 (PyDict.get Z.eqb md idx0)) ->
      In h (search_loop md ids k cands res') ->
      In h res \/ exists score0 idx0,
          ((score, idx) = (score0, idx0) \/ In (score0, idx0) cands)
          /\ idx0 <> -1
          /\ h = make_hit idx0 score0 (PyDict.get Z.eqb md idx0)).
    { intros res' Hres' Hin.
      destruct (IH res' Hin) as [H | (s0 & i0 & H1 & H2 & H3)].
      - now apply Hres'.
      - right. exists s0, i0. auto. }
    destruct (idx =? -1) eqn:Eidx; [apply Hrec; tauto|].
    apply Z.eqb_neq in Eidx.
    destruct (match filter_given ids with
              | Some ids0 => not_in_filter (PyDict.get Z.eqb md idx) ids0
              | None => false
              end); [apply Hrec; tauto|].
    assert (Hnew : forall h',
      In h' (res ++ [make_hit idx score (PyDict.get Z.eqb md idx)]) ->
      In h' res \/ h' = make_hit idx score (PyDict.get Z.eqb md idx)).
    { intros h' Hh'. apply in_app_or in Hh'. simpl in Hh'. intuition congruence. }
    destruct (_ >=? k).
    + intros Hin. destruct (Hnew _ Hin) as [H | H]; [now left|].
      right. exists score, idx. auto.
    + apply Hrec. intros Hin. destruct (Hnew _ Hin) as [H | H]; [now left|].
      right. exists score, idx. auto.
Qed.

(** The parts of a search that returns. *)
Lemma search_ok_inv (q : string) (k : Z) (ids : option (list Z))
    (self : DocumentIndexer) (hits : list Hit.t) :
  search_similar_chunks q k ids self = Ok hits ->
  hits = []
  \/ exists ix qe cands,
       index self = Some ix
       /\ faiss_search ix qe (k * 2) = Ok cands
       /\ hits = sort_by_score (search_loop (metadata self) ids k cands []).
Proof.
  unfold search_similar_chunks. intros H.
  destruct (index self) as [ix|]; [|injection H as <-; now left].
  destruct (ntotal ix =? 0); [injection H as <-; now left|].
  destruct (_create_embeddings [q]) as [qe|e]; [|discriminate]. simpl in H.
  destruct (faiss_search ix qe (k * 2)) as [cands|e] eqn:Ef; [|discriminate].
  simpl in H. injection H as <-. right. now exists ix, qe, cands.
Qed.

Lemma make_hit_fields (idx : Z) (score : Q) (vm : option Meta.t) :
  Hit.vector_id (make_hit idx score vm) = idx
  /\ Hit.score (make_hit idx score vm) = score.
Proof. destruct vm; split; reflexivity. Qed.

(** X6. A search returns at most [top_k] results when [top_k] is at
    least 1, and at most one result otherwise. *)
Theorem search_at_most_top_k (q : string) (k : Z) (ids : option (list Z))
    (self : DocumentIndexer) (hits : list Hit.t) :
  search_similar_chunks q k ids self = Ok hits ->
  Z.of_nat (length hits) <= Z.max k 1.
Proof.
  intros H. destruct (search_ok_inv _ _ _ _ _ H)
    as [-> | (ix & qe & cands & _ & _ & ->)]; [simpl; lia|].
  unfold sort_by_score. rewrite length_sort.
  pose proof (search_loop_length (metadata self) ids k cands []) as [H1 H2].
  simpl in H1, H2. lia.
Qed.

Lemma search_sorted_chain (q : string) (k : Z) (ids : option (list Z))
    (self : DocumentIndexer) (hits : list Hit.t) :
  search_similar_chunks q k ids self = Ok hits ->
  chain (fun x y => (Hit.score y <= Hit.score x)%Q) hits.
Proof.
  intros H. destruct (search_ok_inv _ _ _ _ _ H)
    as [-> | (ix & qe & cands & _ & _ & ->)]; [exact I|].
  unfold sort_by_score.
  eapply chain_impl; [|apply sort_chain].
  - intros x y Hxy. now apply Qle_bool_iff.
  - intros x y. apply Qle_bool_total.
Qed.

(** X7. The results of a search are in descending order of score. *)
Theorem search_sorted_by_score (q : string) (k : Z) (ids : option (list Z))
    (self : DocumentIndexer) (hits : list Hit.t) :
  search_similar_chunks q k ids self = Ok hits ->
  chain (fun x y => (Hit.score y <= Hit.score x)%Q) hits.
Proof. apply search_sorted_chain. Qed.

(** X8. Every result of a search is the record stored under its vector
    id, with the defaults of the code where the id has no record; no
    result carries the label -1 that faiss gives for a missing
    neighbour. *)
Theorem search_results_from_store (q : string) (k : Z)
    (ids : option (list Z)) (self : DocumentIndexer) (hits : list Hit.t) :
  search_similar_chunks q k ids self = Ok hits ->
  Forall (fun h =>
            Hit.vector_id h <> -1
            /\ h = make_hit (Hit.vector_id h) (Hit.score h)
                     (PyDict.get Z.eqb (metadata self) (Hit.vector_id h)))
         hits.
Proof.
  intros H. destruct (search_ok_inv _ _ _ _ _ H)
    as [-> | (ix & qe & cands & _ & _ & ->)]; [constructor|].
  apply Forall_forall. intros h Hin.
  unfold sort_by_score in Hin. apply in_sort in Hin.
  destruct (search_loop_origin _ _ _ _ _ _ Hin)
    as [[] | (score & idx & _ & Hidx & ->)].
  destruct (make_hit_fields idx score (PyDict.get Z.eqb (metadata self) idx))
    as [-> ->]. auto.
Qed.

(** X9. On consistent stores, with faiss returning only ids of stored
    vectors, every result of a search has a record: its document, chunk
    index and text are those of a record of the store. *)
Theorem search_results_have_records (q : string) (k : Z)
    (ids : option (list Z)) (self : DocumentIndexer) (hits : list Hit.t) :
  consistent self -> faiss_labels_valid ->
  search_similar_chunks q k ids self = Ok hits ->
  Forall (fun h =>
            exists m,
              In m (PyDict.values (metadata self))
              /\ Hit.document_id h = Some (Meta.document_id m)
              /\ Hit.chunk_index h = Some (Meta.chunk_index m)
              /\ Hit.text h = Meta.text m)
         hits.
Proof.
  intros Hc Hf H. destruct (search_ok_inv _ _ _ _ _ H)
    as [-> | (ix & qe & cands & Hix & Hs & ->)]; [constructor|].
  apply Forall_forall. intros h Hin.
  unfold sort_by_score in Hin. apply in_sort in Hin.
  destruct (search_loop_origin _ _ _ _ _ _ Hin)
    as [[] | (score & idx & Hc1 & Hidx & ->)].
  pose proof (Hf _ _ _ _ Hs) as Hv. rewrite Forall_forall in Hv.
  destruct (Hv _ Hc1) as [E | Hr]; [simpl in E; congruence|]. simpl in Hr.
  assert (Hk : In idx (PyDict.keys (metadata self))).
  { unfold consistent in Hc. rewrite Hix in Hc. destruct Hc as [_ ->].
    apply keys_in_range. exact Hr. }
  destruct (PyDict.get Z.eqb (metadata self) idx) as [m|] eqn:Eg.
  - exists m. simpl. repeat split.
    apply get_in in Eg. apply (in_map snd) in Eg. exact Eg.
  - exfalso. clear - Eg Hk. induction (metadata self) as [|[k' v] md IH];
      simpl in *; [tauto|].
    destruct (k' =? idx) eqn:E; [discriminate|].
    destruct Hk as [-> | Hk]; [rewrite Z.eqb_refl in E; discriminate | auto].
Qed.

End SearchMore.

Lemma in_firstn {A : Type} (n : nat) (l : list A) (x : A) :
  In x (firstn n l) -> In x l.
Proof.
  revert l. induction n as [|n IH]; intros l; simpl; [tauto|].
  destruct l as [|y l]; simpl; [tauto|]. intros [H | H]; auto.
Qed.

Lemma toy_faiss_labels_valid : faiss_labels_valid.
Proof.
  intros ix query k cands. simpl. unfold Toy.search. intros [= <-].
  apply Forall_forall. intros c Hc. apply in_firstn in Hc.
  apply in_map_iff in Hc. destruct Hc as (i & <- & Hi). apply in_seq in Hi.
  right. unfold ntotal. cbn in *. lia.
Qed.

Lemma search_at_most_top_k_witness :
  Z.of_nat (length [Hit.mk 0 1 (Some 1) (Some 0) "A. B." "t1" 5]) <= Z.max 1 1.
Proof.
  apply (search_at_most_top_k "x" 1 None Toy.two_docs). reflexivity.
Defined.

Lemma search_sorted_by_score_witness :
  chain (fun x y => (Hit.score y <= Hit.score x)%Q)
        [Hit.mk 0 1 (Some 1) (Some 0) "A. B." "t1" 5;
         Hit.mk 1 1 (Some 2) (Some 0) "C." "t2" 2].
Proof.
  apply (search_sorted_by_score "x" 5 None Toy.two_docs). reflexivity.
Defined.

Lemma search_results_from_store_witness :
  Forall (fun h =>
            Hit.vector_id h <> -1
            /\ h = make_hit (Hit.vector_id h) (Hit.score h)
                     (PyDict.get Z.eqb (metadata Toy.two_docs) (Hit.vector_id h)))
         [Hit.mk 0 1 (Some 1) (Some 0) "A. B." "t1" 5;
          Hit.mk 1 1 (Some 2) (Some 0) "C." "t2" 2].
Proof.
  apply (search_results_from_store "x" 5 None Toy.two_docs). reflexivity.
Defined.

Lemma search_results_have_records_witness :
  Forall (fun h =>
            exists m,
              In m (PyDict.values (metadata Toy.two_docs))
              /\ Hit.document_id h = Some (Meta.document_id m)
              /\ Hit.chunk_index h = Some (Meta.chunk_index m)
              /\ Hit.text h = Meta.text m)
         [Hit.mk 0 1 (Some 1) (Some 0) "A. B." "t1" 5;
          Hit.mk 1 1 (Some 2) (Some 0) "C." "t2" 2].
Proof.
  apply (search_results_have_records "x" 5 None Toy.two_docs).
  - exact toy_two_docs_consistent.
  - exact toy_faiss_labels_valid.
  - reflexivity.
Defined.

(** * Further properties of removal, addition and rebuild *)

Section PairFacts.
Context {B : Backend}.

Lemma reconstruct_item (ix : faiss_index vec) (key : Z) (v : vec) :
  reconstruct ix key = Ok v <-> PyList.item (xb ix) key = Some v.
Proof.
  unfold reconstruct. destruct (PyList.item (xb ix) key); split; congruence.
Qed.

(** The vectors that the loop of the removal has collected. *)
Lemma remove_loop_vectors (ix : faiss_index vec) (doc : Z)
    (items : list (Z * Meta.t)) (acc acc' : list vec * PyDict.dict Z Meta.t * Z) :
  remove_loop ix doc items acc = Ok acc' ->
  exists vs,
    fst (fst acc') = fst (fst acc) ++ vs
    /\ Forall2 (fun it v => PyList.item (xb ix) (fst it) = Some v)
               (filter (fun it => negb (Meta.document_id (snd it) =? doc)) items)
               vs.
Proof.
  revert acc. induction items as [|[vid m] items IH]; intros acc; simpl.
  - intros [= <-]. exists []. rewrite app_nil_r. split; [reflexivity | constructor].
  - destruct (negb (Meta.document_id m =? doc)); simpl.
    + destruct acc as [[kv km] n].
      destruct (reconstruct ix vid) as [v|e] eqn:Er; [|discriminate]. simpl.
      intros H. destruct (IH _ H) as (vs & H1 & H2). simpl in H1.
      exists (v :: vs). split.
      * rewrite H1, <- app_assoc. reflexivity.
      * constructor; [now apply reconstruct_item | exact H2].
    + apply IH.
Qed.

Lemma skipn_cons_nth {A : Type} (a : nat) (l r : list A) (x : A) :
  skipn a l = x :: r -> nth_error l a = Some x /\ skipn (S a) l = r.
Proof.
  revert l. induction a as [|a IH]; intros l; simpl.
  - intros ->. auto.
  - destruct l as [|y l]; [discriminate|]. intros H.
    destruct (IH l H) as [H1 H2]. split; [exact H1|].
    destruct l; [now destruct a|]. exact H2.
Qed.

(** Vectors read under the ids of enumerated records pair up with the
    records as the stores do. *)
Lemma kept_pairs (keep : Meta.t -> bool) (full : list vec) :
  forall (vals : list Meta.t) (a : nat) (xs vs : list vec),
    skipn a full = xs -> length xs = length vals ->
    Forall2 (fun it v => PyList.item full (fst it) = Some v)
            (filter (fun it => keep (snd it))
                    (combine (map Z.of_nat (seq a (length vals))) vals))
            vs ->
    combine (filter keep vals) vs
    = filter (fun p => keep (fst p)) (combine vals xs).
Proof.
  induction vals as [|m vals IH]; intros a xs vs Hskip Hlen HF; simpl in *.
  - inversion HF. reflexivity.
  - destruct xs as [|x xs]; [discriminate|].
    destruct (skipn_cons_nth a full xs x Hskip) as [Hnth Hskip'].
    injection Hlen as Hlen. simpl.
    destruct (keep m) eqn:Ek; simpl.
    + inversion HF as [|it v its vs' Hv HF']; subst. simpl in Hv.
      unfold PyList.item in Hv. destruct (Z.of_nat a <? 0) eqn:E;
        [apply Z.ltb_lt in E; lia|].
      rewrite Nat2Z.id, Hnth in Hv. injection Hv as <-.
      f_equal. now apply (IH (S a)).
    + now apply (IH (S a)).
Qed.

Lemma filter_items_values (keep : Meta.t -> bool) (md : PyDict.dict Z Meta.t) :
  map snd (filter (fun it => keep (snd it)) md) = filter keep (map snd md).
Proof.
  induction md as [|[k m] md IH]; simpl; [reflexivity|].
  destruct (keep m); simpl; now rewrite IH.
Qed.

(** The removal on consistent stores, with the vectors it keeps. *)
Lemma remove_document_state (io : save_fault) (doc : Z)
    (self : DocumentIndexer) (ix : faiss_index vec) :
  consistent self -> index self = Some ix ->
  exists vs,
    combine (kept_records doc self) vs
    = filter (fun p => negb (Meta.document_id (fst p) =? doc)) (store_pairs self)
    /\ length vs = length (kept_records doc self)
    /\ remove_document_from_index io doc self
       = (match io with NoFault => true | _ => false end,
          mkIndexer (Some (mkIndex (d ix) vs))
                    (PyList.enumerate (kept_records doc self))
                    (dimension self)).
Proof.
  intros Hc Hix. unfold remove_document_from_index. rewrite Hix.
  destruct (remove_loop_total ix doc (PyDict.items (metadata self)) ([], [], 0)
              (consistent_keys_in_range _ _ Hc Hix)) as ([[kv km] n] & Hloop).
  rewrite Hloop.
  assert (Hspec : km = PyList.enumerate (kept_records doc self)
                  /\ length kv = length (kept_records doc self)).
  { destruct (remove_loop_spec ix doc _ [] kv [] km n Hloop) as [H1 H2].
    split; [exact H1 | exact H2]. }
  destruct Hspec as [Hkm Hlen].
  destruct (remove_loop_vectors ix doc _ _ _ Hloop) as (vs0 & Hkv & HF).
  simpl in Hkv. subst vs0.
  assert (Hd : dimension self = Some (d ix)).
  { unfold consistent in Hc. rewrite Hix in Hc. tauto. }
  exists kv. split; [|split; [exact Hlen|]].
  - unfold store_pairs. rewrite Hix. unfold kept_records, PyDict.values.
    apply (kept_pairs (fun m => negb (Meta.document_id m =? doc)) (xb ix)
                      (map snd (metadata self)) 0 (xb ix) kv).
    + reflexivity.
    + rewrite length_map. symmetry. now apply consistent_sizes.
    + rewrite (consistent_is_enumerate self Hc) in HF at 1.
      unfold PyDict.items, PyList.enumerate, PyDict.values in HF. exact HF.
  - destruct kv as [|v kv].
    + destruct (kept_records doc self); [|discriminate Hlen].
      rewrite Hd. simpl. unfold _save_index. simpl. destruct io; reflexivity.
    + rewrite install_consistent by exact Hd. now rewrite Hkm.
Qed.

End PairFacts.

Section RemoveMore.
Context {B : Backend}.

Lemma combine_inj_r {A C : Type} (l : list A) (a b : list C) :
  length a = length l -> length b = length l ->
  combine l a = combine l b -> a = b.
Proof.
  revert a b. induction l as [|x l IH]; intros a b Ha Hb H.
  - destruct a, b; simpl in *; congruence.
  - destruct a as [|u a], b as [|w b]; simpl in *; try discriminate.
    injection H as -> H. f_equal. apply IH; congruence.
Qed.

Lemma combine_app_eq {A C : Type} (l1 l2 : list A) (a1 a2 : list C) :
  length l1 = length a1 ->
  combine (l1 ++ l2) (a1 ++ a2) = combine l1 a1 ++ combine l2 a2.
Proof.
  revert a1. induction l1 as [|x l1 IH]; intros a1 H.
  - destruct a1; [reflexivity | discriminate].
  - destruct a1 as [|u a1]; [discriminate|]. simpl. f_equal. apply IH.
    simpl in H. congruence.
Qed.

Lemma filter_all {A : Type} (p : A -> bool) (l : list A) :
  Forall (fun x => p x = true) l -> filter p l = l.
Proof.
  induction 1 as [|x l Hx _ IH]; simpl; [reflexivity|]. now rewrite Hx, IH.
Qed.

Lemma filter_none {A : Type} (p : A -> bool) (l : list A) :
  Forall (fun x => p x = false) l -> filter p l = [].
Proof.
  induction 1 as [|x l Hx _ IH]; simpl; [reflexivity|]. now rewrite Hx.
Qed.

Lemma no_records_all_kept (doc : Z) (self : DocumentIndexer) :
  records_of doc self = [] ->
  Forall (fun m => negb (Meta.document_id m =? doc) = true)
         (PyDict.values (metadata self)).
Proof.
  unfold records_of. intros H. apply Forall_forall. intros m Hm.
  destruct (Meta.document_id m =? doc) eqn:E; [|reflexivity].
  assert (In m (filter (fun m0 => Meta.document_id m0 =? doc)
                       (PyDict.values (metadata self))))
    by (apply filter_In; auto).
  rewrite H in H0. destruct H0.
Qed.

Lemma Forall_combine_fst {A C : Type} (P : A -> Prop) (l : list A) (a : list C) :
  Forall P l -> Forall (fun p => P (fst p)) (combine l a).
Proof.
  intros H. revert a. induction H as [|x l Hx _ IH]; intros a; simpl;
    [constructor|]. destruct a; constructor; auto.
Qed.

(** Stores made of the values and vectors of consistent stores are
    those stores. *)
Lemma restore_state (self : DocumentIndexer) (ix : faiss_index vec)
    (vs : list vec) :
  consistent self -> index self = Some ix ->
  length vs = length (PyDict.values (metadata self)) ->
  combine (PyDict.values (metadata self)) vs
  = combine (PyDict.values (metadata self)) (xb ix) ->
  mkIndexer (Some (mkIndex (d ix) vs))
            (PyList.enumerate (PyDict.values (metadata self)))
            (dimension self)
  = self.
Proof.
  intros Hc Hix Hlen Hcomb.
  assert (Hx : length (xb ix) = length (PyDict.values (metadata self))).
  { unfold PyDict.values. rewrite length_map. symmetry.
    now apply consistent_sizes. }
  rewrite (combine_inj_r _ vs (xb ix) Hlen Hx Hcomb).
  rewrite <- (consistent_is_enumerate self Hc).
  destruct self as [i md dim]. simpl in *. subst i. now destruct ix.
Qed.

(** Removing a document that has no record changes nothing. *)
Lemma remove_absent_noop (io : save_fault) (doc : Z) (self : DocumentIndexer) :
  consistent self -> index self <> None -> records_of doc self = [] ->
  snd (remove_document_from_index io doc self) = self.
Proof.
  intros Hc Hix Hnone. destruct (index self) as [ix|] eqn:E; [|congruence].
  destruct (remove_document_state io doc self ix Hc E) as (vs & Hp & Hlen & ->).
  simpl snd.
  assert (Hk : kept_records doc self = PyDict.values (metadata self)).
  { unfold kept_records. apply filter_all. now apply no_records_all_kept. }
  rewrite Hk in *. apply restore_state; try assumption.
  rewrite Hp. unfold store_pairs. rewrite E. apply filter_all.
  apply (Forall_combine_fst (fun m => negb (Meta.document_id m =? doc) = true)).
  now apply no_records_all_kept.
Qed.

Lemma remove_result_consistent (io : save_fault) (doc : Z)
    (self : DocumentIndexer) :
  consistent self -> index self <> None ->
  let self' := snd (remove_document_from_index io doc self) in
  consistent self' /\ index self' <> None /\ records_of doc self' = [].
Proof.
  intros Hc Hix self'. subst self'.
  destruct (index self) as [ix|] eqn:E; [|congruence].
  destruct (remove_document_consistent io doc self ix Hc E) as (vs & Hlen & ->).
  simpl snd. split; [|split].
  - apply consistent_enumerate; [exact Hlen|].
    unfold consistent in Hc. rewrite E in Hc. tauto.
  - discriminate.
  - rewrite records_of_enumerate, records_in_kept. now rewrite Z.eqb_refl.
Qed.

(** X10. On consistent stores a removal keeps, for every record of
    another document, the vector it had: the pairs of record and vector
    after the removal are those of before without the document's, in the
    same order. *)
Theorem remove_keeps_pairs (io : save_fault) (doc : Z)
    (self : DocumentIndexer) :
  consistent self -> index self <> None ->
  store_pairs (snd (remove_document_from_index io doc self))
  = filter (fun p => negb (Meta.document_id (fst p) =? doc)) (store_pairs self).
Proof.
  intros Hc Hix. destruct (index self) as [ix|] eqn:E; [|congruence].
  destruct (remove_document_state io doc self ix Hc E) as (vs & Hp & Hlen & ->).
  unfold store_pairs at 1. simpl. now rewrite values_enumerate.
Qed.

(** X11. On consistent stores with an index, removing a document that
    has no record leaves index, metadata and dimension exactly as they
    were. *)
Theorem remove_absent_document_noop (io : save_fault) (doc : Z)
    (self : DocumentIndexer) :
  consistent self -> index self <> None -> records_of doc self = [] ->
  snd (remove_document_from_index io doc self) = self.
Proof. apply remove_absent_noop. Qed.

(** X12. Removing a document a second time changes nothing: the stores
    after two removals are those after one. *)
Theorem remove_twice (io1 io2 : save_fault) (doc : Z)
    (self : DocumentIndexer) :
  consistent self -> index self <> None ->
  snd (remove_document_from_index io2 doc
         (snd (remove_document_from_index io1 doc self)))
  = snd (remove_document_from_index io1 doc self).
Proof.
  intros Hc Hix.
  destruct (remove_result_consistent io1 doc self Hc Hix) as (H1 & H2 & H3).
  now apply remove_absent_noop.
Qed.

(** X13. On consistent stores with an index, adding a document that has
    no record yet and then removing it gives back the stores as they
    were, whatever the saves do and whether or not the addition went
    through. *)
Theorem add_then_remove (io1 io2 : save_fault) (doc : Z)
    (text title : string) (self : DocumentIndexer) :
  consistent self -> index self <> None -> records_of doc self = [] ->
  encode_one_row_per_text ->
  snd (remove_document_from_index io2 doc
         (snd (add_document_to_index io1 doc text title self)))
  = self.
Proof.
  intros Hc Hix Hnone Henc.
  destruct (add_document_cases io1 doc text title self)
    as [-> | (Hne & emb & ix' & He & Ha)]; [now apply remove_absent_noop|].
  destruct (add_document_consistent io1 doc text title self emb ix'
              Hc Hne He Ha (Henc _ _ He)) as [Hc1 Hv1].
  pose proof (add_document_reaches_save io1 doc text title self emb ix'
                Hne He Ha) as Hst.
  cbv zeta in Hst.
  set (self1 := snd (add_document_to_index io1 doc text title self)) in *.
  destruct (index self) as [ix|] eqn:E; [|congruence].
  assert (Hix1 : index self1 = Some ix'
                 /\ dimension self1 = dimension self).
  { subst self1. rewrite Hst. unfold index_or_new. rewrite E. auto. }
  destruct Hix1 as [Hix1 Hdim1].
  assert (Hix' : ix' = mkIndex (d ix) (xb ix ++ rows emb)).
  { unfold index_or_new in Ha. rewrite E in Ha. simpl in Ha.
    unfold faiss_add in Ha. destruct (_ =? _); [|discriminate].
    now injection Ha as <-. }
  destruct (remove_document_state io2 doc self1 ix' Hc1 Hix1)
    as (vs & Hp & Hlen & ->). simpl snd.
  set (new := new_records doc title (chunk_text text None None)) in *.
  assert (Hold : Forall (fun m => negb (Meta.document_id m =? doc) = true)
                        (PyDict.values (metadata self)))
    by now apply no_records_all_kept.
  assert (Hnew : Forall (fun m => negb (Meta.document_id m =? doc) = false) new).
  { pose proof (new_records_uniform doc title (chunk_text text None None)) as H.
    eapply Forall_impl; [|exact H]. simpl. intros m ->. now rewrite Z.eqb_refl. }
  assert (Hk : kept_records doc self1 = PyDict.values (metadata self)).
  { unfold kept_records. rewrite Hv1, filter_app.
    rewrite (filter_all _ _ Hold), (filter_none _ _ Hnew). apply app_nil_r. }
  assert (Hx : length (PyDict.values (metadata self)) = length (xb ix)).
  { unfold PyDict.values. rewrite length_map. now apply consistent_sizes. }
  rewrite Hk in *. rewrite Hdim1, Hix'. simpl d.
  apply restore_state; try assumption.
  rewrite Hp. unfold store_pairs. rewrite Hix1, Hv1, Hix'. simpl xb.
  rewrite (combine_app_eq _ _ _ _ Hx), filter_app.
  rewrite (filter_all (fun p => negb (Meta.document_id (fst p) =? doc))).
  - rewrite (filter_none (fun p => negb (Meta.document_id (fst p) =? doc)));
      [apply app_nil_r|].
    apply (Forall_combine_fst
             (fun m => negb (Meta.document_id m =? doc) = false)). exact Hnew.
  - apply (Forall_combine_fst
             (fun m => negb (Meta.document_id m =? doc) = true)). exact Hold.
Qed.

End RemoveMore.

Lemma toy_two_docs_index : index Toy.two_docs <> None.
Proof. discriminate. Qed.

Lemma remove_keeps_pairs_witness :
  store_pairs (snd (remove_document_from_index NoFault 1 Toy.two_docs))
  = filter (fun p => negb (Meta.document_id (fst p) =? 1))
           (store_pairs Toy.two_docs).
Proof.
  apply (remove_keeps_pairs NoFault 1 Toy.two_docs).
  - exact toy_two_docs_consistent.
  - exact toy_two_docs_index.
Defined.

Lemma remove_absent_document_noop_witness :
  snd (remove_document_from_index NoFault 7 Toy.two_docs) = Toy.two_docs.
Proof.
  apply (remove_absent_document_noop NoFault 7 Toy.two_docs).
  - exact toy_two_docs_consistent.
  - exact toy_two_docs_index.
  - reflexivity.
Defined.

Lemma remove_twice_witness :
  snd (remove_document_from_index NoFault 1
         (snd (remove_document_from_index NoFault 1 Toy.two_docs)))
  = snd (remove_document_from_index NoFault 1 Toy.two_docs).
Proof.
  apply (remove_twice NoFault NoFault 1 Toy.two_docs).
  - exact toy_two_docs_consistent.
  - exact toy_two_docs_index.
Defined.

Lemma add_then_remove_witness :
  snd (remove_document_from_index NoFault 3
         (snd (add_document_to_index NoFault 3 "D. E." "t3" Toy.two_docs)))
  = Toy.two_docs.
Proof.
  apply (add_then_remove NoFault NoFault 3 "D. E." "t3" Toy.two_docs).
  - exact toy_two_docs_consistent.
  - exact toy_two_docs_index.
  - reflexivity.
  - exact toy_encode_one_row_per_text.
Defined.

Section AddStatsMore.
Context {B : Backend}.

Lemma consistent_index_size (self : DocumentIndexer) :
  consistent self -> index_size self = Z.of_nat (length (metadata self)).
Proof.
  intros Hc. unfold index_size. destruct (index self) as [ix|] eqn:E.
  - unfold ntotal. now rewrite (consistent_sizes self ix Hc E).
  - unfold consistent in Hc. rewrite E in Hc. now rewrite Hc.
Qed.

(** X14. On consistent stores, with the model giving one row for each
    text, an addition that returns adds one vector for each chunk and
    puts the records of the chunks -- document id, position, text, title
    and length of the text -- after the records the document had; the
    records of the other documents stay as they are. *)
Theorem add_document_effect (io : save_fault) (doc : Z)
    (text title : string) (self self' : DocumentIndexer) (ids : list Z) :
  consistent self -> encode_one_row_per_text ->
  add_document_to_index io doc text title self = (Ok ids, self') ->
  index_size self'
  = index_size self + Z.of_nat (length (chunk_text text None None))
  /\ forall doc',
       records_of doc' self'
       = records_of doc' self
         ++ (if doc' =? doc
             then new_records doc title (chunk_text text None None)
             else []).
Proof.
  intros Hc Henc H.
  destruct (add_document_ok_inv _ _ _ _ _ _ _ H)
    as [(Hch & _ & ->) | (Hne & _ & emb & ix' & He & Ha)].
  - rewrite Hch. simpl. split; [lia|]. intros doc'. unfold new_records. simpl.
    destruct (doc' =? doc); now rewrite app_nil_r.
  - destruct (add_document_consistent io doc text title self emb ix'
                Hc Hne He Ha (Henc _ _ He)) as [Hc' Hv].
    rewrite H in Hc', Hv. simpl in Hc', Hv. split.
    + rewrite !consistent_index_size by assumption.
      rewrite <- !(length_map snd). fold (PyDict.values (metadata self')).
      fold (PyDict.values (metadata self)).
      rewrite Hv, length_app, length_new_records. lia.
    + intros doc'. unfold records_of. rewrite Hv, filter_app. f_equal.
      fold (records_in doc' (new_records doc title (chunk_text text None None))).
      destruct (doc' =? doc) eqn:E.
      * apply Z.eqb_eq in E. subst doc'. apply records_in_all.
        apply new_records_uniform.
      * apply Z.eqb_neq in E.
        apply (records_in_none doc' doc); [apply new_records_uniform | congruence].
Qed.

Lemma count_unique_nodup (l : list Z) :
  count_unique l = Z.of_nat (length (nodup Z.eq_dec l)).
Proof.
  induction l as [|x l IH]; [reflexivity|]. cbn [count_unique nodup].
  destruct (in_dec Z.eq_dec x l) as [Hin | Hin].
  - assert (E : existsb (Z.eqb x) l = true).
    { apply existsb_exists. exists x. split; [exact Hin | apply Z.eqb_refl]. }
    now rewrite E.
  - assert (E : existsb (Z.eqb x) l = false).
    { destruct (existsb (Z.eqb x) l) eqn:E; [|reflexivity].
      apply existsb_exists in E. destruct E as (y & Hy & Ey).
      apply Z.eqb_eq in Ey. subst y. tauto. }
    rewrite E, IH. cbn [length]. lia.
Qed.

Lemma documents_of_count (vals : list Meta.t) :
  count_unique (map Meta.document_id vals)
  = Z.of_nat (length (documents_of vals)).
Proof.
  rewrite count_unique_nodup. f_equal. apply Nat.le_antisymm.
  - apply NoDup_incl_length; [apply NoDup_nodup|].
    intros x Hx. apply nodup_In in Hx. apply in_map_iff in Hx.
    destruct Hx as (m & <- & Hm). apply documents_of_in. now exists m.
  - apply NoDup_incl_length; [apply documents_of_nodup|].
    intros x Hx. apply nodup_In. apply documents_of_in in Hx.
    destruct Hx as (m & Hm & <-). now apply in_map.
Qed.

(** X15. With an index, [documents_count] of the statistics is the
    number of documents that have at least one record, and on consistent
    stores [total_vectors] is the number of records. *)
Theorem stats_counts (size : option Z) (self : DocumentIndexer) :
  index self <> None ->
  (exists docs,
      NoDup docs
      /\ (forall doc, In doc docs <-> records_of doc self <> [])
      /\ Stats.documents_count (get_index_stats size self)
         = Z.of_nat (length docs))
  /\ (consistent self ->
      Stats.total_vectors (get_index_stats size self)
      = Z.of_nat (length (metadata self))).
Proof.
  intros Hix. split.
  - exists (documents_of (PyDict.values (metadata self))).
    split; [apply documents_of_nodup|]. split.
    + intros doc. rewrite documents_of_in. unfold records_of. split.
      * intros (m & Hm & Hd) E.
        assert (Hin : In m (filter (fun m0 => Meta.document_id m0 =? doc)
                                   (PyDict.values (metadata self)))).
        { apply filter_In. split; [exact Hm | now apply Z.eqb_eq]. }
        rewrite E in Hin. destruct Hin.
      * intros Hne. destruct (filter _ _) as [|m l] eqn:E; [congruence|].
        assert (Hin : In m (filter (fun m0 => Meta.document_id m0 =? doc)
                                   (PyDict.values (metadata self))))
          by (rewrite E; now left).
        apply filter_In in Hin. exists m. split; [tauto|].
        now apply Z.eqb_eq.
    + unfold get_index_stats. destruct (index self); [|congruence]. simpl.
      apply documents_of_count.
  - intros Hc. rewrite <- (consistent_index_size self Hc).
    unfold get_index_stats, index_size. destruct (index self); [|congruence].
    reflexivity.
Qed.

End AddStatsMore.

Lemma add_document_effect_witness :
  index_size (snd (add_document_to_index NoFault 3 "D. E." "t3" Toy.two_docs))
  = index_size Toy.two_docs + Z.of_nat (length (chunk_text "D. E." None None))
  /\ forall doc',
       records_of doc'
         (snd (add_document_to_index NoFault 3 "D. E." "t3" Toy.two_docs))
       = records_of doc' Toy.two_docs
         ++ (if doc' =? 3
             then new_records 3 "t3" (chunk_text "D. E." None None)
             else []).
Proof.
  apply (add_document_effect NoFault 3 "D. E." "t3" Toy.two_docs
           (snd (add_document_to_index NoFault 3 "D. E." "t3" Toy.two_docs))
           [2]).
  - exact toy_two_docs_consistent.
  - exact toy_encode_one_row_per_text.
  - reflexivity.
Defined.

Lemma stats_counts_witness :
  Stats.total_vectors (get_index_stats None Toy.two_docs)
  = Z.of_nat (length (metadata Toy.two_docs)).
Proof.
  apply (proj2 (stats_counts None Toy.two_docs toy_two_docs_index)).
  exact toy_two_docs_consistent.
Defined.

Section RebuildMore.
Context {B : Backend}.

Lemma Meta_eqb_eq (a b : Meta.t) : Meta.eqb a b = true -> a = b.
Proof.
  destruct a, b. unfold Meta.eqb. simpl. intros H.
  apply andb_true_iff in H. destruct H as [H H5].
  apply andb_true_iff in H. destruct H as [H H4].
  apply andb_true_iff in H. destruct H as [H H3].
  apply andb_true_iff in H. destruct H as [H1 H2].
  apply Z.eqb_eq in H1, H2, H5. apply String.eqb_eq in H3, H4. congruence.
Qed.

(** The vector that a rebuild takes for a record: the one stored under
    the first id whose record equals it. *)
Lemma rebuild_chunks_vectors (ix : faiss_index vec) (md : PyDict.dict Z Meta.t)
    (cs : list Meta.t) (acc acc' : list vec * PyDict.dict Z Meta.t * Z) :
  Forall (fun c => In c (PyDict.values md)) cs ->
  rebuild_chunks ix md cs acc = Ok acc' ->
  exists vs,
    fst (fst acc') = fst (fst acc) ++ vs
    /\ Forall2 (fun c v => exists vid, find_vector_id md c = Some vid
                                      /\ PyList.item (xb ix) vid = Some v)
               cs vs.
Proof.
  intros Hcs. revert acc. induction Hcs as [|c cs Hc _ IH]; intros acc; simpl.
  - intros [= <-]. exists []. rewrite app_nil_r. split; [reflexivity | constructor].
  - destruct (find_vector_id_in md c Hc) as (vid & Hf & _). rewrite Hf.
    destruct acc as [[vs0 m0] n0].
    destruct (reconstruct ix vid) as [v|e] eqn:Er; [|discriminate]. simpl.
    intros H. destruct (IH _ H) as (vs & H1 & H2). simpl in H1.
    exists (v :: vs). split.
    + rewrite H1, <- app_assoc. reflexivity.
    + constructor; [|exact H2]. exists vid. split; [exact Hf|].
      now apply reconstruct_item.
Qed.

Lemma rebuild_documents_vectors (ix : faiss_index vec)
    (md : PyDict.dict Z Meta.t) (groups : list (Z * list Meta.t))
    (acc acc' : list vec * PyDict.dict Z Meta.t * Z) :
  Forall (fun g => Forall (fun c => In c (PyDict.values md)) (snd g)) groups ->
  rebuild_documents ix md groups acc = Ok acc' ->
  exists vs,
    fst (fst acc') = fst (fst acc) ++ vs
    /\ Forall2 (fun c v => exists vid, find_vector_id md c = Some vid
                                      /\ PyList.item (xb ix) vid = Some v)
               (concat (map (fun g => sort_by_chunk_index (snd g)) groups)) vs.
Proof.
  intros Hg. revert acc. induction Hg as [|[doc cs] groups Hcs _ IH];
    intros acc; simpl.
  - intros [= <-]. exists []. rewrite app_nil_r. split; [reflexivity | constructor].
  - destruct (rebuild_chunks ix md (sort_by_chunk_index cs) acc)
      as [acc1|e] eqn:Ec; [|discriminate]. simpl.
    assert (Hs : Forall (fun c => In c (PyDict.values md)) (sort_by_chunk_index cs))
      by (apply Forall_sort; exact Hcs).
    destruct (rebuild_chunks_vectors _ _ _ _ _ Hs Ec) as (vs1 & H1 & F1).
    intros H. destruct (IH _ H) as (vs2 & H2 & F2).
    exists (vs1 ++ vs2). split.
    + rewrite H2, H1, <- app_assoc. reflexivity.
    + now apply Forall2_app.
Qed.

Lemma nth_error_combine {A C : Type} (l : list A) (l' : list C) (i : nat)
    (a : A) (c : C) :
  nth_error l i = Some a -> nth_error l' i = Some c -> In (a, c) (combine l l').
Proof.
  revert l l'. induction i as [|i IH]; intros [|x l] [|y l']; simpl;
    try discriminate.
  - intros [= ->] [= ->]. now left.
  - intros H1 H2. right. now apply IH.
Qed.

Lemma in_enumerate_nth {A : Type} (l : list A) (k : Z) (a : A) :
  In (k, a) (PyList.enumerate l) ->
  0 <= k /\ nth_error l (Z.to_nat k) = Some a.
Proof.
  unfold PyList.enumerate.
  assert (H : forall n, In (k, a) (combine (map Z.of_nat (seq n (length l))) l) ->
                        Z.of_nat n <= k
                        /\ nth_error l (Z.to_nat k - n) = Some a).
  { induction l as [|x l IH]; intros n; simpl; [tauto|].
    intros [[= <- <-] | Hin].
    - split; [lia|]. rewrite Nat2Z.id, Nat.sub_diag. reflexivity.
    - destruct (IH (S n) Hin) as [H1 H2]. split; [lia|].
      replace (Z.to_nat k - n)%nat with (S (Z.to_nat k - S n)) by lia.
      exact H2. }
  intros Hin. destruct (H 0%nat Hin) as [H1 H2].
  rewrite Nat.sub_0_r in H2. split; [lia | exact H2].
Qed.

(** On consistent stores the vector a rebuild takes for a record is
    paired with that record in the stores. *)
Lemma found_vector_is_paired (self : DocumentIndexer) (ix : faiss_index vec)
    (c : Meta.t) (vid : Z) (v : vec) :
  consistent self -> index self = Some ix ->
  find_vector_id (metadata self) c = Some vid ->
  PyList.item (xb ix) vid = Some v ->
  In (c, v) (store_pairs self).
Proof.
  intros Hc Hix Hf Hv. unfold store_pairs. rewrite Hix.
  unfold find_vector_id, PyDict.items in Hf.
  destruct (find _ (metadata self)) as [[vid' m']|] eqn:E; [|discriminate].
  injection Hf as ->. apply find_some in E. destruct E as [Hin Heq].
  simpl in Heq. apply Meta_eqb_eq in Heq. subst m'.
  rewrite (consistent_is_enumerate self Hc) in Hin.
  apply in_enumerate_nth in Hin. destruct Hin as [H0 Hn].
  unfold PyList.item in Hv. destruct (vid <? 0) eqn:El;
    [apply Z.ltb_lt in El; lia|].
  now apply (nth_error_combine _ _ (Z.to_nat vid)).
Qed.

Lemma rebuild_index_unfold (io : save_fault) (self : DocumentIndexer) :
  metadata self <> [] ->
  rebuild_index io self
  = match index self with
    | None => (false, self)
    | Some ix =>
      match rebuild_documents ix (metadata self)
              (PyDict.items (group_by_document (metadata self))) ([], [], 0) with
      | Raise _ => (false, self)
      | Ok (all_vectors, new_metadata, _) =>
        match all_vectors with
        | [] => (false, self)
        | _ => install io self ix all_vectors new_metadata
        end
      end
    end.
Proof.
  intros Hne. unfold rebuild_index.
  destruct (metadata self) eqn:E; [congruence | reflexivity].
Qed.

(** A rebuild of consistent stores that hold records. *)
Lemma rebuild_index_state (self : DocumentIndexer) (ix : faiss_index vec) :
  consistent self -> index self = Some ix -> metadata self <> [] ->
  exists vs,
    length vs = length (regroup (PyDict.values (metadata self)))
    /\ Forall2 (fun c v => In (c, v) (store_pairs self))
               (regroup (PyDict.values (metadata self))) vs
    /\ forall io,
         rebuild_index io self
         = (match io with NoFault => true | _ => false end,
            mkIndexer (Some (mkIndex (d ix) vs))
              (PyList.enumerate (regroup (PyDict.values (metadata self))))
              (dimension self)).
Proof.
  intros Hc Hix Hne.
  assert (Hk : Forall (fun k => 0 <= k < ntotal ix) (PyDict.keys (metadata self))).
  { unfold consistent in Hc. rewrite Hix in Hc. destruct Hc as [_ ->].
    apply Forall_forall. intros k. apply keys_in_range. }
  destruct (rebuild_documents_total ix (metadata self)
              (PyDict.items (group_by_document (metadata self))) ([], [], 0)
              Hk (groups_in_store (metadata self))) as ([[vs md'] n'] & Hloop).
  destruct (rebuild_documents_spec ix (metadata self) _ [] vs [] md' n'
              (groups_in_store (metadata self)) Hloop) as (Hmd & Hlen & _).
  destruct (rebuild_documents_vectors ix (metadata self) _ _ _
              (groups_in_store (metadata self)) Hloop) as (vs0 & Hvs & HF).
  simpl in Hvs. subst vs0.
  rewrite groups_regroup in Hmd, Hlen, HF. simpl in Hmd, Hlen.
  assert (Hd : dimension self = Some (d ix)).
  { unfold consistent in Hc. rewrite Hix in Hc. tauto. }
  exists vs. split; [exact Hlen|]. split.
  - eapply Forall2_impl; [|exact HF]. intros c v (vid & Hf & Hv).
    now apply (found_vector_is_paired self ix c vid v).
  - intros io. rewrite (rebuild_index_unfold io self Hne), Hix, Hloop.
    destruct vs as [|v vs].
    + exfalso. rewrite length_regroup in Hlen. unfold PyDict.values in Hlen.
      rewrite length_map in Hlen. destruct (metadata self); [congruence | discriminate].
    + rewrite install_consistent by exact Hd. now rewrite Hmd.
Qed.

Lemma Forall2_In_l {A C : Type} (R S : A -> C -> Prop) (l : list A) (vs : list C) :
  (forall a c, In a l -> R a c -> S a c) -> Forall2 R l vs -> Forall2 S l vs.
Proof.
  intros H F. induction F as [|a c l vs Hac F IH]; constructor.
  - apply H; [now left | exact Hac].
  - apply IH. intros a' c' Ha'. apply H. now right.
Qed.

(** Without equal records, vectors paired with the records one by one
    are the stored vectors. *)
Lemma paired_vectors_unique {A C : Type} (l : list A) (xs vs : list C) :
  NoDup l -> length xs = length l ->
  Forall2 (fun a v => In (a, v) (combine l xs)) l vs -> vs = xs.
Proof.
  intros Hnd. revert xs vs. induction Hnd as [|a l Ha Hnd IH]; intros xs vs Hlen HF.
  - inversion HF. destruct xs; [reflexivity | discriminate].
  - destruct xs as [|x xs]; [discriminate|]. simpl in *.
    inversion HF as [|? v ? vs' Hv HF']; subst. f_equal.
    + destruct Hv as [[= ->] | Hin]; [reflexivity|].
      apply in_combine_l in Hin. tauto.
    + apply IH; [congruence|].
      eapply Forall2_In_l; [|exact HF']. intros a' c' Ha' [[= -> ->] | Hin];
        [tauto | exact Hin].
Qed.

(** X16. On consistent stores that hold records, and when the save does
    not fail, [rebuild_index] returns [True]; whatever the save does, it
    keeps the number of vectors, gives each document its records sorted
    by [chunk_index], and pairs every record with a vector that was
    paired with that record before. *)
Theorem rebuild_consistent_store (io : save_fault) (self : DocumentIndexer) :
  consistent self -> index self <> None -> metadata self <> [] ->
  let self' := snd (rebuild_index io self) in
  fst (rebuild_index NoFault self) = true
  /\ index_size self' = index_size self
  /\ (forall doc,
        records_of doc self' = sort_by_chunk_index (records_of doc self))
  /\ incl (store_pairs self') (store_pairs self).
Proof.
  intros Hc Hix Hne self'. subst self'.
  destruct (index self) as [ix|] eqn:E; [|congruence].
  destruct (rebuild_index_state self ix Hc E Hne) as (vs & Hlen & HF & Hres).
  rewrite (Hres NoFault), (Hres io). simpl fst. simpl snd.
  split; [reflexivity|]. split; [|split].
  - unfold index_size at 1. simpl. unfold ntotal. simpl.
    rewrite Hlen, length_regroup, (consistent_index_size self Hc).
    unfold PyDict.values. now rewrite length_map.
  - intros doc. rewrite records_of_enumerate. apply records_in_regroup.
  - unfold store_pairs at 1. simpl. rewrite values_enumerate.
    intros [c v] Hin. clear - HF Hin.
    induction HF as [|a b l vs' Hab HF IH]; simpl in Hin; [destruct Hin|].
    destruct Hin as [[= -> ->] | Hin]; [exact Hab | now apply IH].
Qed.

(** X17. On consistent stores whose records are all different and
    already stand document after document, each document's in the order
    of [chunk_index], [rebuild_index] leaves index, metadata and
    dimension exactly as they were. *)
Theorem rebuild_of_ordered_store (io : save_fault) (self : DocumentIndexer) :
  consistent self ->
  NoDup (PyDict.values (metadata self)) ->
  regroup (PyDict.values (metadata self)) = PyDict.values (metadata self) ->
  snd (rebuild_index io self) = self.
Proof.
  intros Hc Hnd Hre.
  destruct (metadata self) as [|it md0] eqn:Emd.
  { unfold rebuild_index. now rewrite Emd. }
  rewrite <- Emd in *.
  assert (Hne : metadata self <> []) by (rewrite Emd; discriminate).
  destruct (index self) as [ix|] eqn:E.
  2:{ unfold rebuild_index. rewrite Emd, E. reflexivity. }
  destruct (rebuild_index_state self ix Hc E Hne) as (vs & Hlen & HF & Hres).
  rewrite (Hres io). simpl snd. rewrite Hre in *.
  assert (Hx : length (xb ix) = length (PyDict.values (metadata self))).
  { unfold PyDict.values. rewrite length_map. symmetry.
    now apply consistent_sizes. }
  assert (Hvs : vs = xb ix).
  { apply (paired_vectors_unique (PyDict.values (metadata self))); try assumption.
    unfold store_pairs in HF. now rewrite E in HF. }
  subst vs. apply restore_state; try assumption; reflexivity.
Qed.

End RebuildMore.

Lemma rebuild_consistent_store_witness :
  fst (rebuild_index NoFault Toy.two_docs) = true
  /\ index_size (snd (rebuild_index NoFault Toy.two_docs))
     = index_size Toy.two_docs
  /\ (forall doc,
        records_of doc (snd (rebuild_index NoFault Toy.two_docs))
        = sort_by_chunk_index (records_of doc Toy.two_docs))
  /\ incl (store_pairs (snd (rebuild_index NoFault Toy.two_docs)))
          (store_pairs Toy.two_docs).
Proof.
  apply (rebuild_consistent_store NoFault Toy.two_docs).
  - exact toy_two_docs_consistent.
  - exact toy_two_docs_index.
  - discriminate.
Defined.

Lemma rebuild_of_ordered_store_witness :
  snd (rebuild_index NoFault Toy.two_docs) = Toy.two_docs.
Proof.
  apply (rebuild_of_ordered_store NoFault Toy.two_docs).
  - exact toy_two_docs_consistent.
  - repeat constructor; simpl; intuition discriminate.
  - reflexivity.
Defined.

(** * Further properties of the search engine *)

Section ListMore.
Context {A : Type}.

Lemma insert_perm (before : A -> A -> bool) (x : A) (l : list A) :
  Permutation (PyList.insert before x l) (x :: l).
Proof.
  induction l as [|y l IH]; simpl; [reflexivity|].
  destruct (before x y); [reflexivity|].
  rewrite IH. apply perm_swap.
Qed.

Lemma sort_perm (before : A -> A -> bool) (l : list A) :
  Permutation (PyList.sort before l) l.
Proof.
  induction l as [|x l IH]; simpl; [reflexivity|].
  rewrite insert_perm. now constructor.
Qed.

Lemma slice_to_firstn (n : Z) (l : list A) :
  exists k, PyList.slice_to n l = firstn k l
            /\ (0 <= n -> k = Z.to_nat n).
Proof.
  unfold PyList.slice_to. destruct (n <? 0) eqn:E.
  - eexists. split; [reflexivity|]. apply Z.ltb_lt in E. lia.
  - eexists. split; reflexivity.
Qed.

Lemma NoDup_firstn_map {C : Type} (f : A -> C) (k : nat) (l : list A) :
  NoDup (map f l) -> NoDup (map f (firstn k l)).
Proof.
  revert l. induction k as [|k IH]; intros l H; simpl; [constructor|].
  destruct l as [|x l]; simpl in *; [constructor|].
  inversion H as [|? ? Hx Hl]; subst. constructor; [|now apply IH].
  intros Hin. apply Hx. apply in_map_iff in Hin.
  destruct Hin as (y & <- & Hy). apply in_map. now apply in_firstn in Hy.
Qed.

Lemma chain_firstn (R : A -> A -> Prop) (k : nat) (l : list A) :
  chain R l -> chain R (firstn k l).
Proof.
  revert l. induction k as [|k IH]; intros l H; simpl; [exact I|].
  destruct l as [|x l]; simpl in *; [exact I|].
  destruct H as [H1 H2]. split; [|now apply IH].
  destruct l as [|y l]; [now destruct k|]. destruct k; simpl; [exact I | exact H1].
Qed.

Lemma chain_head (R : A -> A -> Prop) (x : A) (l : list A) :
  (forall a b c, R a b -> R b c -> R a c) ->
  chain R (x :: l) -> Forall (R x) l.
Proof.
  intros Ht. revert x. induction l as [|y l IH]; intros x H; [constructor|].
  destruct H as [Hxy Hl]. constructor; [exact Hxy|].
  eapply Forall_impl; [|apply (IH y Hl)]. intros a. now apply Ht.
Qed.

Lemma chain_filter (R : A -> A -> Prop) (p : A -> bool) (l : list A) :
  (forall a b c, R a b -> R b c -> R a c) ->
  chain R l -> chain R (filter p l).
Proof.
  intros Ht. induction l as [|x l IH]; intros H; simpl; [exact I|].
  pose proof (chain_head R x l Ht H) as Hx. destruct H as [_ Hl].
  specialize (IH Hl). destruct (p x); [|exact IH]. simpl. split; [|exact IH].
  destruct (filter p l) as [|y r] eqn:E; [exact I|].
  assert (Hy : In y (filter p l)) by (rewrite E; now left).
  apply filter_In in Hy. rewrite Forall_forall in Hx. apply Hx. tauto.
Qed.

Lemma chain_map {C : Type} (R : C -> C -> Prop) (f : A -> C) (l : list A) :
  chain (fun a b => R (f a) (f b)) l <-> chain R (map f l).
Proof.
  induction l as [|x l IH]; simpl; [tauto|].
  rewrite IH. destruct l; simpl; tauto.
Qed.

Lemma length_firstn_le (k : nat) (l : list A) : (length (firstn k l) <= k)%nat.
Proof. rewrite length_firstn. lia. Qed.

End ListMore.

Section KeyDict.
Context {K V : Type}.
Variable eqb : K -> K -> bool.
Hypothesis eqb_spec : forall a b, eqb a b = true <-> a = b.

Lemma dict_set_entries (m : PyDict.dict K V) (k : K) (v : V) (e : K * V) :
  In e (PyDict.set eqb m k v) -> In e m \/ e = (k, v).
Proof.
  induction m as [|[k' v'] m IH]; simpl; [intuition congruence|].
  destruct (eqb k' k) eqn:E; simpl.
  - apply eqb_spec in E. subst k'. intuition congruence.
  - intros [H | H]; [auto | destruct (IH H); auto].
Qed.

Lemma dict_set_keys (m : PyDict.dict K V) (k : K) (v : V) :
  PyDict.keys (PyDict.set eqb m k v) = PyDict.keys m
  \/ (~ In k (PyDict.keys m)
      /\ PyDict.keys (PyDict.set eqb m k v) = PyDict.keys m ++ [k]).
Proof.
  unfold PyDict.keys. induction m as [|[k' v'] m IH]; simpl.
  - right. auto.
  - destruct (eqb k' k) eqn:E; simpl; [now left|].
    destruct IH as [IH | [Hn IH]].
    + left. now rewrite IH.
    + right. split; [|now rewrite IH]. intros [-> | H]; [|tauto].
      assert (eqb k k = true) by now apply eqb_spec. congruence.
Qed.

Lemma dict_set_nodup (m : PyDict.dict K V) (k : K) (v : V) :
  NoDup (PyDict.keys m) -> NoDup (PyDict.keys (PyDict.set eqb m k v)).
Proof.
  intros H. destruct (dict_set_keys m k v) as [-> | [Hn ->]]; [exact H|].
  apply NoDup_app; [exact H | repeat constructor; intros [] |].
  intros x Hx [<- | []]. tauto.
Qed.

End KeyDict.

Lemma option_Z_eqb_spec (a b : option Z) : option_Z_eqb a b = true <-> a = b.
Proof.
  destruct a as [x|], b as [y|]; simpl; split; try congruence.
  - intros H. apply Z.eqb_eq in H. congruence.
  - intros [= ->]. apply Z.eqb_refl.
Qed.

Section SimilarFacts.
Context {B : Backend}.

Lemma dict_get_in (m : PyDict.dict (option Z) DocScore.t) (k : option Z)
    (v : DocScore.t) :
  PyDict.get option_Z_eqb m k = Some v -> In (k, v) m.
Proof.
  induction m as [|[k' v'] m IH]; simpl; [discriminate|].
  destruct (option_Z_eqb k' k) eqn:E.
  - apply option_Z_eqb_spec in E. intros [= ->]. left. now subst.
  - intros H. right. now apply IH.
Qed.

Lemma score_chunk_ok (doc : Z) (doc_scores : PyDict.dict (option Z) DocScore.t)
    (chunk : Hit.t) :
  doc_scores_ok doc doc_scores ->
  doc_scores_ok doc (score_chunk doc doc_scores chunk).
Proof.
  intros [Hnd Hall]. unfold score_chunk.
  destruct (option_Z_eqb (Hit.document_id chunk) (Some doc)) eqn:E;
    [now split|].
  assert (Hne : Hit.document_id chunk <> Some doc).
  { intros C. apply option_Z_eqb_spec in C. congruence. }
  destruct (PyDict.get option_Z_eqb doc_scores (Hit.document_id chunk))
    as [s|] eqn:Eg.
  - split; [apply (dict_set_nodup _ option_Z_eqb_spec); exact Hnd|].
    apply Forall_forall. intros e He.
    destruct (dict_set_entries _ option_Z_eqb_spec _ _ _ _ He) as [H | ->].
    + rewrite Forall_forall in Hall. now apply Hall.
    + simpl. apply dict_get_in in Eg. rewrite Forall_forall in Hall.
      destruct (Hall _ Eg) as (_ & H2 & H3). simpl in *. repeat split; auto. lia.
  - split; [apply (dict_set_nodup _ option_Z_eqb_spec); exact Hnd|].
    apply Forall_forall. intros e He.
    destruct (dict_set_entries _ option_Z_eqb_spec _ _ _ _ He) as [H | ->].
    + rewrite Forall_forall in Hall. now apply Hall.
    + simpl. repeat split; auto. lia.
Qed.

Lemma score_chunks_ok (doc : Z) (chunks : list Hit.t)
    (doc_scores : PyDict.dict (option Z) DocScore.t) :
  doc_scores_ok doc doc_scores ->
  doc_scores_ok doc (fold_left (score_chunk doc) chunks doc_scores).
Proof.
  revert doc_scores. induction chunks as [|c chunks IH]; intros ds H; simpl;
    [exact H|]. apply IH. now apply score_chunk_ok.
Qed.

Lemma doc_scores_values (doc : Z)
    (doc_scores : PyDict.dict (option Z) DocScore.t) :
  doc_scores_ok doc doc_scores ->
  map DocScore.document_id (PyDict.values doc_scores) = PyDict.keys doc_scores.
Proof.
  intros [_ Hall]. unfold PyDict.values, PyDict.keys.
  induction Hall as [|[k v] m (_ & H & _) _ IH]; simpl; [reflexivity|].
  simpl in H. now rewrite H, IH.
Qed.

(** X18. The documents that [find_similar_documents] returns never
    include the document asked about; no document comes twice; each
    counts at least one chunk; they are in descending order of average
    score; and there are at most [top_k] of them when [top_k] is not
    negative. *)
Theorem find_similar_documents_results (doc top_k : Z)
    (self : DocumentIndexer) :
  let res := find_similar_documents doc top_k self in
  Forall (fun r => DocScore.document_id r <> Some doc
                   /\ 1 <= DocScore.chunk_count r) res
  /\ NoDup (map DocScore.document_id res)
  /\ chain (fun x y => (DocScore.avg_score y <= DocScore.avg_score x)%Q) res
  /\ (0 <= top_k -> Z.of_nat (length res) <= top_k).
Proof.
  intros res. subst res.
  unfold find_similar_documents, find_similar_documents_try.
  destruct (map _ (filter _ (PyDict.items (metadata self)))) as [|t ts];
    [simpl; repeat split; (constructor || lia)|].
  destruct (search_similar_chunks _ _ None self) as [hits|e];
    [|simpl; repeat split; (constructor || lia)].
  simpl bind. unfold except_return_empty.
  set (ds := fold_left (score_chunk doc) hits []).
  assert (Hok : doc_scores_ok doc ds).
  { apply score_chunks_ok. split; constructor. }
  set (sorted := PyList.sort
                   (fun x y => Qle_bool (DocScore.avg_score y) (DocScore.avg_score x))
                   (PyDict.values ds)).
  destruct (slice_to_firstn top_k sorted) as (k & -> & Hk).
  assert (Hperm : Permutation sorted (PyDict.values ds)) by apply sort_perm.
  split; [|split; [|split]].
  - apply Forall_forall. intros r Hr. apply in_firstn in Hr.
    apply (Permutation_in _ Hperm) in Hr. unfold PyDict.values in Hr.
    apply in_map_iff in Hr. destruct Hr as ([key v] & <- & Hin).
    destruct Hok as [_ Hall]. rewrite Forall_forall in Hall.
    destruct (Hall _ Hin) as (H1 & H2 & H3). simpl in *. split; congruence.
  - apply NoDup_firstn_map.
    apply (Permutation_NoDup (l := map DocScore.document_id (PyDict.values ds))).
    + apply Permutation_map. now symmetry.
    + rewrite (doc_scores_values doc ds Hok). apply Hok.
  - apply chain_firstn. eapply chain_impl; [|apply sort_chain].
    + intros x y Hxy. now apply Qle_bool_iff.
    + intros x y. apply Qle_bool_total.
  - intros H0. rewrite (Hk H0). pose proof (length_firstn_le (Z.to_nat top_k) sorted).
    lia.
Qed.

(** X19. Every context that [find_relevant_context] returns has a score
    above 0.3 and carries the label of [_explain_relevance] for the
    question and its text; the contexts are in descending order of
    score, at most [max_chunks] when [max_chunks] is not negative, and
    each is a result of the search for the question with twice
    [max_chunks] and the same filter. *)
Theorem find_relevant_context_results (q : string) (ids : option (list Z))
    (k : Z) (self : DocumentIndexer) :
  let res := find_relevant_context q ids k self in
  Forall (fun c => (3 # 10 < Hit.score (Context.hit c))%Q
                   /\ Context.relevance_reason c
                      = explain_relevance q (Hit.text (Context.hit c))) res
  /\ chain (fun x y => (Hit.score y <= Hit.score x)%Q) (map Context.hit res)
  /\ (0 <= k -> Z.of_nat (length res) <= k)
  /\ (forall hits,
        search_similar_chunks q (k * 2) ids self = Ok hits ->
        incl (map Context.hit res) hits).
Proof.
  intros res. subst res.
  unfold find_relevant_context, find_relevant_context_try.
  destruct (search_similar_chunks q (k * 2) ids self) as [hits|e] eqn:Es.
  2:{ simpl. repeat split; try constructor; try lia.
      intros hits H. discriminate. }
  simpl bind. unfold except_return_empty.
  set (p := fun chunk : Hit.t => negb (Qle_bool (Hit.score chunk) (3 # 10))).
  destruct (slice_to_firstn k (filter p hits)) as (n & -> & Hn).
  rewrite map_map. simpl. rewrite map_id.
  split; [|split; [|split]].
  - apply Forall_forall. intros c Hc. apply in_map_iff in Hc.
    destruct Hc as (h & <- & Hh). simpl. split; [|reflexivity].
    apply in_firstn, filter_In in Hh. destruct Hh as [_ Hp]. unfold p in Hp.
    apply negb_true_iff in Hp. apply Qnot_le_lt. intros C.
    apply Qle_bool_iff in C. congruence.
  - apply chain_firstn, chain_filter.
    + intros a b c H1 H2. now apply (Qle_trans _ (Hit.score b)).
    + now apply (search_sorted_chain q (k * 2) ids self).
  - intros H0. rewrite length_map, (Hn H0).
    pose proof (length_firstn_le (Z.to_nat k) (filter p hits)). lia.
  - intros hits' [= <-] h Hh. apply in_firstn, filter_In in Hh. tauto.
Qed.

End SimilarFacts.

Section SummaryContext.
Context {B : Backend}.

Lemma insert_map {A C : Type} (f : A -> C) (before : A -> A -> bool)
    (before' : C -> C -> bool) (x : A) (l : list A) :
  (forall a b, before' (f a) (f b) = before a b) ->
  PyList.insert before' (f x) (map f l) = map f (PyList.insert before x l).
Proof.
  intros H. induction l as [|y l IH]; simpl; [reflexivity|].
  rewrite H. destruct (before x y); simpl; [reflexivity | now rewrite IH].
Qed.

Lemma sort_map {A C : Type} (f : A -> C) (before : A -> A -> bool)
    (before' : C -> C -> bool) (l : list A) :
  (forall a b, before' (f a) (f b) = before a b) ->
  PyList.sort before' (map f l) = map f (PyList.sort before l).
Proof.
  intros H. induction l as [|x l IH]; simpl; [reflexivity|].
  rewrite IH. now apply insert_map.
Qed.

Lemma firstn_seq_le (k n : nat) : (k <= n)%nat -> firstn k (seq 0 n) = seq 0 k.
Proof.
  generalize 0%nat. revert n. induction k as [|k IH]; intros n a H; simpl;
    [reflexivity|].
  destruct n as [|n]; [lia|]. simpl. f_equal. apply IH. lia.
Qed.

Lemma item_nth {A : Type} (l : list A) (i : nat) (dflt : A) :
  (i < length l)%nat -> PyList.item l (Z.of_nat i) = Some (nth i l dflt).
Proof.
  intros H. unfold PyList.item.
  destruct (Z.of_nat i <? 0) eqn:E; [apply Z.ltb_lt in E; lia|].
  rewrite Nat2Z.id. now apply nth_error_nth'.
Qed.

(** The chunks of the document as the method sorts them. *)
Lemma summary_all_chunks (doc : Z) (self : DocumentIndexer) :
  PyList.sort (fun x y => fst x <=? fst y)
    (map (fun it => (Meta.chunk_index (snd it), Meta.text (snd it)))
         (filter (fun it => Meta.document_id (snd it) =? doc)
                 (PyDict.items (metadata self))))
  = map (fun m => (Meta.chunk_index m, Meta.text m))
        (sort_by_chunk_index (records_of doc self)).
Proof.
  unfold sort_by_chunk_index, records_of, PyDict.values, PyDict.items.
  rewrite <- (sort_map (fun m => (Meta.chunk_index m, Meta.text m))
                (fun x y => Meta.chunk_index x <=? Meta.chunk_index y)
                (fun x y => fst x <=? fst y)) by reflexivity.
  f_equal.
  rewrite <- (filter_items_values (fun m => Meta.document_id m =? doc)).
  now rewrite map_map.
Qed.

Lemma flat_map_items {A : Type} (all : list A) (step : Z) (dflt : A)
    (l : list nat) :
  0 <= step ->
  Forall (fun i => (i * Z.to_nat step < length all)%nat) l ->
  flat_map (fun i => match PyList.item all (Z.of_nat i * step) with
                     | Some c => [c]
                     | None => []
                     end) l
  = map (fun i => nth (i * Z.to_nat step) all dflt) l.
Proof.
  intros Hs. induction 1 as [|i l Hi _ IH]; simpl; [reflexivity|].
  replace (Z.of_nat i * step) with (Z.of_nat (i * Z.to_nat step)) by lia.
  rewrite (item_nth all _ dflt Hi), IH. reflexivity.
Qed.

(** The subsample: every [step]-th chunk from the first, [k] of them. *)
Lemma stride_sample {A : Type} (all : list A) (k : Z) (dflt : A) :
  0 < k < Z.of_nat (length all) ->
  let step := Z.of_nat (length all) / k in
  PyList.slice_to k
    (flat_map (fun i => match PyList.item all i with
                        | Some c => [c]
                        | None => []
                        end)
              (PyList.range_step (Z.of_nat (length all)) step))
  = map (fun i => nth (i * Z.to_nat step) all dflt) (seq 0 (Z.to_nat k)).
Proof.
  intros Hk step. set (n := Z.of_nat (length all)) in *.
  assert (Hstep : 1 <= step).
  { unfold step. apply Z.div_le_lower_bound; lia. }
  assert (Hks : k * step <= n).
  { unfold step. apply Z.mul_div_le. lia. }
  unfold PyList.range_step.
  destruct (step <=? 0) eqn:E; [apply Z.leb_le in E; lia|].
  set (cnt := Z.to_nat ((n + step - 1) / step)).
  assert (Hcnt : Z.of_nat cnt * step <= n + step - 1).
  { unfold cnt. rewrite Z2Nat.id by (apply Z.div_pos; lia).
    rewrite Z.mul_comm. apply Z.mul_div_le. lia. }
  assert (Hkc : (Z.to_nat k <= cnt)%nat).
  { unfold cnt. apply Z2Nat.inj_le; [lia | apply Z.div_pos; lia|].
    apply Z.div_le_lower_bound; [lia|]. nia. }
  rewrite flat_map_concat_map, map_map, <- flat_map_concat_map.
  assert (Hfm : flat_map (fun i => match PyList.item all (Z.of_nat i * step) with
                                   | Some c => [c]
                                   | None => []
                                   end) (seq 0 cnt)
                = map (fun i => nth (i * Z.to_nat step) all dflt) (seq 0 cnt)).
  { apply flat_map_items; [lia|]. apply Forall_forall. intros i Hi.
    apply in_seq in Hi. apply Nat2Z.inj_lt. fold n.
    rewrite Nat2Z.inj_mul, Z2Nat.id by lia. nia. }
  rewrite Hfm. unfold PyList.slice_to.
  destruct (k <? 0) eqn:Ek; [apply Z.ltb_lt in Ek; lia|].
  rewrite firstn_map, firstn_seq_le by exact Hkc. reflexivity.
Qed.

(** X20. [get_document_summary_context] returns the texts of all the
    chunks of the document in the order of [chunk_index] when there are
    at most [max_chunks]; when there are more, [n] of them, and
    [max_chunks] is positive, it returns exactly [max_chunks] texts: the
    first chunk and then every chunk [n // max_chunks] places further. *)
Theorem document_summary_context_spec (doc k : Z) (self : DocumentIndexer) :
  let recs := sort_by_chunk_index (records_of doc self) in
  let n := Z.of_nat (length recs) in
  (n <= k -> get_document_summary_context doc k self = map Meta.text recs)
  /\ (0 < k < n ->
      get_document_summary_context doc k self
      = map (fun i => nth (i * Z.to_nat (n / k)) (map Meta.text recs) EmptyString)
            (seq 0 (Z.to_nat k))).
Proof.
  intros recs n.
  unfold get_document_summary_context, get_document_summary_context_try.
  rewrite summary_all_chunks. fold recs.
  set (all := map (fun m => (Meta.chunk_index m, Meta.text m)) recs).
  assert (Hlen : Z.of_nat (length all) = n).
  { unfold all, n. now rewrite length_map. }
  assert (Htexts : map snd all = map Meta.text recs).
  { unfold all. now rewrite map_map. }
  rewrite Hlen. split.
  - intros H. destruct (n >? k) eqn:E; [apply Z.gtb_lt in E; lia|].
    simpl. exact Htexts.
  - intros H. destruct (n >? k) eqn:E.
    2:{ destruct (Z.gtb_spec n k); [discriminate | lia]. }
    unfold floordiv. destruct (k =? 0) eqn:E0; [apply Z.eqb_eq in E0; lia|].
    simpl bind. unfold except_return_empty.
    rewrite <- Hlen.
    rewrite (stride_sample all k (0, EmptyString)) by (rewrite Hlen; exact H).
    rewrite map_map. apply map_ext. intros i.
    rewrite <- Htexts.
    now rewrite <- (map_nth snd all (0, EmptyString)).
Qed.

End SummaryContext.

Lemma find_similar_documents_results_witness :
  Z.of_nat (length (find_similar_documents 1 3 Toy.two_docs)) <= 3.
Proof.
  apply (proj2 (proj2 (proj2 (find_similar_documents_results 1 3 Toy.two_docs)))).
  lia.
Defined.

Lemma find_relevant_context_results_witness :
  Z.of_nat (length (find_relevant_context "x" None 5 Toy.two_docs)) <= 5.
Proof.
  apply (proj1 (proj2 (proj2
           (find_relevant_context_results "x" None 5 Toy.two_docs)))).
  lia.
Defined.

Lemma document_summary_context_spec_witness :
  get_document_summary_context 1 10 Toy.two_docs
  = map Meta.text (sort_by_chunk_index (records_of 1 Toy.two_docs)).
Proof.
  apply (proj1 (document_summary_context_spec 1 10 Toy.two_docs)).
  vm_compute. discriminate.
Defined.

(** * Starting from the files: [_load_index] *)

Section FilesFacts.
Context {B : Backend}.

(** X21. [DocumentIndexer()] loads both files or nothing: when the index
    file and the metadata file are both read, the state is what they
    hold, with the dimension of the index read; when one of them is
    missing or cannot be read, the service starts without index and
    without metadata, and a search on it returns the empty list. *)
Theorem startup_all_or_nothing (fs : disk) :
  match index_file fs, metadata_file fs with
  | Content ix, Content md =>
      __init__ fs = mkIndexer (Some ix) md (Some (d ix))
  | _, _ =>
      index (__init__ fs) = None /\ metadata (__init__ fs) = []
      /\ consistent (__init__ fs)
      /\ forall q k ids, search_similar_chunks q k ids (__init__ fs) = Ok []
  end.
Proof.
  unfold __init__, _load_index.
  destruct (index_file fs) as [| |ix], (metadata_file fs) as [| |md];
    cbn [index metadata]; try reflexivity;
    (split; [reflexivity|]; split; [reflexivity|]; split; [reflexivity|];
     intros q k ids; now apply search_empty_index).
Qed.

(** X22. Consistent stores with an index survive a restart: after a
    [_save_index] in which no write fails, [DocumentIndexer()] gives the
    same index, metadata and dimension back, whatever the files held
    before. Without an index nothing is written. *)
Theorem restart_after_save (self : DocumentIndexer) (fs : disk) :
  consistent self ->
  (index self <> None -> __init__ (saved_files self fs) = self)
  /\ (index self = None -> saved_files self fs = fs).
Proof.
  intros Hc. unfold saved_files, __init__, _load_index, consistent in *.
  destruct self as [[ix|] md dim]; cbn [index metadata dimension] in *.
  - split; [|discriminate]. intros _. destruct Hc as [-> _]. reflexivity.
  - split; [congruence | reflexivity].
Qed.

End FilesFacts.

Lemma restart_after_save_witness :
  __init__ (saved_files Toy.two_docs (mkDisk Missing Unreadable)) = Toy.two_docs.
Proof.
  apply (proj1 (restart_after_save Toy.two_docs (mkDisk Missing Unreadable)
                  toy_two_docs_consistent)).
  discriminate.
Defined.

(** * The search endpoint *)

Section EndpointFacts.
Context {B : Backend}.

(** X23. [search_documents] answers a query that is empty or white space
    with status 400, before the index is used; any other query on an
    index without vectors gets the empty result list; a response carries
    the query as it was sent and the result of [search_similar_chunks];
    the only other status is 500, with the exception of the search. *)
Theorem search_documents_responses (query : string) (ids : option (list Z))
    (top_k : Z) (self : DocumentIndexer) :
  (PyStr.strip query = EmptyString ->
   search_documents query ids top_k self
   = HTTPException 400 (Text "Query cannot be empty"))
  /\ (PyStr.strip query <> EmptyString -> index_empty self ->
      search_documents query ids top_k self = Respond ([], query))
  /\ (forall body, search_documents query ids top_k self = Respond body ->
        PyStr.strip query <> EmptyString /\ snd body = query
        /\ search_similar_chunks query top_k ids self = Ok (fst body))
  /\ (forall c w, search_documents query ids top_k self = HTTPException c w ->
        (c = 400 /\ PyStr.strip query = EmptyString)
        \/ (c = 500 /\ exists e, w = StrOf e /\
            search_similar_chunks query top_k ids self = Raise e)).
Proof.
  unfold search_documents, PyStr.is_empty.
  destruct (PyStr.strip query) as [|a r] eqn:Es.
  - split; [reflexivity|]. split; [congruence|]. split; [discriminate|].
    intros c w H. injection H as <- _. now left.
  - split; [discriminate|]. split; [|split].
    + intros _ He. now rewrite (search_empty_index query top_k ids self He).
    + intros body H.
      destruct (search_similar_chunks query top_k ids self) as [res|e];
        [|discriminate].
      injection H as <-. split; [discriminate|]. now split.
    + intros c w H.
      destruct (search_similar_chunks query top_k ids self) as [res|e];
        [discriminate|].
      injection H as <- <-. right. split; [reflexivity|]. now exists e.
Qed.

End EndpointFacts.

Lemma search_documents_responses_witness :
  search_documents "   " None 5 Toy.two_docs
  = HTTPException 400 (Text "Query cannot be empty").
Proof.
  apply (proj1 (search_documents_responses "   " None 5 Toy.two_docs)).
  reflexivity.
Defined.

(** * The sources of an answer: [_format_context_sources] *)

Lemma length_append (a b : string) :
  String.length (a ++ b) = (String.length a + String.length b)%nat.
Proof. induction a as [|c a IH]; simpl; [reflexivity | now rewrite IH]. Qed.

Lemma length_substring_0 (n : nat) (s : string) :
  String.length (String.substring 0 n s) = Nat.min n (String.length s).
Proof.
  revert s. induction n as [|n IH]; intros [|c s]; simpl; try reflexivity.
  now rewrite IH.
Qed.

Lemma substring_0_prefix (n : nat) (s : string) :
  exists rest, s = (String.substring 0 n s ++ rest)%string.
Proof.
  revert s. induction n as [|n IH]; intros [|c s]; simpl.
  - now exists EmptyString.
  - now exists (String c s).
  - now exists EmptyString.
  - destruct (IH s) as [rest H]. exists rest. now rewrite <- H.
Qed.

Lemma make_snippet_spec (text : string) :
  PyStr.len (make_snippet text) <= 203
  /\ (PyStr.len text <= 200 -> make_snippet text = text)
  /\ (200 < PyStr.len text ->
      PyStr.len (make_snippet text) = 203
      /\ exists head rest,
           PyStr.len head = 200 /\ text = (head ++ rest)%string
           /\ make_snippet text = (head ++ "...")%string).
Proof.
  unfold make_snippet, PyStr.len.
  destruct (Z.of_nat (String.length text) >? 200) eqn:E.
  - apply Z.gtb_lt in E.
    assert (Hl : String.length (String.substring 0 200 text) = 200%nat).
    { rewrite length_substring_0. lia. }
    assert (Hs : String.length (String.substring 0 200 text ++ "...") = 203%nat).
    { rewrite length_append, Hl. reflexivity. }
    split; [rewrite Hs; lia|]. split; [lia|]. intros _.
    split; [rewrite Hs; lia|].
    destruct (substring_0_prefix 200 text) as [rest Hr].
    exists (String.substring 0 200 text), rest.
    split; [rewrite Hl; lia|]. split; [exact Hr | reflexivity].
  - assert (Z.of_nat (String.length text) <= 200).
    { destruct (Z.gtb_spec (Z.of_nat (String.length text)) 200); [discriminate | lia]. }
    split; [lia|]. split; [reflexivity | lia].
Qed.

(** X24. [_format_context_sources] gives one source for each chunk, in
    the same order, with the chunk's document, title and chunk index. The
    snippet is never longer than 203 characters: it is the text itself
    when the text has at most 200 characters, and otherwise the first 200
    characters of the text followed by three full stops. *)
Theorem format_context_sources_snippets (relevant_chunks : list Context.t) :
  Forall2 (fun chunk source =>
             let text := Hit.text (Context.hit chunk) in
             Source.document_id source = Hit.document_id (Context.hit chunk)
             /\ Source.document_title source
                = Hit.document_title (Context.hit chunk)
             /\ Source.chunk_index source = Hit.chunk_index (Context.hit chunk)
             /\ PyStr.len (Source.snippet source) <= 203
             /\ (PyStr.len text <= 200 -> Source.snippet source = text)
             /\ (200 < PyStr.len text ->
                 exists head rest,
                   PyStr.len head = 200 /\ text = (head ++ rest)%string
                   /\ Source.snippet source = (head ++ "...")%string))
          relevant_chunks (_format_context_sources relevant_chunks).
Proof.
  induction relevant_chunks as [|chunk l IH]; [constructor|].
  cbn [_format_context_sources map]. constructor; [|exact IH].
  cbn [Source.document_id Source.document_title Source.chunk_index Source.snippet].
  destruct (make_snippet_spec (Hit.text (Context.hit chunk))) as (H1 & H2 & H3).
  split; [reflexivity|]. split; [reflexivity|]. split; [reflexivity|].
  split; [exact H1|]. split; [exact H2|].
  intros Hlong. exact (proj2 (H3 Hlong)).
Qed.

Lemma format_context_sources_snippets_witness :
  let chunk := Context.mk (Hit.mk 0 (1 # 2) (Some 1) (Some 0) "A short text." "t" 13)
                          "r" in
  map Source.snippet (_format_context_sources [chunk]) = ["A short text."].
Proof.
  intros chunk.
  pose proof (format_context_sources_snippets [chunk]) as H.
  cbn [_format_context_sources map] in H.
  inversion H as [|c s l l' Hcs _]; subst.
  assert (Hle : PyStr.len (Hit.text (Context.hit chunk)) <= 200)
    by (vm_compute; discriminate).
  exact (f_equal (fun x => [x])
           (proj1 (proj2 (proj2 (proj2 (proj2 Hcs)))) Hle)).
Defined.

(** * The model manager *)

Section DictFacts.
Context {V : Type}.

Lemma dict_has_set (m : PyDict.dict string V) (k : string) (v : V) (k' : string) :
  dict_has (PyDict.set String.eqb m k v) k' = String.eqb k' k || dict_has m k'.
Proof.
  unfold dict_has. induction m as [|[k0 v0] r IH]; cbn [PyDict.set existsb fst].
  - rewrite String.eqb_sym. reflexivity.
  - destruct (String.eqb k0 k) eqn:E; cbn [existsb fst].
    + apply String.eqb_eq in E. subst k0.
      rewrite (String.eqb_sym k' k).
      destruct (String.eqb k k'); reflexivity.
    + rewrite IH.
      destruct (String.eqb k0 k'), (String.eqb k' k); reflexivity.
Qed.

Lemma dict_get_set (m : PyDict.dict string V) (k : string) (v : V) :
  PyDict.get String.eqb (PyDict.set String.eqb m k v) k = Some v.
Proof.
  induction m as [|[k0 v0] r IH]; cbn [PyDict.set PyDict.get].
  - now rewrite String.eqb_refl.
  - destruct (String.eqb k0 k) eqn:E; cbn [PyDict.get]; rewrite E;
      [reflexivity | exact IH].
Qed.

Lemma dict_has_del (m : PyDict.dict string V) (k k' : string) :
  dict_has (dict_del m k) k' = dict_has m k' && negb (String.eqb k' k).
Proof.
  unfold dict_has, dict_del.
  induction m as [|[k0 v0] r IH]; cbn [filter existsb fst]; [reflexivity|].
  destruct (String.eqb k0 k) eqn:E; cbn [negb existsb fst]; rewrite IH.
  - apply String.eqb_eq in E. subst k0.
    destruct (String.eqb k k') eqn:E'; [|reflexivity].
    apply String.eqb_eq in E'. subst k'. rewrite String.eqb_refl.
    cbn [negb orb]. now rewrite !andb_false_r.
  - destruct (String.eqb k0 k') eqn:E'; [|reflexivity].
    apply String.eqb_eq in E'. subst k0. rewrite E. reflexivity.
Qed.

Lemma dict_has_get (m : PyDict.dict string V) (k : string) :
  dict_has m k = true -> exists v, PyDict.get String.eqb m k = Some v.
Proof.
  unfold dict_has. induction m as [|[k0 v0] r IH]; cbn [existsb PyDict.get fst].
  - discriminate.
  - destruct (String.eqb k0 k); [intros _; now exists v0 | exact IH].
Qed.

Lemma dict_has_none (m : PyDict.dict string V) :
  (forall k, dict_has m k = false) -> m = [].
Proof.
  destruct m as [|[k0 v0] r]; [reflexivity|]. intros H.
  specialize (H k0). unfold dict_has in H. cbn [existsb fst] in H.
  rewrite String.eqb_refl in H. discriminate.
Qed.

Lemma dict_has_keys (m : PyDict.dict string V) (k : string) :
  dict_has m k = existsb (String.eqb k) (PyDict.keys m).
Proof.
  unfold dict_has, PyDict.keys.
  induction m as [|[k0 v0] r IH]; cbn [existsb map fst]; [reflexivity|].
  now rewrite IH, (String.eqb_sym k0 k).
Qed.

End DictFacts.

Section ModelFacts.
Variables model tokenizer : Type.
Variable download : string -> outcome (model * option tokenizer).

Lemma new_manager_flags : flags_match model tokenizer (new_manager model tokenizer).
Proof.
  unfold flags_match, new_manager. cbn.
  split; [reflexivity|]. split; [reflexivity|]. split; [reflexivity|].
  split; discriminate.
Qed.

Lemma load_summarization_flags (self : ModelManager model tokenizer) :
  flags_match model tokenizer self ->
  flags_match model tokenizer (snd (load_summarization_model model tokenizer download self)).
Proof.
  intros H0. pose proof H0 as (H1 & H2 & H3 & H4 & H5).
  unfold load_summarization_model.
  destruct (_summarization_loaded model tokenizer self); [exact H0|].
  destruct (download "summarization") as [[m t]|e]; [|exact H0].
  cbn [snd]. unfold flags_match.
  cbn [models tokenizers _summarization_loaded _embedding_loaded _qa_loaded].
  rewrite !dict_has_set.
  split; [reflexivity|]. split; [exact H2|]. split; [exact H3|]. split.
  - intros k. rewrite dict_has_set. intros H.
    apply orb_true_iff in H as [H|H]; [|now apply H4].
    left. now apply String.eqb_eq.
  - intros k. rewrite !dict_has_set. intros H.
    apply orb_true_iff in H as [H|H]; [now rewrite H|].
    rewrite (H5 k H). apply orb_true_r.
Qed.

Lemma load_embedding_flags (self : ModelManager model tokenizer) :
  flags_match model tokenizer self ->
  flags_match model tokenizer (snd (load_embedding_model model tokenizer download self)).
Proof.
  intros H0. pose proof H0 as (H1 & H2 & H3 & H4 & H5).
  unfold load_embedding_model.
  destruct (_embedding_loaded model tokenizer self); [exact H0|].
  destruct (download "embedding") as [[m t]|e]; [|exact H0].
  cbn [snd]. unfold flags_match.
  cbn [models tokenizers _summarization_loaded _embedding_loaded _qa_loaded].
  rewrite !dict_has_set.
  split; [exact H1|]. split; [reflexivity|]. split; [exact H3|]. split.
  - intros k. rewrite dict_has_set. intros H.
    apply orb_true_iff in H as [H|H]; [|now apply H4].
    right. left. now apply String.eqb_eq.
  - intros k. rewrite dict_has_set. intros H.
    rewrite (H5 k H). apply orb_true_r.
Qed.

Lemma load_qa_flags (self : ModelManager model tokenizer) :
  flags_match model tokenizer self ->
  flags_match model tokenizer (snd (load_qa_model model tokenizer download self)).
Proof.
  intros H0. pose proof H0 as (H1 & H2 & H3 & H4 & H5).
  unfold load_qa_model.
  destruct (_qa_loaded model tokenizer self); [exact H0|].
  destruct (download "qa") as [[m t]|e]; [|exact H0].
  cbn [snd]. unfold flags_match.
  cbn [models tokenizers _summarization_loaded _embedding_loaded _qa_loaded].
  rewrite !dict_has_set.
  split; [exact H1|]. split; [exact H2|]. split; [reflexivity|]. split.
  - intros k. rewrite dict_has_set. intros H.
    apply orb_true_iff in H as [H|H]; [|now apply H4].
    right. right. now apply String.eqb_eq.
  - intros k. rewrite !dict_has_set. intros H.
    apply orb_true_iff in H as [H|H]; [now rewrite H|].
    rewrite (H5 k H). apply orb_true_r.
Qed.

Lemma load_all_flags (self : ModelManager model tokenizer) :
  flags_match model tokenizer self ->
  flags_match model tokenizer (snd (load_all_models model tokenizer download self)).
Proof.
  intros H. unfold load_all_models.
  pose proof (load_embedding_flags self H) as He.
  destruct (load_embedding_model model tokenizer download self) as [[[]|e] s1];
    cbn [snd] in *; [|exact He].
  pose proof (load_summarization_flags s1 He) as Hs.
  destruct (load_summarization_model model tokenizer download s1) as [[[]|e] s2];
    cbn [snd] in *; [|exact Hs].
  now apply load_qa_flags.
Qed.

(** What [unload_model] leaves in the two dicts. *)
Lemma unload_model_has (k : string) (self : ModelManager model tokenizer) :
  flags_match model tokenizer self ->
  (forall k', dict_has (models model tokenizer (unload_model model tokenizer k self)) k'
              = dict_has (models model tokenizer self) k' && negb (String.eqb k' k))
  /\ (forall k', dict_has (tokenizers model tokenizer (unload_model model tokenizer k self)) k'
                 = dict_has (tokenizers model tokenizer self) k'
                   && negb (String.eqb k' k)).
Proof.
  intros (_ & _ & _ & _ & H5). unfold unload_model.
  destruct (dict_has (models model tokenizer self) k) eqn:Ek.
  - cbn [models tokenizers]. split; intros k'; [apply dict_has_del|].
    destruct (dict_has (tokenizers model tokenizer self) k) eqn:Et;
      [apply dict_has_del|].
    destruct (String.eqb k' k) eqn:E; cbn [negb];
      [|now rewrite andb_true_r].
    apply String.eqb_eq in E. subst k'. now rewrite Et.
  - split; intros k'.
    + destruct (String.eqb k' k) eqn:E; cbn [negb];
        [|now rewrite andb_true_r].
      apply String.eqb_eq in E. subst k'. now rewrite Ek.
    + destruct (String.eqb k' k) eqn:E; cbn [negb];
        [|now rewrite andb_true_r].
      apply String.eqb_eq in E. subst k'.
      destruct (dict_has (tokenizers model tokenizer self) k) eqn:Et;
        [|reflexivity].
      rewrite (H5 k Et) in Ek. discriminate.
Qed.

Lemma unload_model_flags (k : string) (self : ModelManager model tokenizer) :
  flags_match model tokenizer self ->
  flags_match model tokenizer (unload_model model tokenizer k self).
Proof.
  intros H. destruct (unload_model_has k self H) as [Hm Ht].
  destruct H as (H1 & H2 & H3 & H4 & H5).
  unfold flags_match. rewrite !Hm.
  assert (Hfl : _summarization_loaded model tokenizer (unload_model model tokenizer k self)
                = _summarization_loaded model tokenizer self
                  && negb (String.eqb "summarization" k)
                /\ _embedding_loaded model tokenizer (unload_model model tokenizer k self)
                   = _embedding_loaded model tokenizer self
                     && negb (String.eqb "embedding" k)
                /\ _qa_loaded model tokenizer (unload_model model tokenizer k self)
                   = _qa_loaded model tokenizer self && negb (String.eqb "qa" k)).
  { unfold unload_model.
    destruct (dict_has (models model tokenizer self) k) eqn:Ek.
    - destruct (H4 k Ek) as [-> | [-> | ->]];
        cbn [_summarization_loaded _embedding_loaded _qa_loaded String.eqb
             Ascii.eqb Bool.eqb andb negb];
        rewrite ?andb_true_r, ?andb_false_r; now repeat split.
    - assert (Hk : forall k', dict_has (models model tokenizer self) k' = true ->
                              String.eqb k' k = false).
      { intros k' Hk'. apply String.eqb_neq. intros ->. congruence. }
      repeat split.
      + destruct (_summarization_loaded model tokenizer self) eqn:E; [|reflexivity].
        symmetry in H1. now rewrite (Hk _ H1).
      + destruct (_embedding_loaded model tokenizer self) eqn:E; [|reflexivity].
        symmetry in H2. now rewrite (Hk _ H2).
      + destruct (_qa_loaded model tokenizer self) eqn:E; [|reflexivity].
        symmetry in H3. now rewrite (Hk _ H3). }
  destruct Hfl as (F1 & F2 & F3). rewrite F1, F2, F3, H1, H2, H3.
  split; [reflexivity|]. split; [reflexivity|]. split; [reflexivity|]. split.
  - intros k'. rewrite Hm. intros Hk'. apply andb_true_iff in Hk' as [Hk' _].
    now apply H4.
  - intros k'. rewrite Ht, Hm. intros Hk'. apply andb_true_iff in Hk' as [Hk' Hne].
    now rewrite (H5 k' Hk'), Hne.
Qed.

Lemma unload_fold (ks : list string) (self : ModelManager model tokenizer) :
  flags_match model tokenizer self ->
  let self' := fold_left (fun st k => unload_model model tokenizer k st) ks self in
  flags_match model tokenizer self'
  /\ forall k, dict_has (models model tokenizer self') k
               = dict_has (models model tokenizer self) k
                 && negb (existsb (String.eqb k) ks).
Proof.
  revert self. induction ks as [|k0 ks IH]; intros self H; cbn [fold_left existsb].
  - split; [exact H|]. intros k. cbn [negb]. now rewrite andb_true_r.
  - destruct (IH _ (unload_model_flags k0 self H)) as [Hf Hh].
    split; [exact Hf|]. intros k. rewrite Hh.
    rewrite (proj1 (unload_model_has k0 self H)).
    rewrite negb_orb. now rewrite andb_assoc.
Qed.

(** X25. The manager keeps its flags and its dicts together: a loaded
    flag is set exactly when the model is in [models], which holds the
    three model types only, and a tokenizer is kept only beside its
    model. This holds for a new manager and after every load (also one
    whose download raises), getter, [unload_model] of any name and
    [unload_all_models]. *)
Theorem manager_flags_preserved (self : ModelManager model tokenizer) :
  flags_match model tokenizer (new_manager model tokenizer)
  /\ (flags_match model tokenizer self ->
      flags_match model tokenizer
        (snd (load_summarization_model model tokenizer download self))
      /\ flags_match model tokenizer
           (snd (load_embedding_model model tokenizer download self))
      /\ flags_match model tokenizer
           (snd (load_qa_model model tokenizer download self))
      /\ flags_match model tokenizer
           (snd (load_all_models model tokenizer download self))
      /\ flags_match model tokenizer
           (snd (initialize_models model tokenizer download self))
      /\ flags_match model tokenizer
           (snd (get_embedding_model model tokenizer download self))
      /\ (forall k, flags_match model tokenizer (unload_model model tokenizer k self))
      /\ flags_match model tokenizer (unload_all_models model tokenizer self)).
Proof.
  split; [apply new_manager_flags|]. intros H.
  split; [now apply load_summarization_flags|].
  split; [now apply load_embedding_flags|].
  split; [now apply load_qa_flags|].
  split; [now apply load_all_flags|].
  split.
  { unfold initialize_models. pose proof (load_all_flags self H) as Ha.
    destruct (load_all_models model tokenizer download self) as [[[]|e] s'];
      exact Ha. }
  split.
  { unfold get_embedding_model.
    destruct (_embedding_loaded model tokenizer self) eqn:E; cbn [negb].
    - destruct (PyDict.get String.eqb (models model tokenizer self) "embedding");
        exact H.
    - pose proof (load_embedding_flags self H) as He.
      destruct (load_embedding_model model tokenizer download self) as [[[]|e] s'];
        cbn [snd] in *; [|exact He].
      destruct (PyDict.get String.eqb (models model tokenizer s') "embedding");
        exact He. }
  split; [intros k; now apply unload_model_flags|].
  exact (proj1 (unload_fold _ self H)).
Qed.

(** X26. [get_embedding_model] never fails on a missing key: with flags
    and dicts together it returns the model kept under "embedding",
    downloading it only when it is not loaded, and the next call returns
    the same model and changes nothing; when the download raises, that
    exception comes out and the manager is as before. *)
Theorem get_embedding_model_cached (self : ModelManager model tokenizer) :
  flags_match model tokenizer self ->
  match get_embedding_model model tokenizer download self with
  | (Got _ m, self') =>
      PyDict.get String.eqb (models model tokenizer self') "embedding" = Some m
      /\ _embedding_loaded model tokenizer self' = true
      /\ get_embedding_model model tokenizer download self' = (Got _ m, self')
      /\ (if _embedding_loaded model tokenizer self then self' = self
          else exists t, download "embedding" = Ok (m, t))
  | (Failed _ e, self') =>
      self' = self /\ _embedding_loaded model tokenizer self = false
      /\ download "embedding" = Raise e
  | (KeyError _ _, _) => False
  end.
Proof.
  intros (H1 & H2 & H3 & H4 & H5). unfold get_embedding_model at 1.
  destruct (_embedding_loaded model tokenizer self) eqn:E; cbn [negb].
  - symmetry in H2. destruct (dict_has_get _ _ H2) as [m Hm]. rewrite Hm.
    split; [exact Hm|]. split; [exact E|]. split; [|reflexivity].
    unfold get_embedding_model. rewrite E. cbn [negb]. now rewrite Hm.
  - unfold load_embedding_model. rewrite E.
    destruct (download "embedding") as [[m t]|e] eqn:Ed.
    + cbn [models]. rewrite dict_get_set.
      cbn [models _embedding_loaded]. rewrite dict_get_set.
      split; [reflexivity|]. split; [reflexivity|]. split; [|now exists t].
      unfold get_embedding_model.
      cbn [_embedding_loaded negb models]. now rewrite dict_get_set.
    + now repeat split.
Qed.

(** X27. [unload_all_models] leaves nothing behind: with flags and dicts
    together, afterwards [models] and [tokenizers] are empty and the
    three flags are off, so that the next [get_embedding_model] downloads
    the model again. *)
Theorem unload_all_models_clears (self : ModelManager model tokenizer) :
  flags_match model tokenizer self ->
  let self' := unload_all_models model tokenizer self in
  self' = new_manager model tokenizer
  /\ fst (get_embedding_model model tokenizer download self')
     = match download "embedding" with
       | Ok (m, _) => Got _ m
       | Raise e => Failed _ e
       end.
Proof.
  intros H self'.
  destruct (unload_fold (PyDict.keys (models model tokenizer self)) self H)
    as [Hf Hh].
  fold (unload_all_models model tokenizer self) in Hf, Hh. fold self' in Hf, Hh.
  assert (Hm : models model tokenizer self' = []).
  { apply dict_has_none. intros k. rewrite Hh, <- dict_has_keys.
    now destruct (dict_has (models model tokenizer self) k). }
  destruct Hf as (F1 & F2 & F3 & _ & F5).
  assert (Ht : tokenizers model tokenizer self' = []).
  { apply dict_has_none. intros k.
    destruct (dict_has (tokenizers model tokenizer self') k) eqn:E; [|reflexivity].
    apply F5 in E. rewrite Hm in E. discriminate. }
  rewrite Hm in F1, F2, F3. cbn in F1, F2, F3.
  assert (Hs : self' = new_manager model tokenizer).
  { destruct self' as [ms ts a b c]. cbn in *. now subst. }
  split; [exact Hs|]. rewrite Hs.
  unfold get_embedding_model, new_manager, load_embedding_model.
  cbn [_embedding_loaded negb].
  destruct (download "embedding") as [[m t]|e]; [|reflexivity].
  cbn [models]. now rewrite dict_get_set.
Qed.

End ModelFacts.

Lemma manager_flags_preserved_witness :
  flags_match string unit
    (snd (load_all_models string unit (fun k => Ok (k, None))
            (new_manager string unit))).
Proof.
  apply (proj2 (manager_flags_preserved string unit (fun k => Ok (k, None))
                  (new_manager string unit))).
  apply new_manager_flags.
Defined.

Lemma get_embedding_model_cached_witness :
  _embedding_loaded string unit
    (snd (get_embedding_model string unit (fun k => Ok (k, None))
            (new_manager string unit))) = true.
Proof.
  pose proof (get_embedding_model_cached string unit (fun k => Ok (k, None))
                (new_manager string unit) (new_manager_flags string unit)) as H.
  cbv in H. exact (proj1 (proj2 H)).
Defined.

Lemma unload_all_models_clears_witness :
  unload_all_models string unit
    (snd (load_all_models string unit (fun k => Ok (k, None))
            (new_manager string unit)))
  = new_manager string unit.
Proof.
  apply (proj1 (unload_all_models_clears string unit (fun k => Ok (k, None)) _
                  (load_all_flags string unit (fun k => Ok (k, None)) _
                     (new_manager_flags string unit)))).
Defined.
